(** * Cost-Optimization-Analyzer: ingestion, aggregation, anomaly detection
      and the reserved-instance rule

    A shallow embedding of the batch services of the back end
    (ingestionService, anomalyDetectionService, recommendationService) and of
    the Mongoose schemas they write to, followed by the properties the
    specification states about them.

    Conventions of the embedding:
    - a JavaScript value that may be [undefined] is an [option];
    - a JavaScript number is an element of a type [num] with the operations
      the services use (class [Number], class [Host]); the instance
      [float_Number] is IEEE binary64, the instance [Qc_Number] is exact
      rational arithmetic;
    - a [Date] is its time value (milliseconds since the epoch); the host
      time zone is UTC, so local midnight is a multiple of a day;
    - a [Map] or an object used as a dictionary is an association list in
      insertion order; for an object this is the list of its own
      properties, and it is what the code sees as long as no key is an
      array index or the name of a property every object inherits;
    - a collection is the list of its documents in insertion order; a
      document holds the paths the services compute with, not the [_id]
      and the time stamps the driver adds;
    - the handler of a CSV row runs to completion before the next row is
      delivered, which is what the stream does as long as no batch fills:
      the handler awaits nothing else.

    The properties that rest on one of the last three carry it as a
    hypothesis ([single_batch], [ordinary_account], [ordinary_accounts]) or
    are stated of the computed paths ([aggregate_values]). *)

From Stdlib Require Import List String Ascii ZArith Bool Arith Lia.
From Stdlib Require Import Permutation.
From Stdlib Require Import PrimFloat FloatOps SpecFloat.
From Stdlib Require Import QArith Qcanon.
Import ListNotations.

Local Open Scope list_scope.
Local Open Scope bool_scope.
Local Open Scope string_scope.
Local Open Scope Z_scope.

(** ** The host language *)

Module JS.

(** *** Truthiness and the operator [||] *)

Class Truthy (A : Type) := truthy : A -> bool.

#[export] Instance Truthy_string : Truthy string :=
fun s => negb (String.eqb s "").

(** [a || b]: [a] when it is truthy, [b] otherwise (whatever [b] is). *)
Definition or {A : Type} `{Truthy A} (a b : option A) : option A :=
match a with
| Some x => if truthy x then a else b
| None => b
end.

(** [!a] *)
Definition not {A : Type} `{Truthy A} (a : option A) : bool :=
match a with
| Some x => negb (truthy x)
| None => true
end.

(** [a || d] where [d] is a literal: the result is never [undefined]. *)
Definition or_else {A : Type} `{Truthy A} (a : option A) (d : A) : A :=
match a with
| Some x => if truthy x then x else d
| None => d
end.

(** *** Numbers *)

(** What the ingestion and aggregation code does with a number: the literal
  [0], [+], the conversion to a boolean ([0], [-0] and [NaN] are falsy),
  and the comparison [===], which is also how the store compares the
  numbers of an index key. *)
Class Number (num : Type) := {
zero : num;
add : num -> num -> num;
num_truthy : num -> bool;
strict_eq : num -> num -> bool
}.

#[export] Instance Truthy_num {num : Type} `{Number num} : Truthy num :=
num_truthy.

(** The numeric string a prefix of the input spells (ECMAScript
  StrDecimalLiteral): [DecFinite neg m e] is [(-1)^neg * m * 10^e]. *)
Inductive StrDecimal : Type :=
| DecNaN
| DecInfinity (neg : bool)
| DecFinite (neg : bool) (mantissa : Z) (exp10 : Z).

(** The rest of the arithmetic, which the detectors use: the rounding of a
  decimal literal to a number, [-], [*], [/], [Math.pow(x, 2)],
  [Math.sqrt], [Math.abs], [>] and [toFixed(2)]. *)
Class Host (num : Type) `{Number num} := {
of_decimal : StrDecimal -> num;
sub : num -> num -> num;
mul : num -> num -> num;
div : num -> num -> num;
Math_pow2 : num -> num;
Math_sqrt : num -> num;
Math_abs : num -> num;
gt : num -> num -> bool;
toFixed2 : num -> string
}.

Section Literals.
Context {num : Type} `{Host num}.

(** [a < b] *)
Definition lt (a b : num) : bool := gt b a.

(** The decimal literal [m / 10^k], e.g. [lit 25 1] for [2.5]. *)
Definition lit (m : Z) (k : nat) : num :=
of_decimal (DecFinite (m <? 0) (Z.abs m) (- Z.of_nat k)).

(** The [length] of an array, as a number. *)
Definition of_length (n : nat) : num := lit (Z.of_nat n) 0.
End Literals.

(** *** Strings *)

Definition is_digit (c : ascii) : bool :=
let n := nat_of_ascii c in (48 <=? n)%nat && (n <=? 57)%nat.

Definition is_lower (c : ascii) : bool :=
let n := nat_of_ascii c in (97 <=? n)%nat && (n <=? 122)%nat.

Definition digit_val (c : ascii) : Z := Z.of_nat (nat_of_ascii c - 48).

Definition digit_char (d : Z) : ascii := ascii_of_nat (48 + Z.to_nat d).

Definition to_lower (c : ascii) : ascii :=
let n := nat_of_ascii c in
if (65 <=? n)%nat && (n <=? 90)%nat then ascii_of_nat (n + 32) else c.

Fixpoint lowercase (s : string) : string :=
match s with
| EmptyString => EmptyString
| String c s' => String (to_lower c) (lowercase s')
end.

(** [s.startsWith(p)] *)
Definition startsWith (s p : string) : bool := String.prefix p s.

(** [s.substring(n)] *)
Definition substring_from (n : nat) (s : string) : string :=
String.substring n (String.length s - n) s.

(** Is [p] a substring of [s]? *)
Fixpoint includes (s p : string) : bool :=
String.prefix p s ||
match s with
| EmptyString => false
| String _ s' => includes s' p
end.

(** [/p/i.test(s)] for a pattern [p] made of letters and digits only. *)
Definition test_ci (p s : string) : bool :=
includes (lowercase s) (lowercase p).

(** [s.split(sep)] for a one-character separator. *)
Fixpoint split_aux (sep : ascii) (s : string) (cur : string) : list string :=
match s with
| EmptyString => [cur]
| String c s' =>
    if Ascii.eqb c sep then cur :: split_aux sep s' ""
    else split_aux sep s' (cur ++ String c "")
end.

Definition split (sep : ascii) (s : string) : list string :=
split_aux sep s "".

(** The maximal prefix of [s] whose characters satisfy [p], and the rest. *)
Fixpoint span (p : ascii -> bool) (s : string) : string * string :=
match s with
| EmptyString => ("", "")
| String c s' =>
    if p c then let '(a, b) := span p s' in (String c a, b)
    else ("", s)
end.

(** The leftmost position at which the anchored matcher [f] succeeds. *)
Fixpoint search (f : string -> option string) (s : string) : option string :=
match f s with
| Some r => Some r
| None =>
    match s with
    | EmptyString => None
    | String _ s' => search f s'
    end
end.

(** [n] written with exactly [width] decimal digits. *)
Fixpoint pad (width : nat) (n : Z) : string :=
match width with
| O => ""
| S w => pad w (n / 10) ++ String (digit_char (n mod 10)) ""
end.

(** *** parseFloat *)

Definition is_space (c : ascii) : bool :=
let n := nat_of_ascii c in
(n =? 32)%nat || ((9 <=? n)%nat && (n <=? 13)%nat).

Fixpoint skip_spaces (s : string) : string :=
match s with
| String c s' => if is_space c then skip_spaces s' else s
| EmptyString => s
end.

Fixpoint digits_value (s : string) (acc : Z) : Z :=
match s with
| EmptyString => acc
| String c s' => digits_value s' (10 * acc + digit_val c)
end.

(** An exponent part [e[+-]ddd] at the head of [s], when there is one. *)
Definition scan_exponent (s : string) : Z :=
match s with
| String c s1 =>
    if Ascii.eqb (to_lower c) "e"%char then
      let '(neg, s2) :=
        match s1 with
        | String "-"%char r => (true, r)
        | String "+"%char r => (false, r)
        | _ => (false, s1)
        end in
      let '(ds, _) := span is_digit s2 in
      if String.eqb ds "" then 0
      else if neg then - digits_value ds 0 else digits_value ds 0
    else 0
| EmptyString => 0
end.

(** The longest prefix of the trimmed string that is a decimal literal. *)
Definition scan_decimal (s : string) : StrDecimal :=
let s0 := skip_spaces s in
let '(neg, s1) :=
  match s0 with
  | String "-"%char r => (true, r)
  | String "+"%char r => (false, r)
  | _ => (false, s0)
  end in
if String.prefix "Infinity" s1 then DecInfinity neg
else
  let '(ip, s2) := span is_digit s1 in
  let '(fp, s3) :=
    match s2 with
    | String "."%char r => span is_digit r
    | _ => ("", s2)
    end in
  if String.eqb ip "" && String.eqb fp "" then DecNaN
  else
    DecFinite neg (digits_value (ip ++ fp) 0)
      (scan_exponent s3 - Z.of_nat (String.length fp)).

Definition parseFloat {num : Type} `{Host num} (s : string) : num :=
of_decimal (scan_decimal s).

(** *** Number(s) *)

Definition all_spaces (s : string) : bool :=
String.eqb (skip_spaces s) "".

Definition is_hex (c : ascii) : bool :=
let n := nat_of_ascii (to_lower c) in
is_digit c || ((97 <=? n)%nat && (n <=? 102)%nat).

Definition is_octal (c : ascii) : bool :=
let n := nat_of_ascii c in (48 <=? n)%nat && (n <=? 55)%nat.

Definition is_binary (c : ascii) : bool :=
let n := nat_of_ascii c in (48 <=? n)%nat && (n <=? 49)%nat.

(** What follows an exponent part at the head of [s], when the part is
  absent or well formed. *)
Definition after_exponent (s : string) : option string :=
match s with
| String c s1 =>
    if Ascii.eqb (to_lower c) "e"%char then
      let s2 :=
        match s1 with
        | String "-"%char r => r
        | String "+"%char r => r
        | _ => s1
        end in
      let '(ds, rest) := span is_digit s2 in
      if String.eqb ds "" then None else Some rest
    else Some s
| EmptyString => Some s
end.

(** The digits of a literal in another base, to the end of the string. *)
Definition integer_in (digit : ascii -> bool) (s : string) : bool :=
let '(ds, rest) := span digit s in
negb (String.eqb ds "") && all_spaces rest.

(** [!isNaN(Number(s))]: the trimmed string is empty, a decimal literal,
  or an integer literal in base 2, 8 or 16 (ECMAScript StringToNumber). *)
Definition numeric_string (s : string) : bool :=
let s0 := skip_spaces s in
match s0 with
| EmptyString => true
| String "0"%char (String b r) =>
    if Ascii.eqb (to_lower b) "x"%char then integer_in is_hex r
    else if Ascii.eqb (to_lower b) "o"%char then integer_in is_octal r
    else if Ascii.eqb (to_lower b) "b"%char then integer_in is_binary r
    else
      let '(ip, s2) := span is_digit s0 in
      let '(_, s3) :=
        match s2 with
        | String "."%char r' => span is_digit r'
        | _ => ("", s2)
        end in
      match after_exponent s3 with
      | Some rest => all_spaces rest
      | None => false
      end
| _ =>
    let s1 :=
      match s0 with
      | String "-"%char r => r
      | String "+"%char r => r
      | _ => s0
      end in
    if String.prefix "Infinity" s1
    then all_spaces (String.substring 8 (String.length s1 - 8) s1)
    else
      let '(ip, s2) := span is_digit s1 in
      let '(fp, s3) :=
        match s2 with
        | String "."%char r => span is_digit r
        | _ => ("", s2)
        end in
      if String.eqb ip "" && String.eqb fp "" then false
      else
        match after_exponent s3 with
        | Some rest => all_spaces rest
        | None => false
        end
end.

(** *** Dates *)

Definition Date : Type := Z.

(** A [Date] object: a time value, or the Invalid Date. *)
Inductive JSDate : Type :=
| ValidDate (t : Date)
| InvalidDate.

(** Every object is truthy, the Invalid Date too. *)
#[export] Instance Truthy_JSDate : Truthy JSDate := fun _ => true.
#[export] Instance Truthy_Date : Truthy Date := fun _ => true.

Definition MS_PER_DAY : Z := 86400000.

Definition days_from_civil (y m d : Z) : Z :=
let y' := if m <=? 2 then y - 1 else y in
let era := y' / 400 in
let yoe := y' - era * 400 in
let mp := if 2 <? m then m - 3 else m + 9 in
let doy := (153 * mp + 2) / 5 + d - 1 in
let doe := yoe * 365 + yoe / 4 - yoe / 100 + doy in
era * 146097 + doe - 719468.

Definition civil_from_days (z : Z) : Z * Z * Z :=
let z' := z + 719468 in
let era := z' / 146097 in
let doe := z' - era * 146097 in
let yoe := (doe - doe / 1460 + doe / 36524 - doe / 146096) / 365 in
let doy := doe - (365 * yoe + yoe / 4 - yoe / 100) in
let mp := (5 * doy + 2) / 153 in
let d := doy - (153 * mp + 2) / 5 + 1 in
let m := if mp <? 10 then mp + 3 else mp - 9 in
(if m <=? 2 then yoe + era * 400 + 1 else yoe + era * 400, m, d).

(** [d.setHours(0, 0, 0, 0)] *)
Definition setHours0 (d : Date) : Date := d - d mod MS_PER_DAY.

(** [d.setDate(1)] *)
Definition setDate1 (d : Date) : Date :=
let '(_, _, dom) := civil_from_days (d / MS_PER_DAY) in
d - (dom - 1) * MS_PER_DAY.

(** [d.setDate(d.getDate() - n)] *)
Definition subDays (d : Date) (n : Z) : Date := d - n * MS_PER_DAY.

(** [d.toISOString()] *)
Definition toISOString (d : Date) : string :=
let '(y, m, dom) := civil_from_days (d / MS_PER_DAY) in
let ms := d mod MS_PER_DAY in
let year :=
  if (0 <=? y) && (y <=? 9999) then pad 4 y
  else (if y <? 0 then "-" else "+") ++ pad 6 (Z.abs y) in
year ++ "-" ++ pad 2 m ++ "-" ++ pad 2 dom ++ "T" ++
pad 2 (ms / 3600000) ++ ":" ++ pad 2 ((ms / 60000) mod 60) ++ ":" ++
pad 2 ((ms / 1000) mod 60) ++ "." ++ pad 3 (ms mod 1000) ++ "Z".

Definition all_digits (s : string) : bool :=
let '(_, rest) := span is_digit s in
String.eqb rest "" && negb (String.eqb s "").

Definition number_at (pos len : nat) (s : string) : option Z :=
let t := String.substring pos len s in
if all_digits t && (String.length t =? len)%nat
then Some (digits_value t 0) else None.

Definition char_at (pos : nat) (s : string) : string :=
String.substring pos 1 s.

(** The fraction of a second at the head of [s], in milliseconds (the
  digits after the third are dropped), and what follows it. *)
Definition scan_millis (s : string) : option (Z * string) :=
match s with
| String "."%char r =>
    let '(ds, rest) := span is_digit r in
    if String.eqb ds "" then None
    else Some (digits_value (String.substring 0 3 (ds ++ "00")) 0, rest)
| _ => Some (0, s)
end.

(** The time-zone designator that ends a date-time string, as an offset
  in milliseconds: none (local time, which is UTC here), [Z], [+HH:mm] or
  [-HH:mm]. *)
Definition zone_offset (s : string) : option Z :=
if String.eqb s "" || String.eqb s "Z" then Some 0
else
  match number_at 1 2 s, number_at 4 2 s with
  | Some hh, Some mi =>
      if (String.length s =? 6)%nat && String.eqb (char_at 3 s) ":"
         && (hh <=? 23) && (mi <=? 59) then
        if String.eqb (char_at 0 s) "+"
        then Some (hh * 3600000 + mi * 60000)
        else if String.eqb (char_at 0 s) "-"
        then Some (- (hh * 3600000 + mi * 60000))
        else None
      else None
  | _, _ => None
  end.

(** The time of day [HH:mm], [HH:mm:ss] or [HH:mm:ss.sss] with its zone
  designator, in milliseconds since local midnight less the offset. *)
Definition time_of_day (s : string) : option Z :=
match number_at 0 2 s, number_at 3 2 s with
| Some hh, Some mi =>
    if String.eqb (char_at 2 s) ":" && (mi <=? 59) then
      let seconds :=
        if String.eqb (char_at 5 s) ":" then
          match number_at 6 2 s with
          | Some ss =>
              if ss <=? 59 then
                match scan_millis (substring_from 8 s) with
                | Some (ms, rest) => Some (ss * 1000 + ms, rest)
                | None => None
                end
              else None
          | None => None
          end
        else Some (0, substring_from 5 s) in
      match seconds with
      | Some (ms, rest) =>
          if (hh <=? 23) || ((hh =? 24) && (mi =? 0) && (ms =? 0)) then
            match zone_offset rest with
            | Some offset => Some (hh * 3600000 + mi * 60000 + ms - offset)
            | None => None
            end
          else None
      | None => None
      end
    else None
| _, _ => None
end.

(** [new Date(s)] for the date-time strings of ECMAScript with a
  four-digit year: [YYYY], [YYYY-MM] and [YYYY-MM-DD], which are UTC, and
  [YYYY-MM-DDTHH:mm[:ss[.sss]]] with [Z], an offset [+HH:mm] or [-HH:mm],
  or no designator (local time); a space is taken for the [T], as V8 does.
  What an engine makes of any other string is implementation-defined, and
  is the Invalid Date here. *)
Definition Date_parse (s : string) : JSDate :=
match number_at 0 4 s with
| Some y =>
    if (String.length s =? 4)%nat then
      ValidDate (days_from_civil y 1 1 * MS_PER_DAY)
    else
      match number_at 5 2 s with
      | Some m =>
          if String.eqb (char_at 4 s) "-" && (1 <=? m) && (m <=? 12) then
            if (String.length s =? 7)%nat then
              ValidDate (days_from_civil y m 1 * MS_PER_DAY)
            else
              match number_at 8 2 s with
              | Some d =>
                  if String.eqb (char_at 7 s) "-" && (1 <=? d) && (d <=? 31)
                  then
                    let day := days_from_civil y m d * MS_PER_DAY in
                    if (String.length s =? 10)%nat then ValidDate day
                    else if String.eqb (char_at 10 s) "T"
                            || String.eqb (char_at 10 s) " " then
                      match time_of_day (substring_from 11 s) with
                      | Some ms => ValidDate (day + ms)
                      | None => InvalidDate
                      end
                    else InvalidDate
                  else InvalidDate
              | None => InvalidDate
              end
          else InvalidDate
      | None => InvalidDate
      end
| None => InvalidDate
end.

(** *** Maps in insertion order *)

Section Maps.
Context {V : Type}.

Definition Map : Type := list (string * V).

Fixpoint Map_get (k : string) (m : Map) : option V :=
match m with
| [] => None
| (k', v) :: m' => if String.eqb k' k then Some v else Map_get k m'
end.

Definition Map_has (k : string) (m : Map) : bool :=
match Map_get k m with Some _ => true | None => false end.

(** [m.set(k, v)]: a new key goes last, a known key keeps its place. *)
Fixpoint Map_set (k : string) (v : V) (m : Map) : Map :=
match m with
| [] => [(k, v)]
| (k', v') :: m' =>
    if String.eqb k' k then (k', v) :: m'
    else (k', v') :: Map_set k v m'
end.

(** The object [m.get(k)] is updated in place by [f]. *)
Fixpoint Map_modify (k : string) (f : V -> V) (m : Map) : Map :=
match m with
| [] => []
| (k', v) :: m' =>
    if String.eqb k' k then (k', f v) :: m'
    else (k', v) :: Map_modify k f m'
end.

Definition Map_values (m : Map) : list V := map snd m.
Definition Map_keys (m : Map) : list string := map fst m.
End Maps.

Arguments Map : clear implicits.

End JS.

(** ** Two number systems *)

(** IEEE binary64, the numbers of the engine. *)
Module FloatNum.
Import JS.
Local Open Scope float_scope.

Fixpoint float_of_pos (p : positive) : float :=
  match p with
  | xH => 1
  | xO q => 2 * float_of_pos q
  | xI q => 2 * float_of_pos q + 1
  end.

Definition float_of_Z (z : Z) : float :=
  match z with
  | Z0 => 0
  | Zpos p => float_of_pos p
  | Zneg p => - float_of_pos p
  end.

Definition is_nan (x : float) : bool := negb (PrimFloat.eqb x x).

(** The rounding of a decimal literal: one multiplication or division of
    two exactly represented integers, which is the correctly rounded value
    whenever the mantissa is below 2^53 and the exponent within 22. *)
Definition float_of_decimal (d : StrDecimal) : float :=
  match d with
  | DecNaN => nan
  | DecInfinity neg => if neg then neg_infinity else infinity
  | DecFinite neg m e =>
      let a := float_of_Z m in
      let v := if (0 <=? e)%Z then a * float_of_Z (10 ^ e)
               else a / float_of_Z (10 ^ (- e)) in
      if neg then - v else v
  end.

Definition strip_zeros (s : string) : string :=
  let '(_, rest) := span (fun c => Ascii.eqb c "0"%char) s in
  if String.eqb rest "" then "0"%string else rest.

Definition Z_to_string (n : Z) : string :=
  strip_zeros (pad (S (Z.to_nat (Z.log2_up (n + 1)))) n).

(** [x.toFixed(2)] below 10^21: the integer [n] nearest to [100 x], the
    larger one at a tie, written with two decimals. *)
Definition float_toFixed2 (x : float) : string :=
  match Prim2SF x with
  | S754_nan => "NaN"%string
  | S754_infinity s => if s then "-Infinity"%string else "Infinity"%string
  | S754_zero _ => "0.00"%string
  | S754_finite s m e =>
      let n :=
        match e with
        | Zneg p => ((200 * Zpos m + 2 ^ Zpos p) / 2 ^ (Zpos p + 1))%Z
        | _ => (100 * Zpos m * 2 ^ e)%Z
        end in
      ((if s then "-" else "") ++ Z_to_string (n / 100) ++ "." ++
       pad 2 (n mod 100))%string
  end.

#[export] Instance float_Number : Number float := {
  zero := 0;
  add := PrimFloat.add;
  num_truthy := fun x => negb (PrimFloat.eqb x 0) && negb (is_nan x);
  strict_eq := PrimFloat.eqb
}.

#[export] Instance float_Host : Host float := {
  of_decimal := float_of_decimal;
  sub := PrimFloat.sub;
  mul := PrimFloat.mul;
  div := PrimFloat.div;
  Math_pow2 := fun x => x * x;
  Math_sqrt := PrimFloat.sqrt;
  Math_abs := PrimFloat.abs;
  gt := fun a b => PrimFloat.ltb b a;
  toFixed2 := float_toFixed2
}.
End FloatNum.

(** Exact rational arithmetic: addition is associative and commutative and
    the only falsy number is zero. *)
Module ExactNum.
Import JS.

#[export] Instance Qc_Number : Number Qc := {
  zero := 0%Qc;
  add := Qcplus;
  num_truthy := fun q => negb (Qc_eq_bool q 0%Qc);
  strict_eq := Qc_eq_bool
}.
End ExactNum.

(** ** The documents of the store (models/*.js) *)

Module Model.
Import JS.

Definition ObjectId : Type := nat.

(** One [schema.index(...)] declaration, or one [index: true] path. *)
Record IndexSpec : Type := {
  idx_fields : list string;
  idx_unique : bool
}.

(** A rejected promise of the driver: [err.code], [err.message]. *)
Record JSError : Type := {
  err_code : option Z;
  err_message : string
}.

Definition DUPLICATE_KEY : Z := 11000.

Inductive JobStatus : Type :=
| pending | processing | completed | failed | partial.

Record ErrorEntry : Type := {
  ee_row : nat;
  ee_message : string;
  ee_timestamp : Date
}.

Record IngestionJob : Type := {
  job_id : ObjectId;
  job_fileName : string;
  job_status : JobStatus;
  job_startedAt : option Date;
  job_completedAt : option Date;
  job_duration : option Z;
  job_rowsProcessed : nat;
  job_rowsTotal : option nat;
  job_rowsSkipped : nat;
  job_errors : list ErrorEntry;
  job_userId : option ObjectId
}.

Inductive AggregationType : Type := daily | monthly.

Definition AggregationType_eqb (a b : AggregationType) : bool :=
  match a, b with
  | daily, daily | monthly, monthly => true
  | _, _ => false
  end.

Inductive AnomalyType : Type := spike | drop | unusual_pattern.

(** [enum: ['low', 'medium', 'high', 'critical']], for the severity of an
    anomaly and the priority of a recommendation. *)
Inductive Level : Type := low | medium | high | critical.

Inductive RecommendationType : Type :=
| rightsizing | reserved_instance | savings_plan | storage_tiering
| idle_resource_cleanup | data_transfer_optimization
| unattached_ebs | unattached_eip.

Section Documents.
Context {num : Type}.

(** A stored billing line item.  [li_columns] holds the CSV columns kept
    as the strings of the file, under their model names; the paths the
    services compute with have a field of their own.  [accountId],
    [service] and [cost] are [required]. *)
Record BillingLineItem : Type := {
  li_columns : Map string;
  li_usageStartDate : option Date;
  li_usageEndDate : option Date;
  li_usageQuantity : option num;
  li_blendedCost : option num;
  li_unblendedCost : option num;
  li_accountId : string;
  li_service : string;
  li_region : option string;
  li_usageTypeNormalized : option string;
  li_cost : num;
  li_usageQuantityNormalized : option num;
  li_tags : Map string;
  li_userId : option ObjectId;
  li_ingestionJobId : option ObjectId;
  li_ingestionDate : Date;
  li_isAnomaly : bool;
  li_anomalyScore : option num
}.

(** An aggregate row as the aggregation engine writes it: every
    dimension and every metric is set.  The paths the driver adds to each
    inserted document ([_id], [computedAt], [createdAt], [updatedAt]) are
    not part of the record: two rows are equal here when the engine
    computed the same values. *)
Record Aggregate : Type := {
  agg_userId : option ObjectId;
  agg_date : Date;
  agg_accountId : string;
  agg_service : string;
  agg_region : string;
  agg_aggregationType : AggregationType;
  agg_totalCost : num;
  agg_totalUsageQuantity : num;
  agg_lineItemCount : nat
}.

Record Anomaly : Type := {
  an_type : AnomalyType;
  an_severity : Level;
  an_userId : option ObjectId;
  an_accountId : option string;
  an_service : option string;
  an_region : option string;
  an_date : Date;
  an_cost : num;
  an_expectedCost : num;
  an_variance : num;
  an_variancePercent : num;
  an_zScore : num;
  an_description : string
}.

Record Recommendation : Type := {
  rec_type : RecommendationType;
  rec_priority : Level;
  rec_accountId : string;
  rec_service : string;
  rec_title : string;
  rec_description : string;
  rec_currentCost : num;
  rec_estimatedSavings : num;
  rec_estimatedSavingsPercent : num;
  rec_implementationEffort : Level;
  rec_actionItems : list string;
  rec_meta_avgMonthlyCost : num;
  rec_meta_coefficientOfVariation : num
}.

Record Store : Type := {
  lineItems : list BillingLineItem;
  aggregates : list Aggregate;
  jobs : list IngestionJob;
  anomalies : list Anomaly;
  (** [Some (code, msg)] while the server refuses every write to the
      line-item collection with an error other than a duplicate key
      (a collection validator, a full disk). *)
  lineItem_fault : option JSError
}.
End Documents.

Arguments BillingLineItem : clear implicits.
Arguments Aggregate : clear implicits.
Arguments Anomaly : clear implicits.
Arguments Recommendation : clear implicits.
Arguments Store : clear implicits.

(** *** Indexes *)

Definition plain (fields : list string) : IndexSpec :=
  {| idx_fields := fields; idx_unique := false |}.

(** BillingLineItem.js: the paths marked [index: true], then the five
    compound indexes.  None is declared [unique]. *)
Definition BillingLineItem_indexes : list IndexSpec :=
  [ plain ["accountId"]; plain ["service"]; plain ["region"];
    plain ["cost"]; plain ["userId"]; plain ["ingestionJobId"];
    plain ["ingestionDate"]; plain ["isAnomaly"];
    plain ["userId"; "accountId"; "service"; "ingestionDate"];
    plain ["userId"; "accountId"; "region"; "ingestionDate"];
    plain ["userId"; "service"; "ingestionDate"];
    plain ["userId"; "ingestionDate"; "cost"];
    plain ["userId"; "tags"; "ingestionDate"] ].

(** Aggregate.js: likewise, no index is declared [unique]. *)
Definition Aggregate_indexes : list IndexSpec :=
  [ plain ["userId"]; plain ["date"]; plain ["accountId"];
    plain ["service"]; plain ["region"]; plain ["aggregationType"];
    plain ["userId"; "date"; "accountId"; "service"; "aggregationType"];
    plain ["userId"; "date"; "service"; "aggregationType"];
    plain ["userId"; "date"; "region"; "aggregationType"];
    plain ["userId"; "aggregationType"; "date"] ].

Definition option_eqb {A : Type} (eqb : A -> A -> bool) (a b : option A)
  : bool :=
  match a, b with
  | Some x, Some y => eqb x y
  | None, None => true
  | _, _ => false
  end.

Fixpoint Map_eqb (a b : Map string) : bool :=
  match a, b with
  | [], [] => true
  | (k, v) :: a', (k', v') :: b' =>
      String.eqb k k' && String.eqb v v' && Map_eqb a' b'
  | _, _ => false
  end.

Section Collections.
Context {num : Type} `{Number num}.

(** Do two line items hold the same value at path [f]? *)
Definition li_same (f : string) (a b : BillingLineItem num) : bool :=
  if String.eqb f "userId" then
    option_eqb Nat.eqb (li_userId a) (li_userId b)
  else if String.eqb f "ingestionJobId" then
    option_eqb Nat.eqb (li_ingestionJobId a) (li_ingestionJobId b)
  else if String.eqb f "accountId" then
    String.eqb (li_accountId a) (li_accountId b)
  else if String.eqb f "service" then
    String.eqb (li_service a) (li_service b)
  else if String.eqb f "region" then
    option_eqb String.eqb (li_region a) (li_region b)
  else if String.eqb f "usageTypeNormalized" then
    option_eqb String.eqb (li_usageTypeNormalized a)
      (li_usageTypeNormalized b)
  else if String.eqb f "usageStartDate" then
    option_eqb Z.eqb (li_usageStartDate a) (li_usageStartDate b)
  else if String.eqb f "usageEndDate" then
    option_eqb Z.eqb (li_usageEndDate a) (li_usageEndDate b)
  else if String.eqb f "ingestionDate" then
    Z.eqb (li_ingestionDate a) (li_ingestionDate b)
  else if String.eqb f "isAnomaly" then
    Bool.eqb (li_isAnomaly a) (li_isAnomaly b)
  else if String.eqb f "cost" then
    strict_eq (li_cost a) (li_cost b)
  else if String.eqb f "usageQuantityNormalized" then
    option_eqb strict_eq (li_usageQuantityNormalized a)
      (li_usageQuantityNormalized b)
  else if String.eqb f "usageQuantity" then
    option_eqb strict_eq (li_usageQuantity a) (li_usageQuantity b)
  else if String.eqb f "blendedCost" then
    option_eqb strict_eq (li_blendedCost a) (li_blendedCost b)
  else if String.eqb f "unblendedCost" then
    option_eqb strict_eq (li_unblendedCost a) (li_unblendedCost b)
  else if String.eqb f "anomalyScore" then
    option_eqb strict_eq (li_anomalyScore a) (li_anomalyScore b)
  else if String.eqb f "tags" then
    Map_eqb (li_tags a) (li_tags b)
  else
    option_eqb String.eqb (Map_get f (li_columns a))
      (Map_get f (li_columns b)).

Definition agg_same (f : string) (a b : Aggregate num) : bool :=
  if String.eqb f "userId" then
    option_eqb Nat.eqb (agg_userId a) (agg_userId b)
  else if String.eqb f "date" then Z.eqb (agg_date a) (agg_date b)
  else if String.eqb f "accountId" then
    String.eqb (agg_accountId a) (agg_accountId b)
  else if String.eqb f "service" then
    String.eqb (agg_service a) (agg_service b)
  else if String.eqb f "region" then
    String.eqb (agg_region a) (agg_region b)
  else if String.eqb f "aggregationType" then
    AggregationType_eqb (agg_aggregationType a) (agg_aggregationType b)
  else if String.eqb f "totalCost" then
    strict_eq (agg_totalCost a) (agg_totalCost b)
  else if String.eqb f "totalUsageQuantity" then
    strict_eq (agg_totalUsageQuantity a) (agg_totalUsageQuantity b)
  else if String.eqb f "lineItemCount" then
    Nat.eqb (agg_lineItemCount a) (agg_lineItemCount b)
  else true.

Context {D : Type} (same : string -> D -> D -> bool).

(** A write of [d] next to [e] violates a unique index. *)
Definition violates (indexes : list IndexSpec) (d e : D) : bool :=
  existsb
    (fun ix => idx_unique ix && forallb (fun f => same f d e) (idx_fields ix))
    indexes.

(** The unordered bulk write: every document is tried in turn, the ones
    that violate a unique index are left out.  Returns the collection
    and the number of write errors. *)
Fixpoint bulk_insert (indexes : list IndexSpec) (coll docs : list D)
  : list D * nat :=
  match docs with
  | [] => (coll, O)
  | d :: ds =>
      if existsb (violates indexes d) coll then
        let '(coll', n) := bulk_insert indexes coll ds in (coll', S n)
      else bulk_insert indexes (coll ++ [d])%list ds
  end.
End Collections.

End Model.

(** ** ingestionService.js: the normalizer *)

Module Normalizer.
Import JS Model.

(** A parsed CSV record: column name to string, in column order. *)
Definition Row : Type := Map string.

(** AWS billing CSV column mapping. *)
Definition CSV_COLUMNS : list (string * string) :=
  [ ("InvoiceID", "invoiceId");
    ("PayerAccountId", "payerAccountId");
    ("LinkedAccountId", "linkedAccountId");
    ("RecordType", "recordType");
    ("ProductName", "productName");
    ("ProductCode", "productCode");
    ("UsageType", "usageType");
    ("Operation", "operation");
    ("AvailabilityZone", "availabilityZone");
    ("ReservedInstance", "reservedInstance");
    ("ItemDescription", "itemDescription");
    ("UsageStartDate", "usageStartDate");
    ("UsageEndDate", "usageEndDate");
    ("UsageQuantity", "usageQuantity");
    ("BlendedRate", "blendedRate");
    ("BlendedCost", "blendedCost");
    ("UnblendedRate", "unblendedRate");
    ("UnblendedCost", "unblendedCost");
    ("ResourceId", "resourceId") ].

(** Tag columns start with the [user:] prefix. *)
Definition TAG_PREFIX : string := "user:".

Fixpoint find_map {A B : Type} (f : A -> option B) (l : list A)
  : option B :=
  match l with
  | [] => None
  | x :: l' => match f x with Some y => Some y | None => find_map f l' end
  end.

(** [(us|eu|ap|sa|ca|cn|af)-(north|south|east|west|central)-\d] at the
    head of [s]. *)
Definition region_at (s : string) : option string :=
  find_map
    (fun geo =>
       find_map
         (fun dir =>
            let p := geo ++ "-" ++ dir ++ "-" in
            if String.prefix p s then
              match substring_from (String.length p) s with
              | String c _ =>
                  if is_digit c then Some (p ++ String c "") else None
              | EmptyString => None
              end
            else None)
         ["north"; "south"; "east"; "west"; "central"])
    ["us"; "eu"; "ap"; "sa"; "ca"; "cn"; "af"].

(** [([a-z]{2}-[a-z]+-\d+)[a-z]] at the head of [s]: the first group. *)
Definition zone_at (s : string) : option string :=
  match s with
  | String c1 (String c2 (String "-"%char r)) =>
      if is_lower c1 && is_lower c2 then
        let '(word, r1) := span is_lower r in
        match r1 with
        | String "-"%char r2 =>
            let '(digits, r3) := span is_digit r2 in
            match r3 with
            | String c _ =>
                if is_lower c && negb (String.eqb word "")
                   && negb (String.eqb digits "")
                then Some (String c1 (String c2 ("-" ++ word ++ "-" ++ digits)))
                else None
            | EmptyString => None
            end
        | _ => None
        end
      else None
  | _ => None
  end.

(** Extract region from availability zone or usage type. *)
Definition extractRegion (value : string) : string :=
  if negb (truthy value) then "unknown"
  else
    match search region_at value with
    | Some r => r
    | None =>
        match search zone_at value with
        | Some r => r
        | None => "unknown"
        end
    end.

Section Normalize.
Context {num : Type} `{Host num}.

(** The object [normalizeLineItem] returns.  [n_columns] are the
    properties copied from the row; the ones re-assigned after parsing
    and the derived ones have a field of their own. *)
Record Normalized : Type := {
  n_ingestionJobId : ObjectId;
  n_ingestionDate : Date;
  n_columns : Map string;
  n_usageStartDate : option JSDate;
  n_usageEndDate : option JSDate;
  n_usageQuantity : option num;
  n_blendedCost : option num;
  n_unblendedCost : option num;
  n_accountId : option string;
  n_service : option string;
  n_region : option string;
  n_cost : option num;
  n_usageQuantityNormalized : option num;
  n_usageTypeNormalized : option string;
  n_tags : Map string;
  n_userId : option ObjectId
}.

(** Map CSV columns: a column that is missing or empty is omitted. *)
Definition map_columns (row : Row) : Map string :=
  fold_left
    (fun normalized '(csvCol, modelField) =>
       match Map_get csvCol row with
       | Some v =>
           if negb (String.eqb v "") then Map_set modelField v normalized
           else normalized
       | None => normalized
       end)
    CSV_COLUMNS [].

(** [if (normalized.f) normalized.f = parse(normalized.f)]: a copied
    column is a non-empty string, hence truthy. *)
Definition parsed {B : Type} (parse : string -> B) (v : option string)
  : option B :=
  match v with
  | Some s => if truthy s then Some (parse s) else None
  | None => None
  end.

(** Extract tags. *)
Definition extract_tags (row : Row) : Map string :=
  fold_left
    (fun tags '(key, value) =>
       if startsWith key TAG_PREFIX && truthy value then
         Map_set (substring_from (String.length TAG_PREFIX) key) value tags
       else tags)
    row [].

(** Normalize a billing line item ([now] is the clock's reading). *)
Definition normalizeLineItem (now : Date) (row : Row) (jobId : ObjectId)
  : Normalized :=
  let columns := map_columns row in
  let usageQuantity := parsed parseFloat (Map_get "usageQuantity" columns) in
  let blendedCost := parsed parseFloat (Map_get "blendedCost" columns) in
  let unblendedCost := parsed parseFloat (Map_get "unblendedCost" columns) in
  {| n_ingestionJobId := jobId;
     n_ingestionDate := now;
     n_columns := columns;
     n_usageStartDate := parsed Date_parse (Map_get "usageStartDate" columns);
     n_usageEndDate := parsed Date_parse (Map_get "usageEndDate" columns);
     n_usageQuantity := usageQuantity;
     n_blendedCost := blendedCost;
     n_unblendedCost := unblendedCost;
     n_accountId :=
       or (or (Map_get "linkedAccountId" columns)
              (Map_get "payerAccountId" columns))
          (Some "unknown");
     n_service :=
       or (or (Map_get "productName" columns)
              (Map_get "productCode" columns))
          (Some "unknown");
     n_region :=
       Some (extractRegion
               (or_else (or (Map_get "availabilityZone" columns)
                            (Map_get "usageType" columns)) ""));
     n_cost := or (or unblendedCost blendedCost) (Some zero);
     n_usageQuantityNormalized := or usageQuantity (Some zero);
     n_usageTypeNormalized := or (Map_get "usageType" columns) (Some "");
     n_tags := extract_tags row;
     n_userId := None |}.

Definition set_userId (u : ObjectId) (n : Normalized) : Normalized :=
  {| n_ingestionJobId := n_ingestionJobId n;
     n_ingestionDate := n_ingestionDate n;
     n_columns := n_columns n;
     n_usageStartDate := n_usageStartDate n;
     n_usageEndDate := n_usageEndDate n;
     n_usageQuantity := n_usageQuantity n;
     n_blendedCost := n_blendedCost n;
     n_unblendedCost := n_unblendedCost n;
     n_accountId := n_accountId n;
     n_service := n_service n;
     n_region := n_region n;
     n_cost := n_cost n;
     n_usageQuantityNormalized := n_usageQuantityNormalized n;
     n_usageTypeNormalized := n_usageTypeNormalized n;
     n_tags := n_tags n;
     n_userId := Some u |}.

(** Validate required fields:
    [!accountId || !service || cost === undefined]. *)
Definition missing_required (n : Normalized) : bool :=
  not (n_accountId n) || not (n_service n) ||
  match n_cost n with None => true | Some _ => false end.

(** The schema's casting of a date path: the Invalid Date is refused. *)
Definition cast_date (d : option JSDate) : option (option Date) :=
  match d with
  | None => Some None
  | Some (ValidDate t) => Some (Some t)
  | Some InvalidDate => None
  end.

(** The schema's casting of a Number path that holds a number: NaN is
    refused. *)
Definition cast_number (x : option num) : bool :=
  match x with
  | Some v => strict_eq v v
  | None => true
  end.

(** The schema's casting of a Number path that holds a string of the file
    ([Number(s)]): a string that is no number is refused. *)
Definition cast_numeric (s : option string) : bool :=
  match s with
  | Some v => numeric_string v
  | None => true
  end.

(** The schema's casting of the Map path [tags].  A Mongoose map checks
    each key it is given: one that starts with a dollar sign, contains a
    dot or is one of the reserved names is refused. *)
Definition valid_map_key (key : string) : bool :=
  negb (String.prefix "$" key) &&
  negb (includes key ".") &&
  negb (existsb (String.eqb key) ["__proto__"; "constructor"; "prototype"]).

Definition cast_tags (tags : Map string) : bool :=
  forallb valid_map_key (Map_keys tags).

(** The document Mongoose builds from the candidate, when it passes the
    schema's validation: the [required] paths are present, the dates are
    valid, the Number paths hold numbers, the keys of the tags are
    keys a map takes. *)
Definition cast (n : Normalized) : option (BillingLineItem num) :=
  match n_accountId n, n_service n, n_cost n,
        cast_date (n_usageStartDate n), cast_date (n_usageEndDate n) with
  | Some account, Some service, Some cost, Some startDate, Some endDate =>
      if truthy account && truthy service &&
         cast_number (n_usageQuantity n) && cast_number (n_blendedCost n) &&
         cast_number (n_unblendedCost n) && cast_number (Some cost) &&
         cast_number (n_usageQuantityNormalized n) &&
         cast_numeric (Map_get "blendedRate" (n_columns n)) &&
         cast_numeric (Map_get "unblendedRate" (n_columns n)) &&
         cast_tags (n_tags n) then
        Some {| li_columns := n_columns n;
                li_usageStartDate := startDate;
                li_usageEndDate := endDate;
                li_usageQuantity := n_usageQuantity n;
                li_blendedCost := n_blendedCost n;
                li_unblendedCost := n_unblendedCost n;
                li_accountId := account;
                li_service := service;
                li_region := n_region n;
                li_usageTypeNormalized := n_usageTypeNormalized n;
                li_cost := cost;
                li_usageQuantityNormalized := n_usageQuantityNormalized n;
                li_tags := n_tags n;
                li_userId := n_userId n;
                li_ingestionJobId := Some (n_ingestionJobId n);
                li_ingestionDate := n_ingestionDate n;
                li_isAnomaly := false;
                li_anomalyScore := None |}
      else None
  | _, _, _, _, _ => None
  end.
End Normalize.

Arguments Normalized : clear implicits.
End Normalizer.

(** ** ingestionService.js: the aggregation engine *)

Module Aggregation.
Import JS Model.

#[export] Instance Truthy_ObjectId : Truthy ObjectId := fun _ => true.

Section Engine.
Context {num : Type} `{Number num}.

Definition set_aggregates (aggs : list (Aggregate num)) (st : Store num)
  : Store num :=
  {| lineItems := lineItems st;
     aggregates := aggs;
     jobs := jobs st;
     anomalies := anomalies st;
     lineItem_fault := lineItem_fault st |}.

(** [IngestionJob.findById(jobId)] *)
Definition findById (jobId : ObjectId) (st : Store num)
  : option IngestionJob :=
  find (fun j => Nat.eqb (job_id j) jobId) (jobs st).

(** The filter [{ userId }] on a document's owner. *)
Definition owned_by (userId : ObjectId) (owner : option ObjectId) : bool :=
  option_eqb Nat.eqb owner (Some userId).

(** The filter [{ userId, aggregationType }]. *)
Definition of_type (userId : ObjectId) (t : AggregationType)
    (a : Aggregate num) : bool :=
  owned_by userId (agg_userId a) &&
  AggregationType_eqb (agg_aggregationType a) t.

(** [BillingLineItem.find({ userId })] *)
Definition items_of (userId : ObjectId) (st : Store num)
  : list (BillingLineItem num) :=
  filter (fun i => owned_by userId (li_userId i)) (lineItems st).

(** [Aggregate.find({ userId, aggregationType })] *)
Definition rows_of (userId : ObjectId) (t : AggregationType)
    (st : Store num) : list (Aggregate num) :=
  filter (of_type userId t) (aggregates st).

(** The template [`${date.toISOString()}_${a}_${s}_${r}`]. *)
Definition group_key (date : Date) (account service region : string)
  : string :=
  toISOString date ++ "_" ++ account ++ "_" ++ service ++ "_" ++ region.

(** [agg.totalCost += cost; agg.totalUsageQuantity += usage;
    agg.lineItemCount += count] *)
Definition accumulate (cost usage : num) (count : nat) (agg : Aggregate num)
  : Aggregate num :=
  {| agg_userId := agg_userId agg;
     agg_date := agg_date agg;
     agg_accountId := agg_accountId agg;
     agg_service := agg_service agg;
     agg_region := agg_region agg;
     agg_aggregationType := agg_aggregationType agg;
     agg_totalCost := add (agg_totalCost agg) cost;
     agg_totalUsageQuantity := add (agg_totalUsageQuantity agg) usage;
     agg_lineItemCount := (agg_lineItemCount agg + count)%nat |}.

Definition item_key (item : BillingLineItem num) : string :=
  group_key
    (setHours0 (or_else (li_usageStartDate item) (li_ingestionDate item)))
    (or_else (Some (li_accountId item)) "unknown")
    (or_else (Some (li_service item)) "unknown")
    (or_else (li_region item) "unknown").

(** The entry a new daily key starts from. *)
Definition fresh_daily (userId : ObjectId) (item : BillingLineItem num)
  : Aggregate num :=
  {| agg_userId := Some userId;
     agg_date :=
       setHours0 (or_else (li_usageStartDate item) (li_ingestionDate item));
     agg_accountId := or_else (Some (li_accountId item)) "unknown";
     agg_service := or_else (Some (li_service item)) "unknown";
     agg_region := or_else (li_region item) "unknown";
     agg_aggregationType := daily;
     agg_totalCost := zero;
     agg_totalUsageQuantity := zero;
     agg_lineItemCount := O |}.

(** [agg.totalCost += item.cost || 0;
    agg.totalUsageQuantity += item.usageQuantityNormalized || 0;
    agg.lineItemCount += 1] *)
Definition add_item (item : BillingLineItem num) (agg : Aggregate num)
  : Aggregate num :=
  accumulate (or_else (Some (li_cost item)) zero)
             (or_else (li_usageQuantityNormalized item) zero) 1 agg.

(** The body of [lineItems.forEach] in [aggregateData]. *)
Definition daily_step (userId : ObjectId)
    (dailyAggregates : Map (Aggregate num)) (item : BillingLineItem num)
  : Map (Aggregate num) :=
  let key := item_key item in
  let dailyAggregates :=
    if negb (Map_has key dailyAggregates) then
      Map_set key (fresh_daily userId item) dailyAggregates
    else dailyAggregates in
  Map_modify key (add_item item) dailyAggregates.

Definition row_key (daily : Aggregate num) : string :=
  group_key
    (setHours0 (setDate1 (agg_date daily)))
    (or_else (Some (agg_accountId daily)) "unknown")
    (or_else (Some (agg_service daily)) "unknown")
    (or_else (Some (agg_region daily)) "unknown").

(** The entry a new monthly key starts from. *)
Definition fresh_monthly (daily : Aggregate num) : Aggregate num :=
  {| agg_userId := agg_userId daily;
     agg_date := setHours0 (setDate1 (agg_date daily));
     agg_accountId := or_else (Some (agg_accountId daily)) "unknown";
     agg_service := or_else (Some (agg_service daily)) "unknown";
     agg_region := or_else (Some (agg_region daily)) "unknown";
     agg_aggregationType := monthly;
     agg_totalCost := zero;
     agg_totalUsageQuantity := zero;
     agg_lineItemCount := O |}.

(** [monthly.totalCost += daily.totalCost || 0;
    monthly.totalUsageQuantity += daily.totalUsageQuantity || 0;
    monthly.lineItemCount += daily.lineItemCount || 0]
    (a count [n] is its own [n || 0]) *)
Definition add_daily (daily : Aggregate num) (monthly : Aggregate num)
  : Aggregate num :=
  accumulate (or_else (Some (agg_totalCost daily)) zero)
             (or_else (Some (agg_totalUsageQuantity daily)) zero)
             (agg_lineItemCount daily) monthly.

(** The body of [dailyAggs.forEach] in [computeMonthlyAggregates]. *)
Definition monthly_step (monthlyMap : Map (Aggregate num))
    (daily : Aggregate num) : Map (Aggregate num) :=
  let key := row_key daily in
  let monthlyMap :=
    if negb (Map_has key monthlyMap) then
      Map_set key (fresh_monthly daily) monthlyMap
    else monthlyMap in
  Map_modify key (add_daily daily) monthlyMap.

(** [Aggregate.findOneAndUpdate(filter, agg, { upsert: true })], the
    filter being the six paths of the grouping tuple. *)
Fixpoint findOneAndUpdate (agg : Aggregate num) (coll : list (Aggregate num))
  : list (Aggregate num) :=
  match coll with
  | [] => [agg]
  | d :: coll' =>
      if forallb (fun f => agg_same f d agg)
           ["userId"; "date"; "accountId"; "service"; "region";
            "aggregationType"]
      then agg :: coll'
      else d :: findOneAndUpdate agg coll'
  end.

(** [insertMany(aggs, { ordered: false })], and on a duplicate-key error
    the upsert of every row.  (No other error arises from the store as
    it is modelled, so the branch that rethrows has no counterpart.) *)
Definition save_aggregates (coll aggs : list (Aggregate num))
  : list (Aggregate num) :=
  if (0 <? List.length aggs)%nat then
    let '(coll', failures) :=
      bulk_insert agg_same Aggregate_indexes coll aggs in
    if (failures =? 0)%nat then coll'
    else fold_left (fun c agg => findOneAndUpdate agg c) aggs coll'
  else coll.

(** Compute monthly aggregates from daily aggregates. *)
Definition computeMonthlyAggregates (userId : option ObjectId)
    (st : Store num) : Store num :=
  match userId with
  | None => st
  | Some userId =>
      let dailyAggs := rows_of userId daily st in
      if (List.length dailyAggs =? 0)%nat then st
      else
        let monthlyMap := fold_left monthly_step dailyAggs [] in
        let kept :=
          filter (fun a => negb (of_type userId monthly a))
            (aggregates st) in
        set_aggregates (save_aggregates kept (Map_values monthlyMap)) st
  end.

(** Aggregate data by account, service, region, and date: all the data
    of the job's user, not just the current job's. *)
Definition aggregateData (jobId : ObjectId) (st : Store num)
  : Store num :=
  match findById jobId st with
  | None => st
  | Some job =>
      match job_userId job with
      | None => st
      | Some userId =>
          let lineItems := items_of userId st in
          if (List.length lineItems =? 0)%nat then st
          else
            let dailyAggregates :=
              fold_left (daily_step userId) lineItems [] in
            let kept :=
              filter (fun a => negb (of_type userId daily a))
                (aggregates st) in
            computeMonthlyAggregates (Some userId)
              (set_aggregates
                 (save_aggregates kept (Map_values dailyAggregates)) st)
      end
  end.
End Engine.
End Aggregation.

(** ** ingestionService.js: the ingestion pipeline *)

Module Pipeline.
Import JS Model Normalizer Aggregation.

(** [{ chunkSize = 1000, onProgress, userId }]; the callback [onProgress]
    only reads the counters and is left out. *)
Record Options : Type := {
  opt_chunkSize : option nat;
  opt_userId : option ObjectId
}.

(** What the parser delivers: the records of the file, then [end], or an
    [error] event after the records read so far. *)
Record Csv : Type := {
  csv_rows : list Row;
  csv_error : option string
}.

(** [{ processed, skipped, total }] *)
Record Summary : Type := {
  processed : nat;
  skipped : nat;
  total : nat
}.

(** The promise [processCSVFile] returns. *)
Inductive Settled : Type :=
| Resolved (r : Summary)
| Rejected (e : JSError).

Section Run.
Context {num : Type} `{Host num}.

(** The variables the stream handlers close over, and the line-item
    collection. *)
Record Run : Type := {
  rowCount : nat;
  processedCount : nat;
  skippedCount : nat;
  errors : list ErrorEntry;
  batch : list (Normalized num);
  collection : list (BillingLineItem num)
}.

(** The documents of a batch that pass the schema's validation. *)
Definition validated (docs : list (Normalized num))
  : list (BillingLineItem num) :=
  flat_map (fun n => match cast n with Some d => [d] | None => [] end) docs.

(** [BillingLineItem.insertMany(docs, { ordered: false })]: Mongoose
    validates every document and leaves out the ones that fail; the
    rest goes to the store in one unordered bulk write, which rejects
    with code 11000 when a unique index refused a document. *)
Definition insertMany (indexes : list IndexSpec) (fault : option JSError)
    (coll : list (BillingLineItem num)) (docs : list (Normalized num))
  : list (BillingLineItem num) * option JSError :=
  match fault with
  | Some err => (coll, Some err)
  | None =>
      let '(coll', failures) :=
        bulk_insert li_same indexes coll (validated docs) in
      (coll',
       if (failures =? 0)%nat then None
       else Some {| err_code := Some DUPLICATE_KEY;
                    err_message := "E11000 duplicate key error" |})
  end.

Definition is_duplicate_key (err : JSError) : bool :=
  option_eqb Z.eqb (err_code err) (Some DUPLICATE_KEY).

(** The handler of a [data] event, run to completion.  The handler
    awaits only in the branch of a full batch.  As long as no batch fills
    it is this function.  Once a batch fills, the source goes on
    delivering the rows the parser holds while [insertMany] is pending
    ([stream.pause()] pauses the file stream, not the parser), and an error
    rethrown there skips [stream.resume()], after which the stream may
    never end; the branch of a full batch below takes the rows one at a
    time and goes on after the rethrow, so it describes the source only
    for the interleaving in which each write settles before the next row
    arrives. *)
Definition on_data (now : Date) (indexes : list IndexSpec)
    (fault : option JSError) (jobId userIdToUse : ObjectId)
    (chunkSize : nat) (r : Run) (row : Row) : Run :=
  let rowCount := S (rowCount r) in
  let normalized := set_userId userIdToUse (normalizeLineItem now row jobId) in
  if missing_required normalized then
    {| rowCount := rowCount;
       processedCount := processedCount r;
       skippedCount := S (skippedCount r);
       errors := (errors r ++
                  [{| ee_row := rowCount;
                      ee_message := "Missing required fields";
                      ee_timestamp := now |}])%list;
       batch := batch r;
       collection := collection r |}
  else
    let batch := (batch r ++ [normalized])%list in
    if (chunkSize <=? List.length batch)%nat then
      match insertMany indexes fault (collection r) batch with
      | (coll, None) =>
          {| rowCount := rowCount;
             processedCount := (processedCount r + List.length batch)%nat;
             skippedCount := skippedCount r;
             errors := errors r;
             batch := [];
             collection := coll |}
      | (coll, Some err) =>
          if is_duplicate_key err then
            (* Handle duplicate key errors (idempotent re-ingest) *)
            {| rowCount := rowCount;
               processedCount := processedCount r;
               skippedCount := (skippedCount r + List.length batch)%nat;
               errors := errors r;
               batch := [];
               collection := coll |}
          else
            (* rethrown, and caught by the handler's own try block *)
            {| rowCount := rowCount;
               processedCount := processedCount r;
               skippedCount := S (skippedCount r);
               errors := (errors r ++
                          [{| ee_row := rowCount;
                              ee_message := err_message err;
                              ee_timestamp := now |}])%list;
               batch := batch;
               collection := coll |}
      end
    else
      {| rowCount := rowCount;
         processedCount := processedCount r;
         skippedCount := skippedCount r;
         errors := errors r;
         batch := batch;
         collection := collection r |}.

(** Process remaining batch, in the handler of [end]. *)
Definition flush (indexes : list IndexSpec) (fault : option JSError)
    (r : Run) : Run :=
  if (0 <? List.length (batch r))%nat then
    match insertMany indexes fault (collection r) (batch r) with
    | (coll, None) =>
        {| rowCount := rowCount r;
           processedCount :=
             (processedCount r + List.length (batch r))%nat;
           skippedCount := skippedCount r;
           errors := errors r;
           batch := batch r;
           collection := coll |}
    | (coll, Some err) =>
        if is_duplicate_key err then
          {| rowCount := rowCount r;
             processedCount := processedCount r;
             skippedCount := (skippedCount r + List.length (batch r))%nat;
             errors := errors r;
             batch := batch r;
             collection := coll |}
        else
          (* logged: 'Error inserting final batch' *)
          {| rowCount := rowCount r;
             processedCount := processedCount r;
             skippedCount := skippedCount r;
             errors := errors r;
             batch := batch r;
             collection := coll |}
    end
  else r.

(** [job.save()] *)
Definition save_job (job : IngestionJob) (st : Store num) : Store num :=
  {| lineItems := lineItems st;
     aggregates := aggregates st;
     jobs := map (fun j => if Nat.eqb (job_id j) (job_id job) then job else j)
               (jobs st);
     anomalies := anomalies st;
     lineItem_fault := lineItem_fault st |}.

Definition set_lineItems (items : list (BillingLineItem num))
    (st : Store num) : Store num :=
  {| lineItems := items;
     aggregates := aggregates st;
     jobs := jobs st;
     anomalies := anomalies st;
     lineItem_fault := lineItem_fault st |}.

Definition start_job (now : Date) (job : IngestionJob) : IngestionJob :=
  {| job_id := job_id job;
     job_fileName := job_fileName job;
     job_status := processing;
     job_startedAt := Some now;
     job_completedAt := job_completedAt job;
     job_duration := job_duration job;
     job_rowsProcessed := job_rowsProcessed job;
     job_rowsTotal := job_rowsTotal job;
     job_rowsSkipped := job_rowsSkipped job;
     job_errors := job_errors job;
     job_userId := job_userId job |}.

(** Update job status, in the handler of [end]. *)
Definition finish_job (now : Date) (r : Run) (job : IngestionJob)
  : IngestionJob :=
  {| job_id := job_id job;
     job_fileName := job_fileName job;
     job_status :=
       if (0 <? processedCount r)%nat then completed else failed;
     job_startedAt := job_startedAt job;
     job_completedAt := Some now;
     job_duration :=
       Some (now - match job_startedAt job with Some t => t | None => 0 end);
     job_rowsProcessed := processedCount r;
     job_rowsTotal := Some (rowCount r);
     job_rowsSkipped := skippedCount r;
     job_errors := firstn 100 (errors r);
     job_userId := job_userId job |}.

(** The handler of [error]. *)
Definition fail_job (now : Date) (r : Run) (msg : string)
    (job : IngestionJob) : IngestionJob :=
  {| job_id := job_id job;
     job_fileName := job_fileName job;
     job_status := failed;
     job_startedAt := job_startedAt job;
     job_completedAt := Some now;
     job_duration := job_duration job;
     job_rowsProcessed := job_rowsProcessed job;
     job_rowsTotal := job_rowsTotal job;
     job_rowsSkipped := job_rowsSkipped job;
     job_errors := (job_errors job ++
                    [{| ee_row := rowCount r;
                        ee_message := msg;
                        ee_timestamp := now |}])%list;
     job_userId := job_userId job |}.

Definition message (msg : string) : JSError :=
  {| err_code := None; err_message := msg |}.

(** Process CSV file in chunks.  [now] is the reading of the clock
    during the run, [indexes] the indexes of the line-item
    collection. *)
Definition processCSVFile (now : Date) (indexes : list IndexSpec)
    (file : Csv) (jobId : ObjectId) (options : Options) (st : Store num)
  : Store num * Settled :=
  match findById jobId st with
  | None => (st, Rejected (message "Ingestion job not found"))
  | Some job =>
      match or (opt_userId options) (job_userId job) with
      | None =>
          (st, Rejected (message "User ID is required for data ingestion"))
      | Some userIdToUse =>
          let chunkSize :=
            match opt_chunkSize options with Some n => n | None => 1000%nat end in
          let job := start_job now job in
          let st := save_job job st in
          let r :=
            fold_left
              (on_data now indexes (lineItem_fault st) jobId userIdToUse
                 chunkSize)
              (csv_rows file)
              {| rowCount := O; processedCount := O; skippedCount := O;
                 errors := []; batch := [];
                 collection := lineItems st |} in
          match csv_error file with
          | Some msg =>
              (save_job (fail_job now r msg job)
                 (set_lineItems (collection r) st),
               Rejected (message msg))
          | None =>
              let r := flush indexes (lineItem_fault st) r in
              let st :=
                save_job (finish_job now r job)
                  (set_lineItems (collection r) st) in
              (* Trigger aggregation *)
              let st :=
                if (0 <? processedCount r)%nat then aggregateData jobId st
                else st in
              (st,
               Resolved {| processed := processedCount r;
                           skipped := skippedCount r;
                           total := rowCount r |})
          end
      end
  end.
End Run.
End Pipeline.

(** ** anomalyDetectionService.js *)

Module AnomalyDetection.
Import JS Model Aggregation.

(** [{ accountId, service, userId, lookbackDays = 30, threshold = 2.5 }] *)
Record Options {num : Type} : Type := {
  opt_accountId : option string;
  opt_service : option string;
  opt_userId : option ObjectId;
  opt_lookbackDays : option Z;
  opt_threshold : option num
}.
Arguments Options : clear implicits.

Section Detect.
Context {num : Type} `{Host num}.

(** One point of the daily series: a lean aggregate document, or the
    object the fallback builds from line items. *)
Record DataPoint : Type := {
  dp_date : Date;
  dp_accountId : option string;
  dp_service : option string;
  dp_region : option string;
  dp_totalCost : num
}.

Definition of_aggregate (a : Aggregate num) : DataPoint :=
  {| dp_date := agg_date a;
     dp_accountId := Some (agg_accountId a);
     dp_service := Some (agg_service a);
     dp_region := Some (agg_region a);
     dp_totalCost := agg_totalCost a |}.

(** [if (v) query.path = v]: the clause is there for a truthy [v]. *)
Definition clause (v : option string) (actual : string) : bool :=
  match v with
  | Some s => if truthy s then String.eqb actual s else true
  | None => true
  end.

Definition in_range (startDate endDate d : Date) : bool :=
  (startDate <=? d) && (d <=? endDate).

Fixpoint insert_by_date (a : Aggregate num) (l : list (Aggregate num))
  : list (Aggregate num) :=
  match l with
  | [] => [a]
  | b :: l' =>
      if agg_date a <=? agg_date b then a :: l
      else b :: insert_by_date a l'
  end.

(** [.sort({ date: 1 })] *)
Definition sort_by_date (l : list (Aggregate num)) : list (Aggregate num) :=
  fold_right insert_by_date [] l.

(** Get daily aggregates. *)
Definition find_aggregates (startDate endDate : Date) (o : Options num)
    (st : Store num) : list (Aggregate num) :=
  sort_by_date
    (filter
       (fun a =>
          in_range startDate endDate (agg_date a) &&
          AggregationType_eqb (agg_aggregationType a) daily &&
          match opt_userId o with
          | Some u => owned_by u (agg_userId a)
          | None => true
          end &&
          clause (opt_accountId o) (agg_accountId a) &&
          clause (opt_service o) (agg_service a))
       (aggregates st)).

(** The line items of the fallback query. *)
Definition find_lineItems (startDate endDate : Date) (o : Options num)
    (st : Store num) : list (BillingLineItem num) :=
  filter
    (fun i =>
       option_eqb Nat.eqb (li_userId i) (opt_userId o) &&
       match li_usageStartDate i with
       | Some d => in_range startDate endDate d
       | None => false
       end &&
       clause (opt_accountId o) (li_accountId i) &&
       clause (opt_service o) (li_service i))
    (lineItems st).

Definition fallback_key (item : BillingLineItem num) : string :=
  group_key
    (setHours0 (or_else (li_usageStartDate item) (li_ingestionDate item)))
    (or_else (Some (li_accountId item)) "all")
    (or_else (Some (li_service item)) "all")
    (or_else (li_region item) "all").

Definition add_cost (cost : num) (p : DataPoint) : DataPoint :=
  {| dp_date := dp_date p;
     dp_accountId := dp_accountId p;
     dp_service := dp_service p;
     dp_region := dp_region p;
     dp_totalCost := add (dp_totalCost p) cost |}.

(** The entry a new key of the fallback starts from. *)
Definition fresh_point (item : BillingLineItem num) : DataPoint :=
  {| dp_date :=
       setHours0 (or_else (li_usageStartDate item) (li_ingestionDate item));
     dp_accountId := Some (li_accountId item);
     dp_service := Some (li_service item);
     dp_region := li_region item;
     dp_totalCost := zero |}.

(** The body of [lineItems.forEach] in the fallback
    ("Group by date, account, service, region"). *)
Definition fallback_step (dailyMap : Map DataPoint)
    (item : BillingLineItem num) : Map DataPoint :=
  let key := fallback_key item in
  let dailyMap :=
    if negb (Map_has key dailyMap) then
      Map_set key (fresh_point item) dailyMap
    else dailyMap in
  Map_modify key (add_cost (or_else (Some (li_cost item)) zero)) dailyMap.

(** Fallback to line items if no aggregates found. *)
Definition fallback (items : list (BillingLineItem num)) : list DataPoint :=
  Map_values (fold_left fallback_step items []).

Definition series_key (agg : DataPoint) : string :=
  or_else (dp_accountId agg) "all" ++ "_" ++
  or_else (dp_service agg) "all" ++ "_" ++
  or_else (dp_region agg) "all".

(** Group by account/service/region. *)
Definition group_step (groups : Map (list DataPoint)) (agg : DataPoint)
  : Map (list DataPoint) :=
  let key := series_key agg in
  let groups :=
    if negb (Map_has key groups) then Map_set key [] groups else groups in
  Map_modify key (fun g => (g ++ [agg])%list) groups.

(** [costs.reduce((a, b) => a + b, 0) / costs.length] *)
Definition mean (costs : list num) : num :=
  div (fold_left add costs zero) (of_length (List.length costs)).

(** The population variance around [m]. *)
Definition variance (m : num) (costs : list num) : num :=
  div (fold_left (fun sum cost => add sum (Math_pow2 (sub cost m))) costs zero)
      (of_length (List.length costs)).

(** [name !== 'all' ? name : undefined] *)
Definition unless_all (name : option string) : option string :=
  match name with
  | Some s => if String.eqb s "all" then None else Some s
  | None => None
  end.

Definition severity_of (zScore : num) : Level :=
  if gt zScore (lit 4 0) then critical
  else if gt zScore (lit 3 0) then high
  else medium.

Definition kind_of (cost m : num) : AnomalyType :=
  if gt cost m then spike else drop.

Definition kind_name (t : AnomalyType) : string :=
  match t with
  | spike => "spike"
  | drop => "drop"
  | unusual_pattern => "unusual_pattern"
  end.

(** Check each data point of one group. *)
Definition check_point (userId : option ObjectId) (threshold : num)
    (key : string) (m stdDev : num) (agg : DataPoint) : list (Anomaly num) :=
  let zScore := Math_abs (div (sub (dp_totalCost agg) m) stdDev) in
  if gt zScore threshold then
    let parts := split "_"%char key in
    [ {| an_type := kind_of (dp_totalCost agg) m;
         an_severity := severity_of zScore;
         an_userId := userId;
         an_accountId := unless_all (nth_error parts 0);
         an_service := unless_all (nth_error parts 1);
         an_region := unless_all (nth_error parts 2);
         an_date := dp_date agg;
         an_cost := dp_totalCost agg;
         an_expectedCost := m;
         an_variance := sub (dp_totalCost agg) m;
         an_variancePercent :=
           mul (div (sub (dp_totalCost agg) m) m) (lit 100 0);
         an_zScore := zScore;
         an_description :=
           "Cost " ++ kind_name (kind_of (dp_totalCost agg) m) ++
           " detected: $" ++ toFixed2 (dp_totalCost agg) ++
           " vs expected $" ++ toFixed2 m ++
           " (z-score: " ++ toFixed2 zScore ++ ")" |} ]
  else [].

(** Detect anomalies in one group. *)
Definition check_group (userId : option ObjectId) (threshold : num)
    (entry : string * list DataPoint) : list (Anomaly num) :=
  let '(key, groupData) := entry in
  let costs := map dp_totalCost groupData in
  let m := mean costs in
  let stdDev := Math_sqrt (variance m costs) in
  if strict_eq stdDev zero then []
  else flat_map (check_point userId threshold key m stdDev) groupData.

Definition during (day : Date) (d : option Date) : bool :=
  match d with
  | Some t => (day <=? t) && (t <? day + 24 * 60 * 60 * 1000)
  | None => false
  end.

(** [path: anomaly.path || { $exists: true }] *)
Definition matches (wanted : option string) (actual : option string)
  : bool :=
  match or wanted None, actual with
  | Some w, Some a => String.eqb a w
  | Some _, None => false
  | None, Some _ => true
  | None, None => false
  end.

Definition flag (score : num) (i : BillingLineItem num)
  : BillingLineItem num :=
  {| li_columns := li_columns i;
     li_usageStartDate := li_usageStartDate i;
     li_usageEndDate := li_usageEndDate i;
     li_usageQuantity := li_usageQuantity i;
     li_blendedCost := li_blendedCost i;
     li_unblendedCost := li_unblendedCost i;
     li_accountId := li_accountId i;
     li_service := li_service i;
     li_region := li_region i;
     li_usageTypeNormalized := li_usageTypeNormalized i;
     li_cost := li_cost i;
     li_usageQuantityNormalized := li_usageQuantityNormalized i;
     li_tags := li_tags i;
     li_userId := li_userId i;
     li_ingestionJobId := li_ingestionJobId i;
     li_ingestionDate := li_ingestionDate i;
     li_isAnomaly := true;
     li_anomalyScore := Some score |}.

(** Mark line items as anomalies: the first [limit] that match. *)
Fixpoint mark (userId : option ObjectId) (a : Anomaly num) (limit : nat)
    (items : list (BillingLineItem num)) : list (BillingLineItem num) :=
  match items, limit with
  | [], _ => []
  | _, O => items
  | i :: items', S limit' =>
      if option_eqb Nat.eqb (li_userId i) userId &&
         matches (an_accountId a) (Some (li_accountId i)) &&
         matches (an_service a) (Some (li_service i)) &&
         matches (an_region a) (li_region i) &&
         during (an_date a) (li_usageStartDate i)
      then flag (an_zScore a) i :: mark userId a limit' items'
      else i :: mark userId a limit items'
  end.

(** Save anomalies, and mark the line items. *)
Definition persist (userId : option ObjectId) (found : list (Anomaly num))
    (st : Store num) : Store num :=
  if (0 <? List.length found)%nat then
    {| lineItems :=
         fold_left (fun items a => mark userId a 100 items) found
           (lineItems st);
       aggregates := aggregates st;
       jobs := jobs st;
       anomalies := (anomalies st ++ found)%list;
       lineItem_fault := lineItem_fault st |}
  else st.

(** [startDate.setDate(startDate.getDate() - lookbackDays)] *)
Definition window_start (now : Date) (o : Options num) : Date :=
  subDays now (match opt_lookbackDays o with Some n => n | None => 30 end).

(** The data points the detector works on. *)
Definition series (now : Date) (o : Options num) (st : Store num)
  : list DataPoint :=
  let endDate := now in
  let startDate := window_start now o in
  let aggregates := find_aggregates startDate endDate o st in
  if (List.length aggregates =? 0)%nat then
    fallback (find_lineItems startDate endDate o st)
  else map of_aggregate aggregates.

(** Detect anomalies using rolling mean and standard deviation. *)
Definition detectAnomalies (now : Date) (o : Options num) (st : Store num)
  : Store num * list (Anomaly num) :=
  let threshold :=
    match opt_threshold o with Some t => t | None => lit 25 1 end in
  let aggregates := series now o st in
  if (List.length aggregates <? 7)%nat then (st, [])
  else
    let groups := fold_left group_step aggregates [] in
    let found := flat_map (check_group (opt_userId o) threshold) groups in
    (persist (opt_userId o) found st, found).
End Detect.

Arguments DataPoint : clear implicits.
End AnomalyDetection.

(** ** recommendationService.js: the reserved-instance rule *)

Module Recommendations.
Import JS Model Aggregation AnomalyDetection.

(** [{ accountId, lookbackDays = 30, userId }] *)
Record Options : Type := {
  opt_accountId : option string;
  opt_lookbackDays : option Z;
  opt_userId : option ObjectId
}.

(** [{ userId, usageStartDate: { $gte, $lte }, accountId? }] *)
Record Query : Type := {
  q_userId : ObjectId;
  q_startDate : Date;
  q_endDate : Date;
  q_accountId : option string
}.

(** The query [generateRecommendations] hands to every detector. *)
Definition build_query (now : Date) (o : Options) : JSError + Query :=
  match opt_userId o with
  | None =>
      inl {| err_code := None;
             err_message :=
               "User ID is required for generating recommendations" |}
  | Some userId =>
      inr {| q_userId := userId;
             q_startDate :=
               subDays now
                 (match opt_lookbackDays o with Some n => n | None => 30 end);
             q_endDate := now;
             q_accountId :=
               match opt_accountId o with
               | Some a => if truthy a then Some a else None
               | None => None
               end |}
  end.

Section Rule.
Context {num : Type} `{Host num}.

(** [Aggregate.find({ ...query, service: /EC2/i, aggregationType:
    'monthly' })].  The clause on [usageStartDate] names a path the
    Aggregate schema does not have: under [strictQuery] Mongoose drops
    it, otherwise it reaches the server, where no aggregate document
    satisfies it. *)
Definition find_monthly_ec2 (strictQuery : bool) (q : Query)
    (st : Store num) : list (Aggregate num) :=
  if strictQuery then
    filter
      (fun a =>
         owned_by (q_userId q) (agg_userId a) &&
         clause (q_accountId q) (agg_accountId a) &&
         test_ci "EC2" (agg_service a) &&
         AggregationType_eqb (agg_aggregationType a) monthly)
      (aggregates st)
  else [].

(** Find accounts with consistent EC2 spend: the body of
    [ec2Items.forEach].  [accountSpend] is an object keyed by the account
    id: it is this association list when no account id is an array index
    (which [Object.entries] would list first) or the name of an inherited
    property ([constructor], [__proto__], ...), for which
    [accountSpend[id].push] throws. *)
Definition spend_step (accountSpend : Map (list num)) (item : Aggregate num)
  : Map (list num) :=
  let key := agg_accountId item in
  let accountSpend :=
    if negb (Map_has key accountSpend) then Map_set key [] accountSpend
    else accountSpend in
  Map_modify key (fun costs => (costs ++ [agg_totalCost item])%list)
    accountSpend.

Definition coefficientOfVariation (costs : list num) : num :=
  div (Math_sqrt (variance (mean costs) costs)) (mean costs).

(** If consistent spend (low variance), recommend RI. *)
Definition ri_rule (entry : string * list num) : list (Recommendation num) :=
  let '(accountId, costs) := entry in
  let avgMonthlyCost := mean costs in
  let coefficientOfVariation := coefficientOfVariation costs in
  if gt avgMonthlyCost (lit 500 0) && lt coefficientOfVariation (lit 2 1)
  then
    [ {| rec_type := reserved_instance;
         rec_priority := high;
         rec_accountId := accountId;
         rec_service := "EC2";
         rec_title := "Consider Reserved Instances";
         rec_description :=
           "Consistent monthly EC2 spend of $" ++ toFixed2 avgMonthlyCost ++
           ". Reserved Instances could save up to 72%.";
         rec_currentCost := avgMonthlyCost;
         rec_estimatedSavings := mul avgMonthlyCost (lit 5 1);
         rec_estimatedSavingsPercent := lit 50 0;
         rec_implementationEffort := low;
         rec_actionItems :=
           [ "Analyze instance usage patterns";
             "Purchase 1-year or 3-year Reserved Instances";
             "Consider Savings Plans for flexibility" ];
         rec_meta_avgMonthlyCost := avgMonthlyCost;
         rec_meta_coefficientOfVariation := coefficientOfVariation |} ]
  else [].

(** Detect Reserved Instance opportunities. *)
Definition detectRIOpportunities (strictQuery : bool) (q : Query)
    (st : Store num) : list (Recommendation num) :=
  let ec2Items := find_monthly_ec2 strictQuery q st in
  let accountSpend := fold_left spend_step ec2Items [] in
  flat_map ri_rule accountSpend.
End Rule.
End Recommendations.

(** ** Notions used to state the properties *)

Module Totals.
Import JS Model.

(** The shape the grouping loops of the services share: create the entry
    of [key x] when the map does not have it, then update it in place. *)
Definition group_into {A V : Type} (key : A -> string) (init : A -> V)
    (upd : A -> V -> V) (m : Map V) (x : A) : Map V :=
  Map_modify (key x) (upd x)
    (if negb (Map_has (key x) m) then Map_set (key x) (init x) m else m).

(** The elements of [xs] that [key] sends to [k], in order. *)
Definition keyed {A : Type} (key : A -> string) (k : string) (xs : list A)
  : list A :=
  filter (fun x => String.eqb (key x) k) xs.

(** The combination by [op] of [f] over a list. *)
Definition msum {M A : Type} (op : M -> M -> M) (e : M) (f : A -> M)
    (l : list A) : M :=
  fold_right (fun x acc => op (f x) acc) e l.

Section Sums.
Context {num : Type} `{Number num}.

(** The sum of [f] over a list of documents. *)
Definition total {A : Type} (f : A -> num) (l : list A) : num :=
  msum add zero f l.

Definition count {A : Type} (f : A -> nat) (l : list A) : nat :=
  msum Nat.add O f l.

(** Exact arithmetic: sums do not depend on the order of the terms, and
    zero is the only falsy number. *)
Class Exact : Prop := {
  add_comm : forall a b : num, add a b = add b a;
  add_assoc : forall a b c : num, add a (add b c) = add (add a b) c;
  add_zero_l : forall a : num, add zero a = a;
  falsy_zero : forall a : num, num_truthy a = false -> a = zero
}.
End Sums.

Arguments Exact num {_}.


Section Parts.
Context {num : Type} `{Number num}.


End Parts.

(** No user is left with daily aggregate rows and no line item: the state
    in which [aggregateData] returns without rebuilding anything.  It holds
    of the empty store and every ingestion run keeps it. *)
Definition no_stale_rows {num : Type} `{Number num} (st : Store num) : Prop :=
  forall userId,
    Aggregation.items_of userId st = [] ->
    Aggregation.rows_of userId daily st = [].
End Totals.

(** ** Billing files and stores used as examples *)

Module Scenarios.
Import JS FloatNum ExactNum Model Normalizer Aggregation Pipeline.

Definition alice : ObjectId := 7%nat.

Definition new_job (id : ObjectId) (owner : ObjectId) : IngestionJob :=
  {| job_id := id;
     job_fileName := "billing.csv";
     job_status := pending;
     job_startedAt := None;
     job_completedAt := None;
     job_duration := None;
     job_rowsProcessed := O;
     job_rowsTotal := None;
     job_rowsSkipped := O;
     job_errors := [];
     job_userId := Some owner |}.

(** A store with no documents but the pending jobs of [alice]. *)
Definition empty_store {num : Type} : Store num :=
  {| lineItems := [];
     aggregates := [];
     jobs := [new_job 1%nat alice; new_job 2%nat alice];
     anomalies := [];
     lineItem_fault := None |}.

Definition billing_row (account product date cost : string) : Row :=
  [ ("LinkedAccountId", account);
    ("ProductName", product);
    ("UsageStartDate", date);
    ("UnblendedCost", cost) ].

Definition csv (rows : list Row) : Csv :=
  {| csv_rows := rows; csv_error := None |}.

Definition for_alice (chunk : option nat) : Pipeline.Options :=
  {| opt_chunkSize := chunk; Pipeline.opt_userId := Some alice |}.

(** 2024-02-01T09:00:00Z and 2024-02-02T09:00:00Z *)
Definition feb1 : Date := 1706778000000.
Definition feb2 : Date := 1706864400000.

(** *** One file, ingested twice *)

Definition ec2_row : Row :=
  billing_row "123456789012" "Amazon Elastic Compute Cloud"
    "2024-01-05T00:00:00Z" "10".

Definition ingested_once : Store float * Settled :=
  processCSVFile feb1 BillingLineItem_indexes (csv [ec2_row]) 1%nat
    (for_alice None) empty_store.

Definition ingested_twice : Store float * Settled :=
  processCSVFile feb2 BillingLineItem_indexes (csv [ec2_row]) 2%nat
    (for_alice None) (fst ingested_once).

(** *** Two tuples, one key *)

Definition underscore_rows : list Row :=
  [ billing_row "a_b" "c" "2024-01-05T00:00:00Z" "10";
    billing_row "a" "b_c" "2024-01-06T00:00:00Z" "20" ].

Definition underscore_store : Store float :=
  fst (processCSVFile feb1 BillingLineItem_indexes (csv underscore_rows)
         1%nat (for_alice None) empty_store).

(** *** A collection that refuses every write *)

Definition s3_row : Row :=
  billing_row "123456789012" "Amazon Simple Storage Service"
    "2024-01-05T00:00:00Z" "3".

Definition validator_error : JSError :=
  {| err_code := Some 121; err_message := "Document failed validation" |}.

Definition faulty_store : Store float :=
  {| lineItems := [];
     aggregates := [];
     jobs := [new_job 1%nat alice];
     anomalies := [];
     lineItem_fault := Some validator_error |}.

(** A one-row file, with the default [chunkSize]: the row is written in
    the handler of [end]. *)
Definition faulty_upload : Store float * Settled :=
  processCSVFile feb1 BillingLineItem_indexes (csv [ec2_row]) 1%nat
    (for_alice None) faulty_store.

(** *** A zero unblended cost *)

Definition zero_unblended_row : Row :=
  [ ("LinkedAccountId", "123456789012");
    ("ProductName", "Amazon Elastic Compute Cloud");
    ("UnblendedCost", "0");
    ("BlendedCost", "5") ].

(** *** Two accounts on the first, partial day of the window *)

Definition first_day_rows : list Row :=
  [ billing_row "111111111111" "Amazon Elastic Compute Cloud"
      "2024-01-02T13:00:00Z" "1";
    billing_row "222222222222" "Amazon Elastic Compute Cloud"
      "2024-01-02T14:00:00Z" "2" ].

Definition first_day_store : Store float :=
  fst (processCSVFile feb1 BillingLineItem_indexes (csv first_day_rows)
         1%nat (for_alice None) empty_store).

Definition detect_for_alice : AnomalyDetection.Options float :=
  {| AnomalyDetection.opt_accountId := None;
     AnomalyDetection.opt_service := None;
     AnomalyDetection.opt_userId := Some alice;
     AnomalyDetection.opt_lookbackDays := None;
     AnomalyDetection.opt_threshold := None |}.

(** *** The series [100, 100, 100, 100, 100, 100, 400] *)

Definition day_row (day cost : string) : Row :=
  billing_row "123456789012" "Amazon Elastic Compute Cloud"
    ("2024-01-" ++ day ++ "T00:00:00Z") cost.

Definition week_rows : list Row :=
  [ day_row "21" "100"; day_row "22" "100"; day_row "23" "100";
    day_row "24" "100"; day_row "25" "100"; day_row "26" "100";
    day_row "27" "400" ].

Definition week_store : Store float :=
  fst (processCSVFile feb1 BillingLineItem_indexes (csv week_rows)
         1%nat (for_alice None) empty_store).

(** The same with one more day at 100. *)
Definition eight_days_store : Store float :=
  fst (processCSVFile feb1 BillingLineItem_indexes
         (csv (day_row "20" "100" :: week_rows))
         1%nat (for_alice None) empty_store).

(** *** Line items with exact costs *)

Definition exact_item (account : string) (day : Date) (cost : Qc)
  : BillingLineItem Qc :=
  {| li_columns := [];
     li_usageStartDate := Some day;
     li_usageEndDate := None;
     li_usageQuantity := None;
     li_blendedCost := None;
     li_unblendedCost := Some cost;
     li_accountId := account;
     li_service := "Amazon Elastic Compute Cloud";
     li_region := Some "us-east-1";
     li_usageTypeNormalized := Some "";
     li_cost := cost;
     li_usageQuantityNormalized := Some (Q2Qc 1);
     li_tags := [];
     li_userId := Some alice;
     li_ingestionJobId := Some 1%nat;
     li_ingestionDate := feb1;
     li_isAnomaly := false;
     li_anomalyScore := None |}.

Definition exact_store : Store Qc :=
  {| lineItems :=
       [ exact_item "111111111111" 1704412800000 (Q2Qc (1 # 10));
         exact_item "111111111111" 1704412800000 (Q2Qc (2 # 10));
         exact_item "222222222222" 1704499200000 (Q2Qc (3 # 10)) ];
     aggregates := [];
     jobs := [new_job 1%nat alice];
     anomalies := [];
     lineItem_fault := None |}.

(** *** Three costs whose sum depends on the order of the additions *)



(** *** Three months of EC2, the last one inside the thirty days *)

Definition ec2_code_row (date cost : string) : Row :=
  [ ("LinkedAccountId", "111111111111");
    ("ProductCode", "AmazonEC2");
    ("UsageStartDate", date);
    ("UnblendedCost", cost) ].

Definition three_months_store : Store float :=
  fst (processCSVFile feb1 BillingLineItem_indexes
         (csv [ ec2_code_row "2023-12-10T00:00:00Z" "10";
                ec2_code_row "2024-01-01T00:00:00Z" "10";
                ec2_code_row "2024-02-01T00:00:00Z" "600" ])
         1%nat (for_alice None) empty_store).

Definition recommend_for_alice : Recommendations.Options :=
  {| Recommendations.opt_accountId := None;
     Recommendations.opt_lookbackDays := None;
     Recommendations.opt_userId := Some alice |}.

(** *** Three steady months of EC2 *)

Definition ec2_month (account : string) (month : Date) (cost : float)
  : Aggregate float :=
  {| agg_userId := Some alice;
     agg_date := month;
     agg_accountId := account;
     agg_service := "AmazonEC2";
     agg_region := "us-east-1";
     agg_aggregationType := monthly;
     agg_totalCost := cost;
     agg_totalUsageQuantity := 0%float;
     agg_lineItemCount := 30%nat |}.

Definition steady_store : Store float :=
  {| lineItems := [];
     aggregates :=
       [ ec2_month "111111111111" 1698796800000 600%float;
         ec2_month "222222222222" 1698796800000 100%float;
         ec2_month "111111111111" 1701388800000 620%float;
         ec2_month "111111111111" 1704067200000 610%float ];
     jobs := [];
     anomalies := [];
     lineItem_fault := None |}.
End Scenarios.

(** ** recommendationService.js: the detectors and the entry point *)

Module RecommendationService.
Import JS Model Aggregation AnomalyDetection Recommendations.

(** A count inside a template literal. *)
Definition count_to_string (n : nat) : string :=
  FloatNum.Z_to_string (Z.of_nat n).

(** [`${v}`] for a string that may be [undefined]. *)
Definition shown (v : option string) : string :=
  match v with
  | Some s => s
  | None => "undefined"
  end.

(** [set.add(x)], the [Set] being the list of its elements in insertion
    order. *)
Definition Set_add (x : string) (s : list string) : list string :=
  if existsb (String.eqb x) s then s else (s ++ [x])%list.

(** [item.path] for a column the line item keeps as a string. *)
Definition column {num : Type} (path : string) (item : BillingLineItem num)
  : option string :=
  Map_get path (li_columns item).

(** [{ path: { $regex: /p/i } }] on a path that may be missing. *)
Definition regex_ci (p : string) (v : option string) : bool :=
  match v with
  | Some s => test_ci p s
  | None => false
  end.

(** [/EC2|Elastic Compute Cloud/i] *)
Definition ec2_pattern (v : option string) : bool :=
  regex_ci "EC2" v || regex_ci "Elastic Compute Cloud" v.

(** [v && /BoxUsage/i.test(v)] *)
Definition is_box_usage (v : option string) : bool :=
  match v with
  | Some s => truthy s && test_ci "BoxUsage" s
  | None => false
  end.

Section Detectors.
Context {num : Type} `{Host num}.

(** Each detector groups its rows in an object literal used as a
    dictionary: the association list of its own properties, in insertion
    order.  A key joins two or three fields with an underscore, so it is
    never an array index, which would move it to the front of
    [Object.values]; it is taken not to be one of the names an object
    inherits from [Object.prototype]. *)

(** The [metadata] of a recommendation, by the detector that writes it. *)
Inductive Metadata : Type :=
| InstanceMeta (instanceType : string) (instanceCount : nat)
    (resourceIds : list string)
| SpendMeta (avgMonthlyCost coefficientOfVariation : num)
| ResourceMeta (resourceId : option string)
| StorageMeta (usageType : string) (totalUsage : num)
| IdleMeta (days : nat) (region : string).

(** The object a detector pushes. *)
Record Finding : Type := {
  f_type : RecommendationType;
  f_priority : Level;
  f_accountId : string;
  f_service : string;
  f_region : option string;
  f_resourceId : option string;
  f_title : string;
  f_description : string;
  f_currentCost : num;
  f_estimatedSavings : num;
  f_estimatedSavingsPercent : num;
  f_implementationEffort : Level;
  f_actionItems : list string;
  f_metadata : Metadata
}.

(** The clauses of [query] on a line item: the owner, the window on
    [usageStartDate], the account when one was asked for. *)
Definition in_query (q : Query) (item : BillingLineItem num) : bool :=
  owned_by (q_userId q) (li_userId item) &&
  match li_usageStartDate item with
  | Some d => in_range (q_startDate q) (q_endDate q) d
  | None => false
  end &&
  clause (q_accountId q) (li_accountId item).

(** *** Rightsizing *)

Record InstanceGroup : Type := {
  ig_accountId : string;
  ig_instanceType : string;
  ig_totalCost : num;
  ig_count : nat;
  ig_resourceIds : list string
}.

(** Find EC2 instances with low utilization: the query, then the filter
    for BoxUsage items. *)
Definition find_box_usage (q : Query) (st : Store num)
  : list (BillingLineItem num) :=
  let ec2Items :=
    filter
      (fun item =>
         in_query q item &&
         (ec2_pattern (Some (li_service item)) ||
          ec2_pattern (column "productName" item) ||
          regex_ci "AmazonEC2" (column "productCode" item)))
      (lineItems st) in
  filter
    (fun item =>
       is_box_usage (column "usageType" item) ||
       is_box_usage (li_usageTypeNormalized item) ||
       is_box_usage (column "usageType" item))
    ec2Items.

Definition instance_key (item : BillingLineItem num) : string :=
  li_accountId item ++ "_" ++ or_else (li_usageTypeNormalized item) "unknown".

Definition fresh_instances (item : BillingLineItem num) : InstanceGroup :=
  {| ig_accountId := li_accountId item;
     ig_instanceType := or_else (li_usageTypeNormalized item) "unknown";
     ig_totalCost := zero;
     ig_count := O;
     ig_resourceIds := [] |}.

(** [group.totalCost += item.cost || 0; group.count += 1;
    if (item.resourceId) group.resourceIds.add(item.resourceId)] *)
Definition add_instance (item : BillingLineItem num) (group : InstanceGroup)
  : InstanceGroup :=
  {| ig_accountId := ig_accountId group;
     ig_instanceType := ig_instanceType group;
     ig_totalCost := add (ig_totalCost group) (or_else (Some (li_cost item)) zero);
     ig_count := (ig_count group + 1)%nat;
     ig_resourceIds :=
       match column "resourceId" item with
       | Some r =>
           if truthy r then Set_add r (ig_resourceIds group)
           else ig_resourceIds group
       | None => ig_resourceIds group
       end |}.

(** Group by instance type and account. *)
Definition instance_step (instanceGroups : Map InstanceGroup)
    (item : BillingLineItem num) : Map InstanceGroup :=
  let key := instance_key item in
  let instanceGroups :=
    if negb (Map_has key instanceGroups) then
      Map_set key (fresh_instances item) instanceGroups
    else instanceGroups in
  Map_modify key (add_instance item) instanceGroups.

(** Recommend rightsizing for instances with low cost but high count. *)
Definition rightsizing_rule (group : InstanceGroup) : list Finding :=
  if gt (ig_totalCost group) (lit 10 0) && (1 <? ig_count group)%nat then
    let avgCostPerInstance :=
      div (ig_totalCost group) (of_length (ig_count group)) in
    if lt avgCostPerInstance (lit 50 0) then
      [ {| f_type := rightsizing;
           f_priority := medium;
           f_accountId := ig_accountId group;
           f_service := "EC2";
           f_region := None;
           f_resourceId := None;
           f_title := "Rightsize " ++ ig_instanceType group ++ " instances";
           f_description :=
             count_to_string (ig_count group) ++ " instances of type " ++
             ig_instanceType group ++
             " with low average cost. Consider downsizing.";
           f_currentCost := ig_totalCost group;
           f_estimatedSavings := mul (ig_totalCost group) (lit 3 1);
           f_estimatedSavingsPercent := lit 30 0;
           f_implementationEffort := medium;
           f_actionItems :=
             [ "Review instance utilization metrics";
               "Consider switching to smaller instance types";
               "Evaluate spot instances for non-critical workloads" ];
           f_metadata :=
             InstanceMeta (ig_instanceType group) (ig_count group)
               (firstn 10 (ig_resourceIds group)) |} ]
    else []
  else [].

(** Detect rightsizing opportunities. *)
Definition detectRightsizingOpportunities (q : Query) (st : Store num)
  : list Finding :=
  let instanceGroups := fold_left instance_step (find_box_usage q st) [] in
  flat_map rightsizing_rule (Map_values instanceGroups).

(** *** Reserved instances *)

(** The recommendation of [detectRIOpportunities], as the object it is. *)
Definition of_reserved (r : Recommendation num) : Finding :=
  {| f_type := rec_type r;
     f_priority := rec_priority r;
     f_accountId := rec_accountId r;
     f_service := rec_service r;
     f_region := None;
     f_resourceId := None;
     f_title := rec_title r;
     f_description := rec_description r;
     f_currentCost := rec_currentCost r;
     f_estimatedSavings := rec_estimatedSavings r;
     f_estimatedSavingsPercent := rec_estimatedSavingsPercent r;
     f_implementationEffort := rec_implementationEffort r;
     f_actionItems := rec_actionItems r;
     f_metadata :=
       SpendMeta (rec_meta_avgMonthlyCost r) (rec_meta_coefficientOfVariation r) |}.

(** *** Unattached EBS volumes and Elastic IPs *)

Record ResourceGroup : Type := {
  rg_accountId : string;
  rg_resourceId : option string;
  rg_totalCost : num
}.

Definition resource_key (item : BillingLineItem num) : string :=
  li_accountId item ++ "_" ++ or_else (column "resourceId" item) "unknown".

Definition fresh_resource (item : BillingLineItem num) : ResourceGroup :=
  {| rg_accountId := li_accountId item;
     rg_resourceId := column "resourceId" item;
     rg_totalCost := zero |}.

Definition add_resource (item : BillingLineItem num) (group : ResourceGroup)
  : ResourceGroup :=
  {| rg_accountId := rg_accountId group;
     rg_resourceId := rg_resourceId group;
     rg_totalCost := add (rg_totalCost group) (or_else (Some (li_cost item)) zero) |}.

(** Group by account and resource. *)
Definition resource_step (groups : Map ResourceGroup)
    (item : BillingLineItem num) : Map ResourceGroup :=
  let key := resource_key item in
  let groups :=
    if negb (Map_has key groups) then Map_set key (fresh_resource item) groups
    else groups in
  Map_modify key (add_resource item) groups.

(** [{ ...query, service: /s/i, usageType: /u/i }] *)
Definition find_usage (service usageType : string) (q : Query)
    (st : Store num) : list (BillingLineItem num) :=
  filter
    (fun item =>
       in_query q item &&
       test_ci service (li_service item) &&
       regex_ci usageType (column "usageType" item))
    (lineItems st).

(** Flag volumes with low or no usage (potential unattached). *)
Definition ebs_rule (volume : ResourceGroup) : list Finding :=
  if gt (rg_totalCost volume) (lit 0 0) && lt (rg_totalCost volume) (lit 5 0)
  then
    [ {| f_type := unattached_ebs;
         f_priority := medium;
         f_accountId := rg_accountId volume;
         f_service := "EBS";
         f_region := None;
         f_resourceId := rg_resourceId volume;
         f_title := "Potential unattached EBS volume";
         f_description :=
           "EBS volume " ++ shown (rg_resourceId volume) ++
           " has minimal cost. Verify if it's attached to an instance.";
         f_currentCost := rg_totalCost volume;
         f_estimatedSavings := rg_totalCost volume;
         f_estimatedSavingsPercent := lit 100 0;
         f_implementationEffort := low;
         f_actionItems :=
           [ "Verify volume attachment status";
             "Delete unattached volumes";
             "Create snapshot before deletion if needed" ];
         f_metadata := ResourceMeta (rg_resourceId volume) |} ]
  else [].

(** Detect unattached EBS volumes. *)
Definition detectUnattachedEBS (q : Query) (st : Store num) : list Finding :=
  let volumeGroups :=
    fold_left resource_step (find_usage "EBS" "VolumeUsage" q st) [] in
  flat_map ebs_rule (Map_values volumeGroups).

Definition eip_rule (eip : ResourceGroup) : list Finding :=
  if gt (rg_totalCost eip) (lit 0 0) then
    [ {| f_type := unattached_eip;
         f_priority := low;
         f_accountId := rg_accountId eip;
         f_service := "EC2";
         f_region := None;
         f_resourceId := rg_resourceId eip;
         f_title := "Elastic IP charges";
         f_description :=
           "Elastic IP " ++ shown (rg_resourceId eip) ++
           " is incurring charges. Release if not in use.";
         f_currentCost := rg_totalCost eip;
         f_estimatedSavings := rg_totalCost eip;
         f_estimatedSavingsPercent := lit 100 0;
         f_implementationEffort := low;
         f_actionItems :=
           [ "Verify Elastic IP is attached to a running instance";
             "Release unattached Elastic IPs" ];
         f_metadata := ResourceMeta (rg_resourceId eip) |} ]
  else [].

(** Detect unattached Elastic IPs. *)
Definition detectUnattachedEIP (q : Query) (st : Store num) : list Finding :=
  let eipGroups :=
    fold_left resource_step (find_usage "EC2" "ElasticIP" q st) [] in
  flat_map eip_rule (Map_values eipGroups).

(** *** Storage tiering *)

Record StorageGroup : Type := {
  sg_accountId : string;
  sg_usageType : option string;
  sg_totalCost : num;
  sg_totalUsage : num
}.

Definition storage_key (item : BillingLineItem num) : string :=
  li_accountId item ++ "_" ++ or_else (li_usageTypeNormalized item) "unknown".

Definition fresh_storage (item : BillingLineItem num) : StorageGroup :=
  {| sg_accountId := li_accountId item;
     sg_usageType := li_usageTypeNormalized item;
     sg_totalCost := zero;
     sg_totalUsage := zero |}.

Definition add_storage (item : BillingLineItem num) (group : StorageGroup)
  : StorageGroup :=
  {| sg_accountId := sg_accountId group;
     sg_usageType := sg_usageType group;
     sg_totalCost := add (sg_totalCost group) (or_else (Some (li_cost item)) zero);
     sg_totalUsage :=
       add (sg_totalUsage group)
         (or_else (li_usageQuantityNormalized item) zero) |}.

Definition storage_step (s3Groups : Map StorageGroup)
    (item : BillingLineItem num) : Map StorageGroup :=
  let key := storage_key item in
  let s3Groups :=
    if negb (Map_has key s3Groups) then Map_set key (fresh_storage item) s3Groups
    else s3Groups in
  Map_modify key (add_storage item) s3Groups.

(** Check for Standard storage that could be moved to IA or Glacier. *)
Definition storage_rule (group : StorageGroup) : list Finding :=
  match sg_usageType group with
  | Some usageType =>
      if truthy usageType && includes usageType "Standard" &&
         gt (sg_totalCost group) (lit 50 0)
      then
        [ {| f_type := storage_tiering;
             f_priority := medium;
             f_accountId := sg_accountId group;
             f_service := "S3";
             f_region := None;
             f_resourceId := None;
             f_title := "S3 Storage Tiering Opportunity";
             f_description :=
               "Consider moving " ++ usageType ++
               " data to Infrequent Access or Glacier for cost savings.";
             f_currentCost := sg_totalCost group;
             f_estimatedSavings := mul (sg_totalCost group) (lit 5 1);
             f_estimatedSavingsPercent := lit 50 0;
             f_implementationEffort := medium;
             f_actionItems :=
               [ "Analyze data access patterns";
                 "Configure S3 Lifecycle policies";
                 "Move infrequently accessed data to IA";
                 "Archive old data to Glacier" ];
             f_metadata := StorageMeta usageType (sg_totalUsage group) |} ]
      else []
  | None => []
  end.

(** Detect storage tiering opportunities. *)
Definition detectStorageTieringOpportunities (q : Query) (st : Store num)
  : list Finding :=
  let s3Items :=
    filter (fun item => in_query q item && test_ci "S3" (li_service item))
      (lineItems st) in
  flat_map storage_rule (Map_values (fold_left storage_step s3Items [])).

(** *** Idle resources *)

Record IdleGroup : Type := {
  idle_accountId : string;
  idle_service : string;
  idle_region : string;
  idle_totalCost : num;
  idle_days : nat
}.

(** [Aggregate.find({ ...query, aggregationType: 'daily', totalCost:
    { $gt: 0, $lt: 1 } })]: the clause of [query] on [usageStartDate] is
    dropped under [strictQuery] and matches no aggregate document
    otherwise. *)
Definition find_low_usage (strictQuery : bool) (q : Query) (st : Store num)
  : list (Aggregate num) :=
  if strictQuery then
    filter
      (fun a =>
         owned_by (q_userId q) (agg_userId a) &&
         clause (q_accountId q) (agg_accountId a) &&
         AggregationType_eqb (agg_aggregationType a) daily &&
         gt (agg_totalCost a) (lit 0 0) && lt (agg_totalCost a) (lit 1 0))
      (aggregates st)
  else [].

Definition idle_key (item : Aggregate num) : string :=
  agg_accountId item ++ "_" ++ agg_service item ++ "_" ++ agg_region item.

Definition fresh_idle (item : Aggregate num) : IdleGroup :=
  {| idle_accountId := agg_accountId item;
     idle_service := agg_service item;
     idle_region := agg_region item;
     idle_totalCost := zero;
     idle_days := O |}.

Definition add_idle (item : Aggregate num) (group : IdleGroup) : IdleGroup :=
  {| idle_accountId := idle_accountId group;
     idle_service := idle_service group;
     idle_region := idle_region group;
     idle_totalCost := add (idle_totalCost group) (agg_totalCost item);
     idle_days := (idle_days group + 1)%nat |}.

Definition idle_step (idleGroups : Map IdleGroup) (item : Aggregate num)
  : Map IdleGroup :=
  let key := idle_key item in
  let idleGroups :=
    if negb (Map_has key idleGroups) then Map_set key (fresh_idle item) idleGroups
    else idleGroups in
  Map_modify key (add_idle item) idleGroups.

(** Flag resources idle for more than 7 days. *)
Definition idle_rule (group : IdleGroup) : list Finding :=
  if (7 <=? idle_days group)%nat then
    [ {| f_type := idle_resource_cleanup;
         f_priority := medium;
         f_accountId := idle_accountId group;
         f_service := idle_service group;
         f_region := Some (idle_region group);
         f_resourceId := None;
         f_title := "Idle " ++ idle_service group ++ " resources detected";
         f_description :=
           idle_service group ++ " resources in " ++ idle_region group ++
           " have been idle for " ++ count_to_string (idle_days group) ++
           " days.";
         f_currentCost := idle_totalCost group;
         f_estimatedSavings := idle_totalCost group;
         f_estimatedSavingsPercent := lit 100 0;
         f_implementationEffort := low;
         f_actionItems :=
           [ "Review resource usage";
             "Stop or terminate idle resources";
             "Set up automated cleanup policies" ];
         f_metadata := IdleMeta (idle_days group) (idle_region group) |} ]
  else [].

(** Detect idle resources. *)
Definition detectIdleResources (strictQuery : bool) (q : Query)
    (st : Store num) : list Finding :=
  let idleGroups := fold_left idle_step (find_low_usage strictQuery q st) [] in
  flat_map idle_rule (Map_values idleGroups).

(** *** The entry point *)

(** The store, and next to it the Recommendation collection: each
    document is the object of a detector with the [userId] it was saved
    under. *)
Record World : Type := {
  store : Store num;
  recommendations : list (ObjectId * Finding)
}.

(** The six detectors in the order of [generateRecommendations]. *)
Definition detect_all (strictQuery : bool) (q : Query) (st : Store num)
  : list Finding :=
  (detectRightsizingOpportunities q st ++
   map of_reserved (detectRIOpportunities strictQuery q st) ++
   detectUnattachedEBS q st ++
   detectUnattachedEIP q st ++
   detectStorageTieringOpportunities q st ++
   detectIdleResources strictQuery q st)%list.

(** Generate cost optimization recommendations. *)
Definition generateRecommendations (now : Date) (strictQuery : bool)
    (options : Recommendations.Options) (w : World)
  : World * (JSError + list Finding) :=
  match build_query now options with
  | inl err => (w, inl err)
  | inr query =>
      let found := detect_all strictQuery query (store w) in
      (* Save recommendations with userId *)
      let w :=
        if (0 <? List.length found)%nat then
          {| store := store w;
             recommendations :=
               (recommendations w ++
                map (fun rec => (q_userId query, rec)) found)%list |}
        else w in
      (w, inr found)
  end.
End Detectors.

Arguments Metadata : clear implicits.
Arguments Finding : clear implicits.
Arguments InstanceGroup : clear implicits.
Arguments ResourceGroup : clear implicits.
Arguments StorageGroup : clear implicits.
Arguments IdleGroup : clear implicits.
Arguments World : clear implicits.
End RecommendationService.

(** ** schedulerService.js *)

Module Scheduler.
Import JS Model Normalizer Aggregation Pipeline RecommendationService.

(** The module variable [scheduler], and the tasks node-cron runs: a task
    is its handle and its cron expression. *)
Record Cron : Type := {
  scheduler : option nat;
  running : list (nat * string);
  created : nat
}.

Definition no_cron : Cron :=
  {| scheduler := None; running := []; created := O |}.

Inductive Started : Type :=
| scheduled
| already_running
| invalid_expression.

(** Start the scheduler.  [validate] is node-cron's check of the
    expression: [cron.schedule] throws on one it refuses. *)
Definition startScheduler (validate : string -> bool) (schedule : string)
    (c : Cron) : Cron * Started :=
  match scheduler c with
  | Some _ => (c, already_running)
  | None =>
      if validate schedule then
        ({| scheduler := Some (created c);
            running := (running c ++ [(created c, schedule)])%list;
            created := S (created c) |},
         scheduled)
      else (c, invalid_expression)
  end.

(** Stop the scheduler. *)
Definition stopScheduler (c : Cron) : Cron :=
  match scheduler c with
  | Some task =>
      {| scheduler := None;
         running := filter (fun t => negb (Nat.eqb (fst t) task)) (running c);
         created := created c |}
  | None => c
  end.

Inductive Call : Type :=
| Start (schedule : string)
| Stop.

Definition call (validate : string -> bool) (c : Cron) (op : Call) : Cron :=
  match op with
  | Start schedule => fst (startScheduler validate schedule c)
  | Stop => stopScheduler c
  end.

Definition JobStatus_eqb (a b : JobStatus) : bool :=
  match a, b with
  | pending, pending | processing, processing | completed, completed
  | failed, failed | partial, partial => true
  | _, _ => false
  end.

Section Nightly.
Context {num : Type} `{Host num}.

(** [job.save()] of a document read earlier: the paths modified since
    ([status], and [errors] by a push) are written to the stored
    document. *)
Definition mark_failed (entry : list ErrorEntry) (id : ObjectId)
    (st : Store num) : Store num :=
  {| lineItems := lineItems st;
     aggregates := aggregates st;
     jobs :=
       map (fun j =>
              if Nat.eqb (job_id j) id then
                {| job_id := job_id j;
                   job_fileName := job_fileName j;
                   job_status := failed;
                   job_startedAt := job_startedAt j;
                   job_completedAt := job_completedAt j;
                   job_duration := job_duration j;
                   job_rowsProcessed := job_rowsProcessed j;
                   job_rowsTotal := job_rowsTotal j;
                   job_rowsSkipped := job_rowsSkipped j;
                   job_errors := (job_errors j ++ entry)%list;
                   job_userId := job_userId j |}
              else j)
           (jobs st);
     anomalies := anomalies st;
     lineItem_fault := lineItem_fault st |}.

(** The body of the loop over the pending jobs.  [file_at job] is the
    file at [job.filePath] as the parser reads it, when the path is set
    and the file exists. *)
Definition process_pending (file_at : IngestionJob -> option Csv)
    (now : Date) (indexes : list IndexSpec) (st : Store num)
    (job : IngestionJob) : Store num :=
  match file_at job with
  | Some file =>
      match
        processCSVFile now indexes file (job_id job)
          {| opt_chunkSize := None; Pipeline.opt_userId := job_userId job |} st
      with
      | (st, Resolved _) => st
      | (st, Rejected error) =>
          mark_failed
            [ {| ee_row := O;
                 ee_message := err_message error;
                 ee_timestamp := now |} ]
            (job_id job) st
      end
  | None => mark_failed [] (job_id job) st
  end.

(** Run nightly processing tasks: the pending jobs, the monthly
    aggregates, the anomalies, the recommendations.  The promise is
    rejected with the error of the step that throws. *)
Definition runNightlyProcessing (file_at : IngestionJob -> option Csv)
    (now : Date) (indexes : list IndexSpec) (strictQuery : bool)
    (w : World num) : World num * option JSError :=
  (* 1. Process any pending ingestion jobs *)
  let pendingJobs :=
    filter (fun j => JobStatus_eqb (job_status j) pending) (jobs (store w)) in
  let st := fold_left (process_pending file_at now indexes) pendingJobs (store w) in
  (* 2. Compute monthly aggregates *)
  let st := computeMonthlyAggregates None st in
  (* 3. Detect anomalies *)
  let '(st, _) :=
    AnomalyDetection.detectAnomalies now
      {| AnomalyDetection.opt_accountId := None;
         AnomalyDetection.opt_service := None;
         AnomalyDetection.opt_userId := None;
         AnomalyDetection.opt_lookbackDays := Some 30;
         AnomalyDetection.opt_threshold := None |} st in
  (* 4. Generate recommendations *)
  match
    generateRecommendations now strictQuery
      {| Recommendations.opt_accountId := None;
         Recommendations.opt_lookbackDays := Some 30;
         Recommendations.opt_userId := None |}
      {| store := st; recommendations := recommendations w |}
  with
  | (w, inl error) => (w, Some error)
  | (w, inr _) => (w, None)
  end.
End Nightly.
End Scheduler.

(** ** routes/data.js: clearing a user's data *)

Module DataRoutes.
Import JS Model Aggregation RecommendationService.

(** [deleted] in the response: the [deletedCount] of each collection. *)
Record Deleted : Type := {
  del_lineItems : nat;
  del_aggregates : nat;
  del_jobs : nat;
  del_anomalies : nat;
  del_recommendations : nat
}.

Section Clear.
Context {num : Type} `{Number num}.

(** [Model.deleteMany({ userId })]: what stays, and the [deletedCount]. *)
Definition deleteMany {D : Type} (owner : D -> option ObjectId)
    (userId : ObjectId) (coll : list D) : list D * nat :=
  (filter (fun d => negb (owned_by userId (owner d))) coll,
   List.length (filter (fun d => owned_by userId (owner d)) coll)).

(** [DELETE /clear]: delete only the authenticated user's billing
    data. *)
Definition clear (userId : ObjectId) (w : World num) : World num * Deleted :=
  let st := store w in
  let '(lineItems, n1) := deleteMany li_userId userId (lineItems st) in
  let '(aggregates, n2) := deleteMany agg_userId userId (aggregates st) in
  let '(jobs, n3) := deleteMany job_userId userId (jobs st) in
  let '(anomalies, n4) := deleteMany an_userId userId (anomalies st) in
  let '(recommendations, n5) :=
    deleteMany (fun r => Some (fst r)) userId (recommendations w) in
  ({| store :=
        {| lineItems := lineItems;
           aggregates := aggregates;
           jobs := jobs;
           anomalies := anomalies;
           lineItem_fault := lineItem_fault st |};
      recommendations := recommendations |},
   {| del_lineItems := n1;
      del_aggregates := n2;
      del_jobs := n3;
      del_anomalies := n4;
      del_recommendations := n5 |}).
End Clear.
End DataRoutes.

(** ** Further notions used to state the properties *)

Module Views.
Import JS Model Normalizer Pipeline RecommendationService.

(** The value of a CSV column that is there and not empty. *)
Definition present (csvCol : string) (row : Row) : option string :=
  match Map_get csvCol row with
  | Some v => if String.eqb v "" then None else Some v
  | None => None
  end.

(** The first of the listed columns that is there and not empty. *)
Fixpoint first_present (csvCols : list string) (row : Row) : option string :=
  match csvCols with
  | [] => None
  | c :: rest =>
      match present c row with
      | Some v => Some v
      | None => first_present rest row
      end
  end.

(** A string without the separator of the grouping keys. *)
Fixpoint no_underscore (s : string) : bool :=
  match s with
  | EmptyString => true
  | String c s' => negb (Ascii.eqb c "_"%char) && no_underscore s'
  end.

(** Everything a line item holds but the two paths the anomaly detector
    sets. *)
Definition billing_data {num : Type} (i : BillingLineItem num) :=
  (li_columns i, li_usageStartDate i, li_usageEndDate i, li_usageQuantity i,
   li_blendedCost i, li_unblendedCost i, li_accountId i, li_service i,
   li_region i, li_usageTypeNormalized i, li_cost i,
   li_usageQuantityNormalized i, li_tags i, li_userId i,
   li_ingestionJobId i, li_ingestionDate i).

(** The paths of an aggregate document that [aggregateData] computes
    from the data: all but [_id], [computedAt] and the time stamps, which
    every rebuild renews. *)
Definition aggregate_values {num : Type} (a : Aggregate num) :=
  (agg_userId a, agg_date a, agg_accountId a, agg_service a, agg_region a,
   agg_aggregationType a, agg_totalCost a, agg_totalUsageQuantity a,
   agg_lineItemCount a).

(** The [chunkSize] a run works with. *)
Definition chunk_size (options : Pipeline.Options) : nat :=
  match opt_chunkSize options with Some n => n | None => 1000%nat end.

(** A file that one batch holds.  No row fills the batch, so no handler of
    [data] reaches its [await]: the rows are handled one after the other,
    each to completion, and the only write is that of the handler of
    [end]. *)
Definition single_batch (file : Csv) (options : Pipeline.Options) : Prop :=
  (List.length (csv_rows file) < chunk_size options)%nat.

(** What the nightly run makes of a job [j] it found pending, [j'] being
    the job document after the run.  Without a file the job is marked
    failed and nothing else of it is touched.  With one, the job is handed
    to [processCSVFile] under its own user: without a user the run throws
    before it starts the job, and the scheduler marks the job failed and
    records the error; when the stream fails the job is started, fails
    with the error at the row reached, and the scheduler records the error
    once more; otherwise the job is started and completed at [now], counts
    every record of the file as processed or skipped, and is 'completed'
    when a record was processed, 'failed' when none was. *)
Definition nightly_outcome (file_at : IngestionJob -> option Csv)
    (now : Date) (j j' : IngestionJob) : Prop :=
  match file_at j with
  | None =>
      job_status j' = failed /\
      job_startedAt j' = job_startedAt j /\
      job_rowsTotal j' = job_rowsTotal j /\
      job_errors j' = job_errors j
  | Some file =>
      match job_userId j, csv_error file with
      | None, _ =>
          job_status j' = failed /\
          job_startedAt j' = job_startedAt j /\
          job_errors j' =
            (job_errors j ++
             [ {| ee_row := O;
                  ee_message := "User ID is required for data ingestion";
                  ee_timestamp := now |} ])%list
      | Some _, Some msg =>
          job_status j' = failed /\
          job_startedAt j' = Some now /\
          job_errors j' =
            (job_errors j ++
             [ {| ee_row := List.length (csv_rows file);
                  ee_message := msg;
                  ee_timestamp := now |};
               {| ee_row := O; ee_message := msg; ee_timestamp := now |} ])%list
      | Some _, None =>
          job_startedAt j' = Some now /\
          job_completedAt j' = Some now /\
          job_rowsTotal j' = Some (List.length (csv_rows file)) /\
          (job_rowsProcessed j' + job_rowsSkipped j')%nat =
            List.length (csv_rows file) /\
          job_status j' =
            (if (0 <? job_rowsProcessed j')%nat then completed else failed)
      end
  end.

(** The options the nightly run hands to [processCSVFile]. *)
Definition nightly_options (j : IngestionJob) : Pipeline.Options :=
  {| opt_chunkSize := None; Pipeline.opt_userId := job_userId j |}.

(** The names every object inherits from [Object.prototype]. *)
Definition inherited_names : list string :=
  [ "constructor"; "__proto__"; "__defineGetter__"; "__defineSetter__";
    "__lookupGetter__"; "__lookupSetter__"; "hasOwnProperty";
    "isPrototypeOf"; "propertyIsEnumerable"; "toLocaleString"; "toString";
    "valueOf" ].

(** An array index: the canonical numeral of an integer below 2^32 - 1.
    An object lists such keys first, in ascending order. *)
Definition array_index (s : string) : bool :=
  match s with
  | EmptyString => false
  | String c rest =>
      forallb is_digit (list_ascii_of_string s) &&
      (negb (Ascii.eqb c "0"%char) || String.eqb rest "") &&
      (String.length s <=? 10)%nat &&
      (digits_value s 0 <? 4294967295)%Z
  end.

(** An account id under which the objects the detectors use as
    dictionaries behave as dictionaries: it is not empty, does not start
    with an underscore, and is neither an inherited name nor an array
    index.  Then the same holds of every key
    [`${accountId}_${...}`]. *)
Definition ordinary_account (s : string) : bool :=
  match s with
  | EmptyString => false
  | String c _ =>
      negb (Ascii.eqb c "_"%char) &&
      negb (existsb (String.eqb s) inherited_names) &&
      negb (array_index s)
  end.

(** A store whose line items and aggregates are all of such accounts. *)
Definition ordinary_accounts {num : Type} (st : Store num) : bool :=
  forallb (fun i => ordinary_account (li_accountId i)) (lineItems st) &&
  forallb (fun a => ordinary_account (agg_accountId a)) (aggregates st).

Section Written.
Context {num : Type} (now : Date) (jobId u : ObjectId).

(** What the pipeline knows of a document it is about to write for job
    [jobId] and user [u]. *)
Definition candidate_ok (n : Normalized num) : Prop :=
  n_userId n = Some u /\ n_ingestionJobId n = jobId /\ n_ingestionDate n = now.

(** A stored line item that such a document gave. *)
Definition written_ok (d : BillingLineItem num) : Prop :=
  li_ingestionJobId d = Some jobId /\ li_ingestionDate d = now /\
  li_isAnomaly d = false /\ li_userId d = Some u.

(** The state of a run over a collection that started as [coll0]. *)
Definition run_ok (coll0 : list (BillingLineItem num)) (r : Run (num := num))
  : Prop :=
  Forall candidate_ok (batch r) /\
  exists extra,
    collection r = (coll0 ++ extra)%list /\ Forall written_ok extra.
End Written.

Section Kinds.
Context {num : Type} `{Host num}.

(** The kinds of recommendation the detectors write, each with its
    priority, its savings and the percentage it states. *)
Definition generated_kind (f : Finding num) : Prop :=
  (f_type f = rightsizing /\ f_priority f = medium /\
   f_estimatedSavings f = mul (f_currentCost f) (lit 3 1) /\
   f_estimatedSavingsPercent f = lit 30 0) \/
  (f_type f = reserved_instance /\ f_priority f = high /\
   f_estimatedSavings f = mul (f_currentCost f) (lit 5 1) /\
   f_estimatedSavingsPercent f = lit 50 0) \/
  (f_type f = unattached_ebs /\ f_priority f = medium /\
   f_estimatedSavings f = f_currentCost f /\
   f_estimatedSavingsPercent f = lit 100 0) \/
  (f_type f = unattached_eip /\ f_priority f = low /\
   f_estimatedSavings f = f_currentCost f /\
   f_estimatedSavingsPercent f = lit 100 0) \/
  (f_type f = storage_tiering /\ f_priority f = medium /\
   f_estimatedSavings f = mul (f_currentCost f) (lit 5 1) /\
   f_estimatedSavingsPercent f = lit 50 0) \/
  (f_type f = idle_resource_cleanup /\ f_priority f = medium /\
   f_estimatedSavings f = f_currentCost f /\
   f_estimatedSavingsPercent f = lit 100 0).
End Kinds.
End Views.

(** ** routes/recommendations.js and routes/anomalies.js: the updates *)

Module UpdateRoutes.
Import JS Model Aggregation RecommendationService.

(** What a handler does with the response: [res.json(doc)],
    [res.status(code).json({ error })], or [next(error)]. *)
Inductive Response (D : Type) : Type :=
| Json (doc : D)
| Status (code : nat) (error : string)
| Next.
Arguments Json {D} doc.
Arguments Status {D} code error.
Arguments Next {D}.

Section Documents.
Context {num : Type}.

(** A Recommendation document: the object [insertMany] was given, its
    [_id] and [userId], and the paths the route writes. *)
Record RecommendationDoc : Type := {
  rd_id : ObjectId;
  rd_userId : option ObjectId;
  rd_finding : Finding num;
  rd_status : string;
  rd_implementedAt : option Date;
  rd_implementedBy : option ObjectId
}.

(** [Recommendation.insertMany]: the documents as they are stored, with an
    [_id] each and the default of [status]. *)
Fixpoint saved_recommendations (next : ObjectId)
    (recs : list (ObjectId * Finding num)) : list RecommendationDoc :=
  match recs with
  | [] => []
  | (userId, rec) :: recs =>
      {| rd_id := next;
         rd_userId := Some userId;
         rd_finding := rec;
         rd_status := "pending";
         rd_implementedAt := None;
         rd_implementedBy := None |} :: saved_recommendations (S next) recs
  end.

Definition validStatuses : list string :=
  ["pending"; "in_progress"; "implemented"; "dismissed"].

(** [recommendation.save()] *)
Definition save_recommendation (doc : RecommendationDoc)
    (coll : list RecommendationDoc) : list RecommendationDoc :=
  map (fun d => if Nat.eqb (rd_id d) (rd_id doc) then doc else d) coll.

(** [recommendation.status = status; if (status === 'implemented') ...] *)
Definition with_status (now : Date) (user : ObjectId) (status : string)
    (recommendation : RecommendationDoc) : RecommendationDoc :=
  let recommendation :=
    {| rd_id := rd_id recommendation;
       rd_userId := rd_userId recommendation;
       rd_finding := rd_finding recommendation;
       rd_status := status;
       rd_implementedAt := rd_implementedAt recommendation;
       rd_implementedBy := rd_implementedBy recommendation |} in
  if String.eqb status "implemented" then
    {| rd_id := rd_id recommendation;
       rd_userId := rd_userId recommendation;
       rd_finding := rd_finding recommendation;
       rd_status := rd_status recommendation;
       rd_implementedAt := Some now;
       rd_implementedBy := Some user |}
  else recommendation.

(** Update recommendation status: [PATCH /:id/status].  [user] is
    [req.user._id]; [id] is [req.params.id] cast to an ObjectId, [None]
    when the cast fails and the query throws; [status] is
    [req.body.status] when it is a string. *)
Definition patch_status (now : Date) (user : ObjectId) (id : option ObjectId)
    (status : option string) (coll : list RecommendationDoc)
  : list RecommendationDoc * Response RecommendationDoc :=
  match status with
  | None => (coll, Status 400 "Invalid status")
  | Some status =>
      if negb (existsb (String.eqb status) validStatuses) then
        (coll, Status 400 "Invalid status")
      else
        match id with
        | None => (coll, Next)
        | Some id =>
            match
              find (fun d => Nat.eqb (rd_id d) id &&
                             owned_by user (rd_userId d)) coll
            with
            | None => (coll, Status 404 "Recommendation not found")
            | Some recommendation =>
                let recommendation :=
                  with_status now user status recommendation in
                (save_recommendation recommendation coll, Json recommendation)
            end
        end
  end.

Record StatusRequest : Type := {
  sr_now : Date;
  sr_user : ObjectId;
  sr_id : option ObjectId;
  sr_status : option string
}.

Definition serve_status (coll : list RecommendationDoc) (rq : StatusRequest)
  : list RecommendationDoc :=
  fst (patch_status (sr_now rq) (sr_user rq) (sr_id rq) (sr_status rq) coll).

(** An Anomaly document: the object [insertMany] was given, its [_id],
    and the paths of the acknowledgement. *)
Record AnomalyDoc : Type := {
  ad_id : ObjectId;
  ad_anomaly : Anomaly num;
  ad_acknowledged : bool;
  ad_acknowledgedBy : option ObjectId;
  ad_acknowledgedAt : option Date
}.

(** [Anomaly.insertMany]: the documents as they are stored, with an [_id]
    each and the default of [acknowledged]. *)
Fixpoint saved_anomalies (next : ObjectId) (found : list (Anomaly num))
  : list AnomalyDoc :=
  match found with
  | [] => []
  | anomaly :: found =>
      {| ad_id := next;
         ad_anomaly := anomaly;
         ad_acknowledged := false;
         ad_acknowledgedBy := None;
         ad_acknowledgedAt := None |} :: saved_anomalies (S next) found
  end.

(** [anomaly.save()] *)
Definition save_anomaly (doc : AnomalyDoc) (coll : list AnomalyDoc)
  : list AnomalyDoc :=
  map (fun d => if Nat.eqb (ad_id d) (ad_id doc) then doc else d) coll.

Definition acknowledged_by (now : Date) (user : ObjectId)
    (anomaly : AnomalyDoc) : AnomalyDoc :=
  {| ad_id := ad_id anomaly;
     ad_anomaly := ad_anomaly anomaly;
     ad_acknowledged := true;
     ad_acknowledgedBy := Some user;
     ad_acknowledgedAt := Some now |}.

(** Acknowledge anomaly: [PATCH /:id/acknowledge]. *)
Definition patch_acknowledge (now : Date) (user : ObjectId)
    (id : option ObjectId) (coll : list AnomalyDoc)
  : list AnomalyDoc * Response AnomalyDoc :=
  match id with
  | None => (coll, Next)
  | Some id =>
      match
        find (fun d => Nat.eqb (ad_id d) id &&
                       owned_by user (an_userId (ad_anomaly d))) coll
      with
      | None => (coll, Status 404 "Anomaly not found")
      | Some anomaly =>
          let anomaly := acknowledged_by now user anomaly in
          (save_anomaly anomaly coll, Json anomaly)
      end
  end.

Record AcknowledgeRequest : Type := {
  ar_now : Date;
  ar_user : ObjectId;
  ar_id : option ObjectId
}.

Definition serve_acknowledge (coll : list AnomalyDoc)
    (rq : AcknowledgeRequest) : list AnomalyDoc :=
  fst (patch_acknowledge (ar_now rq) (ar_user rq) (ar_id rq) coll).
End Documents.

Arguments RecommendationDoc : clear implicits.
Arguments AnomalyDoc : clear implicits.
End UpdateRoutes.

(** ** routes/upload.js: uploading a billing file *)

Module UploadRoute.
Import JS Model Normalizer Aggregation Pipeline.

(** [req.file]: the name the client gave, and the file multer stored at
    [req.file.path] as the parser reads it. *)
Record Upload : Type := {
  up_originalname : string;
  up_content : Csv
}.

(** The [job] of the response. *)
Record Created : Type := {
  cr_id : ObjectId;
  cr_fileName : string;
  cr_status : JobStatus
}.

(** [res.status(201).json({ message, job })], or
    [res.status(400).json({ error: 'No file uploaded' })]. *)
Inductive Answer : Type :=
| file_uploaded (job : Created)
| no_file_uploaded.

Section Upload.
Context {num : Type} `{Host num}.

(** [IngestionJob.create({ fileName, filePath, fileSize, status:
    'pending', userId, createdBy })]; [id] is the [_id] the document is
    given. *)
Definition create (id user : ObjectId) (fileName : string) (st : Store num)
  : Store num * IngestionJob :=
  let job :=
    {| job_id := id;
       job_fileName := fileName;
       job_status := pending;
       job_startedAt := None;
       job_completedAt := None;
       job_duration := None;
       job_rowsProcessed := O;
       job_rowsTotal := None;
       job_rowsSkipped := O;
       job_errors := [];
       job_userId := Some user |} in
  ({| lineItems := lineItems st;
      aggregates := aggregates st;
      jobs := (jobs st ++ [job])%list;
      anomalies := anomalies st;
      lineItem_fault := lineItem_fault st |},
   job).

(** The store once the file has been processed, the response, which is
    sent before that, and how the promise of [processCSVFile] ends. *)
Record Outcome : Type := {
  out_store : Store num;
  out_answer : Answer;
  out_settled : option Settled
}.

(** Upload billing CSV file: [POST /]. *)
Definition post_upload (now : Date) (indexes : list IndexSpec)
    (id user : ObjectId) (file : option Upload) (st : Store num) : Outcome :=
  match file with
  | None =>
      {| out_store := st;
         out_answer := no_file_uploaded;
         out_settled := None |}
  | Some file =>
      (* Create ingestion job *)
      let '(st, job) := create id user (up_originalname file) st in
      (* Process file asynchronously *)
      let '(st, settled) :=
        processCSVFile now indexes (up_content file) (job_id job)
          {| opt_chunkSize := None; opt_userId := Some user |} st in
      {| out_store := st;
         out_answer :=
           file_uploaded
             {| cr_id := job_id job;
                cr_fileName := job_fileName job;
                cr_status := job_status job |};
         out_settled := Some settled |}
  end.
End Upload.

Arguments Outcome : clear implicits.
End UploadRoute.
(** * Properties *)

(** ** Maps and the grouping loops *)

Module MapFacts.
Import JS Totals.

(** A loop keeps what each of its steps keeps. *)
Lemma fold_left_keeps {A B C : Type} (f : A -> B -> A) (g : A -> C) :
  (forall a x, g (f a x) = g a) ->
  forall l a, g (fold_left f l a) = g a.
Proof.
  intros Hf. induction l as [|x l IH]; intros a; [reflexivity|].
  cbn [fold_left]. rewrite IH. apply Hf.
Qed.

(** A field that every step increases by [w x] ends as the running sum. *)
Lemma fold_left_field {A V M : Type} (upd : A -> V -> V) (f : V -> M)
    (op : M -> M -> M) (w : A -> M) :
  (forall x v, f (upd x v) = op (f v) (w x)) ->
  forall l v,
    f (fold_left (fun v x => upd x v) l v) =
    fold_left (fun s x => op s (w x)) l (f v).
Proof.
  intros Hf. induction l as [|x l IH]; intros v; [reflexivity|].
  cbn [fold_left]. now rewrite IH, Hf.
Qed.

Lemma keyed_in {A : Type} (key : A -> string) (x : A) (xs : list A) :
  In x xs -> In x (keyed key (key x) xs).
Proof.
  intros Hin. unfold keyed. apply filter_In. split; auto.
  apply String.eqb_refl.
Qed.





Section Facts.
Context {V : Type}.
Implicit Types (m : Map V) (k : string) (v : V).

Lemma Map_get_set_same k v m : Map_get k (Map_set k v m) = Some v.
Proof.
  induction m as [|[k' v'] m IH]; simpl.
  - now rewrite String.eqb_refl.
  - destruct (String.eqb k' k) eqn:E; simpl; rewrite E; auto.
Qed.

Lemma Map_get_set_other k k' v m :
  k' <> k -> Map_get k' (Map_set k v m) = Map_get k' m.
Proof.
  intros Hne. induction m as [|[k1 v1] m IH]; simpl.
  - destruct (String.eqb k k') eqn:E; auto.
    apply String.eqb_eq in E. congruence.
  - destruct (String.eqb k1 k) eqn:E; simpl.
    + apply String.eqb_eq in E. subst k1.
      destruct (String.eqb k k') eqn:E'; auto.
      apply String.eqb_eq in E'. congruence.
    + now rewrite IH.
Qed.

Lemma Map_get_modify_same k f m :
  Map_get k (Map_modify k f m) = option_map f (Map_get k m).
Proof.
  induction m as [|[k' v'] m IH]; simpl; auto.
  destruct (String.eqb k' k) eqn:E; simpl; rewrite E; auto.
Qed.

Lemma Map_get_modify_other k k' f m :
  k' <> k -> Map_get k' (Map_modify k f m) = Map_get k' m.
Proof.
  intros Hne. induction m as [|[k1 v1] m IH]; simpl; auto.
  destruct (String.eqb k1 k) eqn:E; simpl.
  - apply String.eqb_eq in E. subst k1.
    destruct (String.eqb k k') eqn:E'; auto.
    apply String.eqb_eq in E'. congruence.
  - now rewrite IH.
Qed.

Lemma Map_keys_modify k f m : Map_keys (Map_modify k f m) = Map_keys m.
Proof.
  induction m as [|[k' v'] m IH]; simpl; auto.
  destruct (String.eqb k' k); simpl; auto.
  f_equal. exact IH.
Qed.

Lemma Map_has_in k m : Map_has k m = true <-> In k (Map_keys m).
Proof.
  unfold Map_has. induction m as [|[k' v'] m IH]; simpl.
  - split; [discriminate | tauto].
  - destruct (String.eqb k' k) eqn:E.
    + apply String.eqb_eq in E. tauto.
    + apply String.eqb_neq in E. rewrite IH. tauto.
Qed.

Lemma Map_keys_set_new k v m :
  Map_has k m = false -> Map_keys (Map_set k v m) = (Map_keys m ++ [k])%list.
Proof.
  unfold Map_has. induction m as [|[k' v'] m IH]; simpl; auto.
  destruct (String.eqb k' k) eqn:E; [discriminate|].
  intros Hn. simpl. f_equal. now apply IH.
Qed.

Lemma Map_get_in k v m :
  NoDup (Map_keys m) -> (In (k, v) m <-> Map_get k m = Some v).
Proof.
  induction m as [|[k' v'] m IH]; simpl; intros Hnd.
  - split; [tauto | discriminate].
  - inversion Hnd as [|? ? Hnotin Hnd']; subst.
    destruct (String.eqb k' k) eqn:E.
    + apply String.eqb_eq in E. subst k'. split.
      * intros [Heq | Hin]; [congruence|].
        exfalso. apply Hnotin.
        change (In (fst (k, v)) (map fst m)). now apply in_map.
      * intros Heq. left. congruence.
    + apply String.eqb_neq in E. rewrite <- (IH Hnd'). split.
      * intros [Heq | Hin]; [congruence | assumption].
      * tauto.
Qed.

Lemma Map_in_get k v m : In (k, v) m -> exists v', Map_get k m = Some v'.
Proof.
  induction m as [|[k' v'] m IH]; simpl; [tauto|].
  intros [Heq | Hin].
  - inversion Heq; subst. rewrite String.eqb_refl. eauto.
  - destruct (String.eqb k' k); eauto.
Qed.

Context {A : Type} (key : A -> string) (init : A -> V) (upd : A -> V -> V).

Lemma group_into_keys_NoDup m x :
  NoDup (Map_keys m) -> NoDup (Map_keys (group_into key init upd m x)).
Proof.
  intros Hnd. unfold group_into. rewrite Map_keys_modify.
  destruct (Map_has (key x) m) eqn:E; simpl; auto.
  rewrite Map_keys_set_new by assumption.
  apply NoDup_app; auto.
  - constructor; [simpl; tauto | constructor].
  - intros k Hin [Heq | []]. subst k.
    apply Map_has_in in Hin. congruence.
Qed.

Lemma group_fold_keys_NoDup xs : forall m,
  NoDup (Map_keys m) ->
  NoDup (Map_keys (fold_left (group_into key init upd) xs m)).
Proof.
  induction xs as [|x xs IH]; simpl; intros m Hnd; auto.
  apply IH. now apply group_into_keys_NoDup.
Qed.

Lemma group_into_get_same m x :
  Map_get (key x) (group_into key init upd m x) =
  Some (upd x (match Map_get (key x) m with
               | Some v => v
               | None => init x
               end)).
Proof.
  unfold group_into, Map_has. rewrite Map_get_modify_same.
  destruct (Map_get (key x) m) eqn:E; simpl.
  - now rewrite E.
  - now rewrite Map_get_set_same.
Qed.

Lemma group_into_get_other m x k :
  k <> key x -> Map_get k (group_into key init upd m x) = Map_get k m.
Proof.
  intros Hne. unfold group_into.
  rewrite Map_get_modify_other by assumption.
  destruct (Map_has (key x) m); simpl; auto.
  now apply Map_get_set_other.
Qed.

(** What a grouping loop leaves under a key: the updates of the
    elements of that key, in order, applied to the entry the first of
    them created. *)
Lemma group_fold_get xs : forall m k,
  Map_get k (fold_left (group_into key init upd) xs m) =
  match Map_get k m with
  | Some v => Some (fold_left (fun v x => upd x v) (keyed key k xs) v)
  | None =>
      match keyed key k xs with
      | [] => None
      | x0 :: rest =>
          Some (fold_left (fun v x => upd x v) (x0 :: rest) (init x0))
      end
  end.
Proof.
  induction xs as [|x xs IH]; intros m k; simpl.
  - destruct (Map_get k m); reflexivity.
  - rewrite IH. unfold keyed. simpl.
    destruct (String.eqb (key x) k) eqn:E.
    + apply String.eqb_eq in E. subst k.
      rewrite group_into_get_same.
      destruct (Map_get (key x) m); reflexivity.
    + apply String.eqb_neq in E.
      rewrite group_into_get_other by congruence.
      reflexivity.
Qed.

(** The entries of a grouping started from the empty map: one per key, and
    under each key the updates of its elements applied to the entry the
    first of them created. *)
Lemma group_fold_entries xs k v :
  In (k, v) (fold_left (group_into key init upd) xs []) ->
  exists first rest,
    keyed key k xs = first :: rest /\
    v = fold_left (fun v x => upd x v) (first :: rest) (init first).
Proof.
  intros Hin.
  apply Map_get_in in Hin;
    [|apply group_fold_keys_NoDup; constructor].
  rewrite group_fold_get in Hin. cbn [Map_get] in Hin.
  destruct (keyed key k xs) as [|first rest]; [discriminate|].
  exists first, rest. split; [reflexivity|]. congruence.
Qed.

Lemma group_fold_covers xs x :
  In x xs -> In (key x) (Map_keys (fold_left (group_into key init upd) xs [])).
Proof.
  intros Hin. apply Map_has_in. unfold Map_has.
  rewrite group_fold_get. cbn [Map_get].
  pose proof (keyed_in key x xs Hin) as Hk.
  destruct (keyed key (key x) xs); [destruct Hk | reflexivity].
Qed.

End Facts.
End MapFacts.

(** ** Sums over the values of a grouping *)

Module SumFacts.
Import JS Totals MapFacts.

Section Monoid.
Context {M : Type} (op : M -> M -> M) (e : M).
Hypothesis op_comm : forall a b, op a b = op b a.
Hypothesis op_assoc : forall a b c, op a (op b c) = op (op a b) c.
Hypothesis op_unit : forall a, op e a = a.

Lemma msum_app {A : Type} (f : A -> M) (l1 l2 : list A) :
  msum op e f (l1 ++ l2)%list = op (msum op e f l1) (msum op e f l2).
Proof.
  induction l1 as [|x l1 IH]; simpl.
  - now rewrite op_unit.
  - now rewrite IH, op_assoc.
Qed.

Context {V : Type} (f : V -> M).



Context {A : Type} (key : A -> string) (init : A -> V)
        (upd : A -> V -> V) (w : A -> M).
Hypothesis init_unit : forall x, f (init x) = e.
Hypothesis upd_adds : forall x v, f (upd x v) = op (f v) (w x).


End Monoid.

Section Invariant.
Context {V A : Type} (key : A -> string) (init : A -> V)
        (upd : A -> V -> V) (P : V -> Prop).
Hypothesis upd_ok : forall x v, P v -> P (upd x v).

Lemma Map_modify_Forall k g (m : Map V) :
  (forall v, P v -> P (g v)) ->
  Forall P (Map_values m) -> Forall P (Map_values (Map_modify k g m)).
Proof.
  intros Hg. induction m as [|[k' v'] m IH]; simpl; auto.
  intros Hall. inversion Hall; subst.
  destruct (String.eqb k' k); simpl; constructor; auto.
Qed.

Lemma Map_set_Forall k v (m : Map V) :
  P v -> Forall P (Map_values m) -> Forall P (Map_values (Map_set k v m)).
Proof.
  intros Hv. induction m as [|[k' v'] m IH]; simpl.
  - constructor; auto.
  - intros Hall. inversion Hall; subst.
    destruct (String.eqb k' k); simpl; constructor; auto.
Qed.

(** Every value of a grouping satisfies what the fresh entries satisfy
    and the updates keep. *)
Lemma group_fold_Forall xs :
  Forall (fun x => P (init x)) xs ->
  forall m,
  Forall P (Map_values m) ->
  Forall P (Map_values (fold_left (group_into key init upd) xs m)).
Proof.
  induction 1 as [|x xs Hx _ IH]; intros m Hall; simpl; auto.
  apply IH. unfold group_into.
  apply Map_modify_Forall; [apply upd_ok|].
  destruct (Map_has (key x) m); simpl; auto.
  apply Map_set_Forall; auto.
Qed.
End Invariant.
End SumFacts.

(** ** The aggregation engine *)

Module AggregationFacts.
Import JS Model Aggregation Totals MapFacts SumFacts.

Lemma filter_all {A : Type} (p : A -> bool) (l : list A) :
  Forall (fun x => p x = true) l -> filter p l = l.
Proof.
  induction 1 as [|x l Hx _ IH]; simpl; auto.
  now rewrite Hx, IH.
Qed.

Lemma filter_none {A : Type} (p : A -> bool) (l : list A) :
  Forall (fun x => p x = false) l -> filter p l = [].
Proof.
  induction 1 as [|x l Hx _ IH]; simpl; auto.
  now rewrite Hx.
Qed.

Lemma filter_filter_weaker {A : Type} (p q : A -> bool) (l : list A) :
  (forall x, p x = true -> q x = true) ->
  filter p (filter q l) = filter p l.
Proof.
  intros Hpq. induction l as [|x l IH]; simpl; auto.
  destruct (q x) eqn:Eq; simpl.
  - now rewrite IH.
  - destruct (p x) eqn:Ep; auto.
    apply Hpq in Ep. congruence.
Qed.

Lemma filter_filter_disjoint {A : Type} (p : A -> bool) (l : list A) :
  filter p (filter (fun x => negb (p x)) l) = [].
Proof.
  induction l as [|x l IH]; simpl; auto.
  destruct (p x) eqn:Ep; simpl; auto.
  now rewrite Ep.
Qed.

Section Store.
Context {D : Type} (same : string -> D -> D -> bool).

Lemma violates_plain indexes d e :
  Forall (fun ix => idx_unique ix = false) indexes ->
  violates same indexes d e = false.
Proof.
  unfold violates. induction 1 as [|ix l Hix _ IH]; simpl; auto.
  now rewrite Hix.
Qed.

(** Without a unique index a bulk write appends every document. *)
Lemma bulk_insert_plain indexes docs : forall coll,
  Forall (fun ix => idx_unique ix = false) indexes ->
  bulk_insert same indexes coll docs = ((coll ++ docs)%list, O).
Proof.
  induction docs as [|d docs IH]; intros coll Hplain; simpl.
  - now rewrite app_nil_r.
  - assert (Hno : existsb (violates same indexes d) coll = false).
    { induction coll as [|c coll IHc]; simpl; auto.
      now rewrite violates_plain. }
    rewrite Hno, IH by assumption.
    now rewrite <- app_assoc.
Qed.
End Store.

Lemma Aggregate_indexes_plain :
  Forall (fun ix => idx_unique ix = false) Aggregate_indexes.
Proof. repeat constructor. Qed.

Lemma BillingLineItem_indexes_plain :
  Forall (fun ix => idx_unique ix = false) BillingLineItem_indexes.
Proof. repeat constructor. Qed.

Section Engine.
Context {num : Type} `{Number num}.

Lemma save_aggregates_app (coll aggs : list (Aggregate num)) :
  save_aggregates coll aggs = (coll ++ aggs)%list.
Proof.
  unfold save_aggregates. destruct aggs as [|a aggs].
  - simpl. now rewrite app_nil_r.
  - cbn [List.length Nat.ltb Nat.leb].
    rewrite bulk_insert_plain by apply Aggregate_indexes_plain.
    reflexivity.
Qed.

Lemma daily_step_group userId m item :
  daily_step userId m item =
  group_into item_key (fresh_daily userId) add_item m item.
Proof. reflexivity. Qed.

Lemma monthly_step_group m row :
  monthly_step m row = group_into row_key fresh_monthly add_daily m row.
Proof. reflexivity. Qed.

Lemma fold_daily_group userId items m :
  fold_left (daily_step userId) items m =
  fold_left (group_into item_key (fresh_daily userId) add_item) items m.
Proof. reflexivity. Qed.

Lemma fold_monthly_group rows m :
  fold_left monthly_step rows m =
  fold_left (group_into row_key fresh_monthly add_daily) rows m.
Proof. reflexivity. Qed.

(** The rows of a daily rebuild are the user's daily rows. *)
Lemma daily_values_typed userId items :
  Forall (fun a => of_type userId daily a = true)
    (Map_values (fold_left (daily_step userId) items [])).
Proof.
  rewrite fold_daily_group. apply group_fold_Forall.
  - intros item a Ha. exact Ha.
  - apply Forall_forall. intros item _. unfold of_type, owned_by. simpl.
    now rewrite Nat.eqb_refl.
  - constructor.
Qed.

Lemma monthly_values_typed rows :
  Forall (fun a => agg_aggregationType a = monthly)
    (Map_values (fold_left monthly_step rows [])).
Proof.
  rewrite fold_monthly_group. apply group_fold_Forall.
  - intros row a Ha. exact Ha.
  - apply Forall_forall. reflexivity.
  - constructor.
Qed.

Lemma rows_of_set_aggregates userId t aggs (st : Store num) :
  rows_of userId t (set_aggregates aggs st) = filter (of_type userId t) aggs.
Proof. reflexivity. Qed.

(** The monthly rebuild leaves the daily rows as they are. *)
Lemma computeMonthlyAggregates_daily userId userId' (st : Store num) :
  rows_of userId' daily (computeMonthlyAggregates userId st) =
  rows_of userId' daily st.
Proof.
  unfold computeMonthlyAggregates.
  destruct userId as [u|]; [|reflexivity].
  destruct (List.length (rows_of u daily st) =? 0)%nat; [reflexivity|].
  rewrite rows_of_set_aggregates, save_aggregates_app, filter_app.
  assert (Hnone :
    filter (of_type userId' daily)
      (Map_values (fold_left monthly_step (rows_of u daily st) [])) = []).
  { apply filter_none.
    eapply Forall_impl; [|apply monthly_values_typed].
    intros a Ha. unfold of_type. rewrite Ha. apply andb_false_r. }
  rewrite Hnone, app_nil_r.
  unfold rows_of. apply filter_filter_weaker.
  intros a Ha. unfold of_type in *.
  apply andb_true_iff in Ha. destruct Ha as [_ Ht].
  destruct (agg_aggregationType a); [|discriminate].
  now rewrite andb_false_r.
Qed.

Lemma computeMonthlyAggregates_lineItems userId (st : Store num) :
  lineItems (computeMonthlyAggregates userId st) = lineItems st.
Proof.
  unfold computeMonthlyAggregates.
  destruct userId as [u|]; [|reflexivity].
  now destruct (List.length (rows_of u daily st) =? 0)%nat.
Qed.


Lemma aggregateData_lineItems jobId (st : Store num) :
  lineItems (aggregateData jobId st) = lineItems st.
Proof.
  unfold aggregateData.
  destruct (findById jobId st) as [job|]; [|reflexivity].
  destruct (job_userId job) as [u|]; [|reflexivity].
  destruct (List.length (items_of u st) =? 0)%nat; [reflexivity|].
  now rewrite computeMonthlyAggregates_lineItems.
Qed.

(** The rebuild for one user leaves the daily rows of the others alone. *)
Lemma aggregateData_other_user jobId job userId other (st : Store num) :
  findById jobId st = Some job ->
  job_userId job = Some userId ->
  other <> userId ->
  rows_of other daily (aggregateData jobId st) = rows_of other daily st.
Proof.
  intros Hjob Huser Hother. unfold aggregateData. rewrite Hjob, Huser.
  destruct (List.length (items_of userId st) =? 0)%nat; [reflexivity|].
  rewrite computeMonthlyAggregates_daily, rows_of_set_aggregates.
  rewrite save_aggregates_app, filter_app.
  assert (Hdiff : forall a : Aggregate num,
             of_type other daily a = true -> of_type userId daily a = false).
  { intros a Ha. unfold of_type, owned_by in *.
    apply andb_true_iff in Ha. destruct Ha as [Ho _].
    destruct (agg_userId a) as [u|]; [|discriminate]. cbn in *.
    apply Nat.eqb_eq in Ho. subst u.
    destruct (Nat.eqb other userId) eqn:En; [|reflexivity].
    apply Nat.eqb_eq in En. contradiction. }
  assert (Hnone :
    filter (of_type other daily)
      (Map_values (fold_left (daily_step userId) (items_of userId st) [])) = []).
  { apply filter_none.
    eapply Forall_impl; [|apply (daily_values_typed userId)].
    intros a Ha. cbv beta in Ha.
    destruct (of_type other daily a) eqn:Eo; [|reflexivity].
    apply Hdiff in Eo. congruence. }
  rewrite Hnone, app_nil_r.
  unfold rows_of. apply filter_filter_weaker.
  intros a Ha. now rewrite (Hdiff a Ha).
Qed.

(** [aggregateData] keeps the store free of stale rows. *)
Lemma aggregateData_no_stale jobId (st : Store num) :
  no_stale_rows st -> no_stale_rows (aggregateData jobId st).
Proof.
  intros Hst u Hnone.
  assert (Hitems : items_of u (aggregateData jobId st) = items_of u st).
  { unfold items_of. now rewrite aggregateData_lineItems. }
  rewrite Hitems in Hnone.
  destruct (findById jobId st) as [job|] eqn:Hjob;
    [|unfold aggregateData; rewrite Hjob; now apply Hst].
  destruct (job_userId job) as [owner|] eqn:Huser;
    [|unfold aggregateData; rewrite Hjob, Huser; now apply Hst].
  destruct (Nat.eq_dec u owner) as [->|Hne].
  - unfold aggregateData. rewrite Hjob, Huser, Hnone. now apply Hst.
  - rewrite (aggregateData_other_user jobId job owner u st Hjob Huser Hne).
    now apply Hst.
Qed.




Context {E : Exact num}.


Lemma add_zero_r (a : num) : add a zero = a.
Proof. rewrite add_comm. apply add_zero_l. Qed.


End Engine.
End AggregationFacts.

(** ** Aggregate consistency *)

Module AggregationProps.
Import JS FloatNum Model Aggregation Totals MapFacts SumFacts AggregationFacts.
Import ExactNum Scenarios.

#[export] Instance Qc_Exact : Exact Qc.
Proof.
  constructor; simpl.
  - apply Qcplus_comm.
  - apply Qcplus_assoc.
  - apply Qcplus_0_l.
  - intros a Ha. apply negb_false_iff in Ha.
    now apply Qc_eq_bool_correct.
Defined.

(** What each daily row holds, in any number system: the running sums,
    from 0, over the line items that share its key, in the order of the
    scan.  The sums of [aggregate_consistency] regroup the same terms. *)
Lemma daily_row_by_key {num : Type} `{Number num} userId
    (items : list (BillingLineItem num)) key r :
  In (key, r) (fold_left (daily_step userId) items []) ->
  exists first rest,
    keyed item_key key items = first :: rest /\
    agg_date r =
      setHours0 (or_else (li_usageStartDate first) (li_ingestionDate first)) /\
    agg_totalCost r =
      fold_left (fun s i => add s (or_else (Some (li_cost i)) zero))
        (first :: rest) zero /\
    agg_totalUsageQuantity r =
      fold_left (fun s i => add s (or_else (li_usageQuantityNormalized i) zero))
        (first :: rest) zero /\
    agg_lineItemCount r = List.length (first :: rest).
Proof.
  rewrite fold_daily_group. intros Hin.
  apply group_fold_entries in Hin. destruct Hin as [first [rest [Hk ->]]].
  exists first, rest. split; [exact Hk|]. repeat split.
  - now rewrite (fold_left_keeps (fun v x => add_item x v) agg_date).
  - now rewrite (fold_left_field add_item agg_totalCost add
                   (fun i => or_else (Some (li_cost i)) zero)).
  - now rewrite (fold_left_field add_item agg_totalUsageQuantity add
                   (fun i => or_else (li_usageQuantityNormalized i) zero)).
  - rewrite (fold_left_field add_item agg_lineItemCount Nat.add
               (fun _ => 1%nat)) by reflexivity.
    cbn [fresh_daily agg_lineItemCount].
    generalize (first :: rest). intros l.
    assert (Hlen : forall n, fold_left (fun s _ => (s + 1)%nat) l n
                             = (n + List.length l)%nat).
    { induction l as [|x l IH]; intros n; cbn [fold_left List.length].
      - lia.
      - rewrite IH. lia. }
    apply Hlen.
Qed.

Lemma empty_store_no_stale {num : Type} `{Number num} :
  no_stale_rows (empty_store (num := num)).
Proof. intros u _. reflexivity. Qed.



End AggregationProps.

(** ** The normalizer and the ingestion pipeline *)

Module IngestionProps.
Import JS FloatNum Model Normalizer Aggregation Pipeline.
Import MapFacts AggregationFacts Scenarios.

Section Normalizer.
Context {num : Type} `{Host num}.

(** [a || d] with a literal [d] is [a] when truthy and [d] otherwise. *)
Lemma or_literal {A : Type} `{Truthy A} (a : option A) (d : A) :
  exists x, or a (Some d) = Some x /\ (truthy x = true \/ x = d).
Proof.
  destruct a as [x|]; simpl.
  - destruct (truthy x) eqn:T; eauto.
  - eauto.
Qed.

Lemma truthy_nonempty (s : string) : truthy s = true -> s <> "".
Proof.
  unfold truthy, Truthy_string. intros T ->. discriminate.
Qed.

Lemma or_name (a : option string) :
  exists s, or a (Some "unknown") = Some s /\ s <> "".
Proof.
  destruct (or_literal a "unknown") as [s [Hs [T | ->]]].
  - exists s. split; auto using truthy_nonempty.
  - eexists. split; [eassumption | discriminate].
Qed.

(** The cost the normalizer derives, case by case: the first of the
    unblended and the blended cost that is a truthy number, else [0]. *)
Lemma normalized_cost_cases (now : Date) (row : Row) (jobId : ObjectId) :
  let n := normalizeLineItem now row jobId in
  n_cost n =
  Some match n_unblendedCost n with
       | Some u =>
           if num_truthy u then u
           else or_else (n_blendedCost n) zero
       | None => or_else (n_blendedCost n) zero
       end.
Proof.
  cbv zeta. unfold normalizeLineItem. cbn [n_cost n_unblendedCost n_blendedCost].
  generalize (parsed parseFloat (Map_get "blendedCost" (map_columns row))).
  generalize (parsed parseFloat (Map_get "unblendedCost" (map_columns row))).
  intros [u|] [b|]; unfold or, or_else, truthy, Truthy_num;
    try destruct (num_truthy u) eqn:Tu; try destruct (num_truthy b) eqn:Tb;
    try rewrite Tu; try rewrite Tb; reflexivity.
Qed.

Lemma missing_required_never (now : Date) (row : Row) (jobId u : ObjectId) :
  missing_required (set_userId u (normalizeLineItem now row jobId)) = false.
Proof.
  unfold missing_required, set_userId, normalizeLineItem.
  cbn [n_accountId n_service n_cost].
  generalize (or (parsed parseFloat (Map_get "unblendedCost" (map_columns row)))
                 (parsed parseFloat (Map_get "blendedCost" (map_columns row)))).
  generalize (or (Map_get "productName" (map_columns row))
                 (Map_get "productCode" (map_columns row))).
  generalize (or (Map_get "linkedAccountId" (map_columns row))
                 (Map_get "payerAccountId" (map_columns row))).
  intros account service cost.
  destruct (or_literal account "unknown") as [a [-> Ha]].
  destruct (or_literal service "unknown") as [s [-> Hs]].
  destruct (or_literal cost zero) as [c [-> _]].
  assert (Ta : truthy a = true) by (destruct Ha as [T | ->]; auto).
  assert (Ts : truthy s = true) by (destruct Hs as [T | ->]; auto).
  cbn [not]. now rewrite Ta, Ts.
Qed.

(** Without a write fault no handler of a [data] event records an error
    entry. *)
Lemma on_data_errors now indexes jobId u chunkSize (r : Run) (row : Row) :
  errors (on_data now indexes None jobId u chunkSize r row) = errors r.
Proof.
  unfold on_data. rewrite missing_required_never.
  destruct (chunkSize <=? _)%nat; [|reflexivity].
  unfold insertMany.
  destruct (bulk_insert li_same indexes (collection r) _) as [coll failures].
  destruct (failures =? 0)%nat; reflexivity.
Qed.

Lemma run_errors now indexes jobId u chunkSize (rows : list Row) :
  forall r : Run,
  errors (fold_left (on_data now indexes None jobId u chunkSize) rows r) =
  errors r.
Proof.
  apply fold_left_keeps. intros r row. apply on_data_errors.
Qed.

(** C9.  Whatever the row and the job, the object the normalizer returns
    has a non-empty [accountId], a non-empty [service] and a [cost] that is
    a number (a truthy one, or the literal 0), so the pipeline's check of
    the required fields never fires: the handler of a row never takes the
    branch that counts the row as skipped with the entry 'Missing required
    fields', and a run without write faults records no error entry at
    all. *)
Theorem required_fields_always_present
    (now : Date) (row : Row) (jobId userId : ObjectId) :
  let n := set_userId userId (normalizeLineItem now row jobId) in
  (exists a, n_accountId n = Some a /\ a <> "") /\
  (exists s, n_service n = Some s /\ s <> "") /\
  (exists c, n_cost n = Some c /\ (num_truthy c = true \/ c = zero)) /\
  missing_required n = false /\
  (forall indexes chunkSize rows (r : Run),
      errors (fold_left (on_data now indexes None jobId userId chunkSize)
                rows r) = errors r).
Proof.
  cbv zeta. repeat split.
  - apply or_name.
  - apply or_name.
  - exact (or_literal _ zero).
  - apply missing_required_never.
  - intros. apply run_errors.
Qed.

(** With the indexes of the schema a bulk write never fails on a duplicate
    key: every valid document is appended. *)
Lemma insertMany_schema (coll : list (BillingLineItem num))
    (docs : list (Normalized num)) :
  insertMany BillingLineItem_indexes None coll docs =
  ((coll ++ validated docs)%list, None).
Proof.
  unfold insertMany.
  rewrite bulk_insert_plain by apply BillingLineItem_indexes_plain.
  reflexivity.
Qed.

Lemma validated_app (a b : list (Normalized num)) :
  validated (a ++ b)%list = (validated a ++ validated b)%list.
Proof. apply flat_map_app. Qed.

(** One row under the indexes of the schema: the row joins the batch or
    the batch is written whole; nothing is skipped. *)
Lemma on_data_schema now jobId u chunkSize (r : Run) (row : Row) :
  (collection (on_data now BillingLineItem_indexes None jobId u chunkSize r row)
   ++ validated
        (batch (on_data now BillingLineItem_indexes None jobId u chunkSize r row)))%list =
    (collection r ++
     validated (batch r ++ [set_userId u (normalizeLineItem now row jobId)]))%list /\
  skippedCount (on_data now BillingLineItem_indexes None jobId u chunkSize r row) =
    skippedCount r /\
  (processedCount (on_data now BillingLineItem_indexes None jobId u chunkSize r row)
   + List.length
       (batch (on_data now BillingLineItem_indexes None jobId u chunkSize r row)))%nat =
    S (processedCount r + List.length (batch r)).
Proof.
  unfold on_data. rewrite missing_required_never.
  destruct (chunkSize <=? _)%nat.
  - rewrite insertMany_schema.
    cbn [collection batch skippedCount processedCount validated flat_map
         List.length].
    rewrite app_nil_r, length_app. cbn [List.length]. repeat split; lia.
  - cbn [collection batch skippedCount processedCount].
    rewrite length_app. cbn [List.length]. repeat split; lia.
Qed.

(** The final flush under the indexes of the schema writes the batch. *)
Lemma flush_schema (r : Run) :
  collection (flush BillingLineItem_indexes None r) =
    (collection r ++ validated (batch r))%list /\
  skippedCount (flush BillingLineItem_indexes None r) = skippedCount r /\
  processedCount (flush BillingLineItem_indexes None r) =
    (processedCount r + List.length (batch r))%nat.
Proof.
  unfold flush. destruct (batch r) as [|n ns] eqn:B.
  - cbn [List.length Nat.ltb Nat.leb validated flat_map].
    rewrite app_nil_r. repeat split; lia.
  - cbn [List.length Nat.ltb Nat.leb]. rewrite insertMany_schema.
    cbn [collection skippedCount processedCount]. repeat split.
Qed.

Section Steps.
Variable step : Run (num := num) -> Row -> Run (num := num).
Variable candidate : Row -> Normalized num.
Hypothesis step_schema : forall r row,
  (collection (step r row) ++ validated (batch (step r row)))%list =
    (collection r ++ validated (batch r ++ [candidate row]))%list /\
  skippedCount (step r row) = skippedCount r /\
  (processedCount (step r row) + List.length (batch (step r row)))%nat =
    S (processedCount r + List.length (batch r)).

(** A run of steps each of which writes or buffers its row. *)
Lemma run_of_steps (rows : list Row) : forall r : Run,
  (collection (fold_left step rows r)
   ++ validated (batch (fold_left step rows r)))%list =
    (collection r ++ validated (batch r ++ map candidate rows))%list /\
  skippedCount (fold_left step rows r) = skippedCount r /\
  (processedCount (fold_left step rows r)
   + List.length (batch (fold_left step rows r)))%nat =
    (processedCount r + List.length (batch r) + List.length rows)%nat.
Proof.
  induction rows as [|row rows IH]; intros r.
  - cbn [fold_left map List.length]. rewrite app_nil_r. repeat split; lia.
  - cbn [fold_left map List.length].
    destruct (IH (step r row)) as [Hc [Hs Hp]].
    destruct (step_schema r row) as [Hc1 [Hs1 Hp1]].
    rewrite Hc, Hs, Hp. repeat split.
    + rewrite validated_app, app_assoc, Hc1.
      rewrite <- app_assoc, <- validated_app, <- app_assoc. reflexivity.
    + exact Hs1.
    + lia.
Qed.
End Steps.

(** Under the indexes of the schema a run inserts every valid row of the
    file and counts every row as processed, whatever the collection
    already holds: a row that is there already is inserted once more. *)
Lemma schema_run_inserts_every_row now jobId u chunkSize
    (rows : list Row) (coll : list (BillingLineItem num)) :
  let r :=
    flush BillingLineItem_indexes None
      (fold_left (on_data now BillingLineItem_indexes None jobId u chunkSize)
         rows
         {| rowCount := O; processedCount := O; skippedCount := O;
            errors := []; batch := []; collection := coll |}) in
  collection r =
    (coll ++
     validated
       (map (fun row => set_userId u (normalizeLineItem now row jobId)) rows))%list /\
  skippedCount r = O /\
  processedCount r = List.length rows.
Proof.
  cbv zeta.
  pose proof
    (run_of_steps
       (on_data now BillingLineItem_indexes None jobId u chunkSize)
       (fun row => set_userId u (normalizeLineItem now row jobId))
       (on_data_schema now jobId u chunkSize) rows
       {| rowCount := O; processedCount := O; skippedCount := O;
          errors := []; batch := []; collection := coll |}) as Hrun.
  revert Hrun.
  generalize
    (fold_left (on_data now BillingLineItem_indexes None jobId u chunkSize)
       rows
       {| rowCount := O; processedCount := O; skippedCount := O;
          errors := []; batch := []; collection := coll |}).
  intros r [Hc [Hs Hp]].
  cbn [collection batch skippedCount processedCount app List.length] in Hc, Hs, Hp.
  destruct (flush_schema r) as [Fc [Fs Fp]].
  rewrite Fc, Fs, Fp, Hc. repeat split; lia.
Qed.

(** Writes only ever append to the line-item collection. *)
Lemma bulk_insert_appends {D : Type} (same : string -> D -> D -> bool)
    indexes (docs : list D) : forall coll,
  exists extra, fst (bulk_insert same indexes coll docs) = (coll ++ extra)%list.
Proof.
  induction docs as [|d docs IH]; intros coll; cbn [bulk_insert].
  - exists []. now rewrite app_nil_r.
  - destruct (existsb (violates same indexes d) coll).
    + destruct (IH coll) as [extra He].
      destruct (bulk_insert same indexes coll docs) as [c n].
      exists extra. exact He.
    + destruct (IH (coll ++ [d])%list) as [extra He].
      exists (d :: extra). rewrite He, <- app_assoc. reflexivity.
Qed.

Lemma insertMany_appends indexes fault (coll : list (BillingLineItem num))
    (docs : list (Normalized num)) :
  exists extra, fst (insertMany indexes fault coll docs) = (coll ++ extra)%list.
Proof.
  unfold insertMany. destruct fault as [err|].
  - exists []. now rewrite app_nil_r.
  - destruct (bulk_insert_appends li_same indexes (validated docs) coll)
      as [extra He].
    destruct (bulk_insert li_same indexes coll (validated docs)) as [c n].
    exists extra. exact He.
Qed.

Lemma on_data_appends now indexes fault jobId u chunkSize (r : Run) (row : Row) :
  exists extra,
    collection (on_data now indexes fault jobId u chunkSize r row) =
    (collection r ++ extra)%list.
Proof.
  unfold on_data. rewrite missing_required_never.
  destruct (chunkSize <=? _)%nat.
  - match goal with
    | |- context [insertMany ?ix ?f ?c ?b] =>
        destruct (insertMany_appends ix f c b) as [extra He];
        destruct (insertMany ix f c b) as [c' [err|]]
    end; cbn [fst] in He.
    + destruct (is_duplicate_key err); exists extra; exact He.
    + exists extra. exact He.
  - exists []. cbn [collection]. now rewrite app_nil_r.
Qed.

Lemma flush_appends indexes fault (r : Run) :
  exists extra, collection (flush indexes fault r) = (collection r ++ extra)%list.
Proof.
  unfold flush. destruct (0 <? List.length (batch r))%nat.
  - destruct (insertMany_appends indexes fault (collection r) (batch r))
      as [extra He].
    destruct (insertMany indexes fault (collection r) (batch r)) as [c' [err|]];
      cbn [fst] in He.
    + destruct (is_duplicate_key err); exists extra; exact He.
    + exists extra. exact He.
  - exists []. now rewrite app_nil_r.
Qed.

Section Appending.
Variable step : Run (num := num) -> Row -> Run (num := num).
Hypothesis step_appends : forall r row,
  exists extra, collection (step r row) = (collection r ++ extra)%list.

Lemma run_appends (rows : list Row) : forall r : Run,
  exists extra, collection (fold_left step rows r) = (collection r ++ extra)%list.
Proof.
  induction rows as [|row rows IH]; intros r; cbn [fold_left].
  - exists []. now rewrite app_nil_r.
  - destruct (IH (step r row)) as [extra He].
    destruct (step_appends r row) as [extra1 He1].
    exists (extra1 ++ extra)%list. rewrite He, He1, app_assoc. reflexivity.
Qed.
End Appending.

(** More line items over the same aggregates leave no stale rows. *)
Lemma no_stale_more_items (st st' : Store num) extra :
  Totals.no_stale_rows st ->
  lineItems st' = (lineItems st ++ extra)%list ->
  aggregates st' = aggregates st ->
  Totals.no_stale_rows st'.
Proof.
  intros Hst Hitems Haggs u Hnone.
  unfold items_of in Hnone. rewrite Hitems, filter_app in Hnone.
  apply app_eq_nil in Hnone. destruct Hnone as [Hnone _].
  unfold rows_of. rewrite Haggs. now apply Hst.
Qed.

(** An ingestion run keeps the store free of stale rows. *)
Lemma processCSVFile_no_stale now indexes file jobId options (st : Store num) :
  Totals.no_stale_rows st ->
  Totals.no_stale_rows (fst (processCSVFile now indexes file jobId options st)).
Proof.
  intros Hst. unfold processCSVFile.
  destruct (findById jobId st) as [job|]; [|exact Hst].
  destruct (or (opt_userId options) (job_userId job)) as [u|]; [|exact Hst].
  match goal with
  | |- context [fold_left ?f (csv_rows file) ?r0] =>
      destruct (run_appends f
                  (fun r row => on_data_appends now indexes _ jobId u _ r row)
                  (csv_rows file) r0) as [extra He];
      revert He; generalize (fold_left f (csv_rows file) r0)
  end.
  intros r He. cbn [collection] in He.
  destruct (csv_error file) as [msg|]; cbn [fst].
  - apply (no_stale_more_items st _ extra Hst); [exact He | reflexivity].
  - destruct (flush_appends indexes (lineItem_fault (save_job (start_job now job) st)) r)
      as [extra2 He2].
    revert He2.
    generalize (flush indexes (lineItem_fault (save_job (start_job now job) st)) r).
    intros r2 He2.
    assert (Hkept :
      Totals.no_stale_rows
        (save_job (finish_job now r2 (start_job now job))
           (set_lineItems (collection r2) (save_job (start_job now job) st)))).
    { apply (no_stale_more_items st _ (extra ++ extra2)%list Hst);
        [|reflexivity].
      cbn [lineItems save_job set_lineItems].
      rewrite He2, He, app_assoc. reflexivity. }
    destruct (0 <? processedCount r2)%nat; [|exact Hkept].
    now apply aggregateData_no_stale.
Qed.

End Normalizer.

(** C5.  A row whose unblended cost is present and parses to 0, next to a
    blended cost of 5: the normalized cost is the blended cost, 5, not the
    parsed unblended cost. *)
Theorem zero_unblended_cost_is_skipped :
  let n := normalizeLineItem (num := float) feb1 zero_unblended_row 1%nat in
  n_unblendedCost n = Some 0%float /\
  n_blendedCost n = Some 5%float /\
  n_cost n = Some 5%float.
Proof. vm_compute. repeat split. Qed.

(** C1.  The same one-row file ingested twice for the same user, under the
    indexes of the schema: the second run inserts the row again (processed
    1, skipped 0), the user has two line items, and the daily and monthly
    totals have doubled. *)
Theorem second_ingestion_duplicates :
  List.length (lineItems (fst ingested_once)) = 1%nat /\
  map agg_totalCost (rows_of alice daily (fst ingested_once)) = [10%float] /\
  map agg_totalCost (rows_of alice monthly (fst ingested_once)) = [10%float] /\
  snd ingested_twice =
    Resolved {| processed := 1; skipped := 0; total := 1 |} /\
  List.length (lineItems (fst ingested_twice)) = 2%nat /\
  map li_cost (items_of alice (fst ingested_twice)) = [10%float; 10%float] /\
  map agg_totalCost (rows_of alice daily (fst ingested_twice)) = [20%float] /\
  map agg_totalCost (rows_of alice monthly (fst ingested_twice)) = [20%float].
Proof. vm_compute. repeat split. Qed.

(** C4.  A collection that refuses every write with an error that is not
    a duplicate key (code 121), and a file of one row, which is written in
    the handler of [end]: the error is logged there and goes no further.
    The promise resolves, with the row counted neither as processed nor as
    skipped; nothing is written and no aggregate is built; the job ends
    [failed] and records no error. *)
Theorem write_error_not_propagated :
  lineItem_fault faulty_store = Some validator_error /\
  is_duplicate_key validator_error = false /\
  snd faulty_upload =
    Resolved {| processed := 0; skipped := 0; total := 1 |} /\
  lineItems (fst faulty_upload) = [] /\
  aggregates (fst faulty_upload) = [] /\
  map job_status (jobs (fst faulty_upload)) = [failed] /\
  map job_errors (jobs (fst faulty_upload)) = [[]].
Proof. vm_compute. repeat split. Qed.
End IngestionProps.

(** ** The monthly roll-up *)

Module MonthlyProps.
Import JS FloatNum Model Aggregation Totals MapFacts SumFacts AggregationFacts.
Import Scenarios.

Section RollUp.
Context {num : Type} `{Number num}.

(** The monthly rows of a user after [computeMonthlyAggregates] are the
    values of the grouping of the user's daily rows by [row_key]. *)
Lemma monthly_rows userId (st : Store num) :
  rows_of userId daily st <> [] ->
  rows_of userId monthly (computeMonthlyAggregates (Some userId) st) =
  Map_values (fold_left monthly_step (rows_of userId daily st) []).
Proof.
  intros Hrows. unfold computeMonthlyAggregates.
  destruct (rows_of userId daily st) as [|d ds] eqn:E; [congruence|].
  cbn [List.length Nat.eqb].
  rewrite rows_of_set_aggregates, save_aggregates_app, filter_app.
  rewrite filter_filter_disjoint. cbn [app].
  apply filter_all. rewrite fold_monthly_group.
  apply group_fold_Forall with (P := fun a => of_type userId monthly a = true).
  - intros row a Ha. exact Ha.
  - apply Forall_forall. intros row Hin.
    unfold of_type, fresh_monthly.
    cbn [agg_userId agg_aggregationType AggregationType_eqb].
    rewrite andb_true_r.
    assert (Hd : of_type userId daily row = true).
    { rewrite <- E in Hin. unfold rows_of in Hin.
      apply filter_In in Hin. tauto. }
    unfold of_type in Hd. apply andb_true_iff in Hd. tauto.
  - constructor.
Qed.

(** What each monthly row holds: the three metrics of the daily rows that
    share its key, those rows being the ones with the same month start and
    the same string [account_service_region]. *)
Lemma monthly_row_by_key (rows : list (Aggregate num)) key r :
  In (key, r) (fold_left monthly_step rows []) ->
  exists first rest,
    keyed row_key key rows = first :: rest /\
    agg_date r = setHours0 (setDate1 (agg_date first)) /\
    agg_totalCost r =
      fold_left (fun s d => add s (or_else (Some (agg_totalCost d)) zero))
        (first :: rest) zero /\
    agg_lineItemCount r =
      fold_left (fun s d => (s + agg_lineItemCount d)%nat) (first :: rest) O.
Proof.
  rewrite fold_monthly_group. intros Hin.
  apply group_fold_entries in Hin. destruct Hin as [first [rest [Hk ->]]].
  exists first, rest. split; [exact Hk|]. repeat split.
  - now rewrite (fold_left_keeps (fun v x => add_daily x v) agg_date).
  - now rewrite (fold_left_field add_daily agg_totalCost add
                   (fun d => or_else (Some (agg_totalCost d)) zero)).
  - now rewrite (fold_left_field add_daily agg_lineItemCount Nat.add
                   agg_lineItemCount).
Qed.
End RollUp.

(** C3.  Two line items of one user in January 2024, one of account [a_b]
    and service [c], one of account [a] and service [b_c]: the daily
    rebuild keeps them apart (10 and 20), the monthly rebuild gives both
    daily rows the key [..._a_b_c_unknown] and writes a single monthly row,
    labelled [a_b], [c], with totalCost 30 and lineItemCount 2, and no row
    for [a], [b_c]. *)
Theorem monthly_rows_merge_tuples :
  map (fun a => (agg_date a, agg_accountId a, agg_service a, agg_region a,
                 agg_totalCost a, agg_lineItemCount a))
      (rows_of alice daily underscore_store) =
    [ (1704412800000, "a_b", "c", "unknown", 10%float, 1%nat);
      (1704499200000, "a", "b_c", "unknown", 20%float, 1%nat) ] /\
  map row_key (rows_of alice daily underscore_store) =
    [ "2024-01-01T00:00:00.000Z_a_b_c_unknown";
      "2024-01-01T00:00:00.000Z_a_b_c_unknown" ] /\
  map (fun a => (agg_date a, agg_accountId a, agg_service a, agg_region a,
                 agg_totalCost a, agg_lineItemCount a))
      (rows_of alice monthly underscore_store) =
    [ (1704067200000, "a_b", "c", "unknown", 30%float, 2%nat) ].
Proof. vm_compute. repeat split. Qed.
End MonthlyProps.

(** ** Anomaly detection *)

Module AnomalyProps.
Import JS FloatNum Model Aggregation AnomalyDetection Totals MapFacts.
Import Scenarios.

Section Detector.
Context {num : Type} `{Host num}.

Lemma fold_fallback_group (items : list (BillingLineItem num)) m :
  fold_left fallback_step items m =
  fold_left
    (group_into fallback_key fresh_point
       (fun item => add_cost (or_else (Some (li_cost item)) zero)))
    items m.
Proof. reflexivity. Qed.

(** C6 (as the code has it).  In a detect run that finds no daily
    aggregate row in the lookback window, the series is computed from the
    line items of the fallback query grouped by the key
    [day_account_service_region]: one data point per distinct key; every
    item falls under the point of its key; and the point of a key carries
    the day, account, service and region of the first item of that key and,
    as [totalCost], the running sum from 0 of [cost || 0] over the items
    of that key. *)
Theorem fallback_groups_by_day_and_dimensions
    (now : Date) (o : Options num) (st : Store num) :
  find_aggregates (window_start now o) now o st = [] ->
  let items := find_lineItems (window_start now o) now o st in
  let dailyMap := fold_left fallback_step items [] in
  series now o st = Map_values dailyMap /\
  NoDup (Map_keys dailyMap) /\
  (forall item, In item items -> In (fallback_key item) (Map_keys dailyMap)) /\
  (forall key p, In (key, p) dailyMap ->
     exists first rest,
       keyed fallback_key key items = first :: rest /\
       dp_date p =
         setHours0 (or_else (li_usageStartDate first) (li_ingestionDate first)) /\
       dp_accountId p = Some (li_accountId first) /\
       dp_service p = Some (li_service first) /\
       dp_region p = li_region first /\
       dp_totalCost p =
         fold_left (fun sum item => add sum (or_else (Some (li_cost item)) zero))
           (first :: rest) zero).
Proof.
  intros Hnone items dailyMap. repeat split.
  - unfold series. rewrite Hnone. reflexivity.
  - unfold dailyMap. rewrite fold_fallback_group.
    apply group_fold_keys_NoDup. constructor.
  - intros item Hin. unfold dailyMap. rewrite fold_fallback_group.
    now apply group_fold_covers.
  - intros key p Hin. unfold dailyMap in Hin.
    rewrite fold_fallback_group in Hin.
    apply group_fold_entries in Hin. destruct Hin as [first [rest [Hk ->]]].
    exists first, rest. split; [exact Hk|].
    set (upd := fun item => add_cost (or_else (Some (li_cost item)) zero)).
    repeat split.
    + now rewrite (fold_left_keeps (fun v x => upd x v) dp_date).
    + now rewrite (fold_left_keeps (fun v x => upd x v) dp_accountId).
    + now rewrite (fold_left_keeps (fun v x => upd x v) dp_service).
    + now rewrite (fold_left_keeps (fun v x => upd x v) dp_region).
    + now rewrite (fold_left_field upd dp_totalCost add
                     (fun item => or_else (Some (li_cost item)) zero)).
Qed.

Lemma severity_of_cases (z : num) :
  severity_of z = medium \/ severity_of z = high \/ severity_of z = critical.
Proof.
  unfold severity_of.
  destruct (gt z (lit 4 0)); [tauto|]. destruct (gt z (lit 3 0)); tauto.
Qed.

Lemma check_point_severity userId threshold key m stdDev agg :
  Forall (fun a => an_severity a = severity_of (an_zScore a))
    (check_point userId threshold key m stdDev agg).
Proof.
  unfold check_point. destruct (gt _ threshold); repeat constructor.
Qed.

(** C10.  Every anomaly [detectAnomalies] returns has severity medium,
    high or critical, never low. *)
Theorem severity_never_low (now : Date) (o : Options num) (st : Store num) :
  Forall
    (fun a =>
       an_severity a <> low /\
       (an_severity a = medium \/ an_severity a = high \/
        an_severity a = critical))
    (snd (detectAnomalies now o st)).
Proof.
  assert (Hsev : forall z : num,
             severity_of z <> low /\
             (severity_of z = medium \/ severity_of z = high \/
              severity_of z = critical)).
  { intros z. split; [|apply severity_of_cases].
    destruct (severity_of_cases z) as [E | [E | E]]; rewrite E; discriminate. }
  unfold detectAnomalies.
  destruct (List.length (series now o st) <? 7)%nat; [constructor|].
  cbn [snd]. apply Forall_flat_map, Forall_forall. intros [key groupData] _.
  unfold check_group. destruct (strict_eq _ zero); [constructor|].
  apply Forall_flat_map, Forall_forall. intros agg _.
  eapply Forall_impl; [|apply check_point_severity].
  intros a Ha. cbv beta in Ha. rewrite Ha. apply Hsev.
Qed.
End Detector.

(** C6, as stated, fails: two line items of the same day and of two
    accounts, in a window without daily aggregate rows, give two data
    points, each with its account and its own total, not one point for the
    day with the total 3 and no account. *)
Lemma fallback_splits_a_day :
  find_aggregates (window_start feb1 detect_for_alice) feb1 detect_for_alice
    first_day_store = [] /\
  map li_cost
    (find_lineItems (window_start feb1 detect_for_alice) feb1
       detect_for_alice first_day_store) = [1%float; 2%float] /\
  map (fun p => (toISOString (dp_date p), dp_accountId p, dp_totalCost p))
    (series feb1 detect_for_alice first_day_store) =
    [ ("2024-01-02T00:00:00.000Z", Some "111111111111", 1%float);
      ("2024-01-02T00:00:00.000Z", Some "222222222222", 2%float) ].
Proof. vm_compute. repeat split. Qed.

Lemma fallback_groups_witness :
  let o := detect_for_alice in
  let items := find_lineItems (window_start feb1 o) feb1 o first_day_store in
  let dailyMap := fold_left fallback_step items [] in
  series feb1 o first_day_store = Map_values dailyMap /\
  NoDup (Map_keys dailyMap) /\
  (forall item, In item items -> In (fallback_key item) (Map_keys dailyMap)) /\
  (forall key p, In (key, p) dailyMap ->
     exists first rest,
       keyed fallback_key key items = first :: rest /\
       dp_date p =
         setHours0 (or_else (li_usageStartDate first) (li_ingestionDate first)) /\
       dp_accountId p = Some (li_accountId first) /\
       dp_service p = Some (li_service first) /\
       dp_region p = li_region first /\
       dp_totalCost p =
         fold_left (fun sum item => add sum (or_else (Some (li_cost item)) zero))
           (first :: rest) zero).
Proof.
  apply (fallback_groups_by_day_and_dimensions feb1 detect_for_alice
           first_day_store).
  vm_compute. reflexivity.
Defined.

(** C7 (as the code computes it).  A group of seven points whose costs are
    100 six times and 400 once, whatever its key, dates and labels: the mean
    is 1000/7, the z-score of every point is at most 2.5 (that of the 400
    point, the square root of 6, is below 2.45), and with the threshold 2.5
    [detectAnomalies] emits no anomaly for the group. *)
Theorem seven_point_series_below_threshold
    (userId : option ObjectId) (key : string) (points : list (DataPoint float)) :
  map dp_totalCost points =
    [100; 100; 100; 100; 100; 100; 400]%float ->
  let costs := map dp_totalCost points in
  let m := mean costs in
  let stdDev := Math_sqrt (variance m costs) in
  m = (1000 / 7)%float /\
  Forall (fun c => gt (Math_abs (div (sub c m) stdDev)) (lit 25 1) = false)
    costs /\
  gt (lit 245 2) (Math_abs (div (sub 400%float m) stdDev)) = true /\
  check_group userId (lit 25 1) (key, points) = [].
Proof.
  intros Hcosts.
  do 8 (destruct points as [|[? ? ? ? ?] points]; try discriminate Hcosts).
  cbn [map dp_totalCost] in Hcosts. injection Hcosts as -> -> -> -> -> -> ->.
  vm_compute. repeat split; repeat constructor.
Qed.

Lemma seven_point_series_witness :
  let points := series feb1 detect_for_alice week_store in
  let costs := map dp_totalCost points in
  let m := mean costs in
  let stdDev := Math_sqrt (variance m costs) in
  m = (1000 / 7)%float /\
  Forall (fun c => gt (Math_abs (div (sub c m) stdDev)) (lit 25 1) = false)
    costs /\
  gt (lit 245 2) (Math_abs (div (sub 400%float m) stdDev)) = true /\
  check_group (Some alice) (lit 25 1)
    ("123456789012_Amazon Elastic Compute Cloud_unknown", points) = [].
Proof.
  apply (seven_point_series_below_threshold (Some alice)
           "123456789012_Amazon Elastic Compute Cloud_unknown"
           (series feb1 detect_for_alice week_store)).
  vm_compute. reflexivity.
Defined.

(** C7, as stated, fails: the seven daily aggregates 100, ..., 100, 400 of
    one account, service and region, detected with the default threshold,
    yield no anomaly at all, so the 400 point is not flagged. *)
Lemma week_series_not_flagged :
  map dp_totalCost (series feb1 detect_for_alice week_store) =
    [100; 100; 100; 100; 100; 100; 400]%float /\
  map series_key (series feb1 detect_for_alice week_store) =
    repeat "123456789012_Amazon Elastic Compute Cloud_unknown" 7 /\
  snd (detectAnomalies feb1 detect_for_alice week_store) = [].
Proof. vm_compute. repeat split. Qed.

(** With one more day at 100 the 400 point is flagged, as a medium spike:
    the detector does emit anomalies. *)
Lemma eight_days_flagged :
  map (fun a => (an_type a, an_severity a, an_cost a, an_expectedCost a,
                 an_description a))
    (snd (detectAnomalies feb1 detect_for_alice eight_days_store)) =
  [ (spike, medium, 400%float, 137.5%float,
     "Cost spike detected: $400.00 vs expected $137.50 (z-score: 2.65)") ].
Proof. vm_compute. reflexivity. Qed.
End AnomalyProps.

(** ** The reserved-instance rule *)

Module RecommendationProps.
Import JS FloatNum Model Aggregation AnomalyDetection Recommendations.
Import Totals MapFacts Scenarios.

Section Rule.
Context {num : Type} `{Host num}.

Lemma fold_spend_group (rows : list (Aggregate num)) m :
  fold_left spend_step rows m =
  fold_left
    (group_into agg_accountId (fun _ => [])
       (fun item costs => (costs ++ [agg_totalCost item])%list))
    rows m.
Proof. reflexivity. Qed.

Lemma fold_left_push {A B : Type} (f : A -> B) (l : list A) : forall acc,
  fold_left (fun costs x => (costs ++ [f x])%list) l acc =
  (acc ++ map f l)%list.
Proof.
  induction l as [|x l IH]; intros acc; simpl.
  - now rewrite app_nil_r.
  - now rewrite IH, <- app_assoc.
Qed.

(** The costs gathered under an account are the totals of its rows, in
    order. *)
Lemma accountSpend_get (rows : list (Aggregate num)) (account : string) :
  Map_get account (fold_left spend_step rows []) =
  match keyed agg_accountId account rows with
  | [] => None
  | l => Some (map agg_totalCost l)
  end.
Proof.
  rewrite fold_spend_group, group_fold_get. cbn [Map_get].
  destruct (keyed agg_accountId account rows) as [|first rest]; [reflexivity|].
  now rewrite fold_left_push.
Qed.

Lemma ri_rule_account (entry : string * list num) :
  Forall (fun r => rec_accountId r = fst entry) (ri_rule entry).
Proof.
  destruct entry as [account costs]. unfold ri_rule.
  destruct (gt _ _ && lt _ _); repeat constructor.
Qed.

(** The recommendations of one account come from its entry alone. *)
Lemma ri_by_account (m : Map (list num)) (account : string) :
  NoDup (Map_keys m) ->
  filter (fun r => String.eqb (rec_accountId r) account) (flat_map ri_rule m) =
  match Map_get account m with
  | Some costs => ri_rule (account, costs)
  | None => []
  end.
Proof.
  induction m as [|[k costs] m IH]; intros Hnd; [reflexivity|].
  inversion Hnd as [|? ? Hnotin Hnd']; subst.
  cbn [flat_map Map_get]. rewrite filter_app, IH by assumption.
  pose proof (ri_rule_account (k, costs)) as Hk. cbn [fst] in Hk.
  destruct (String.eqb k account) eqn:E.
  - apply String.eqb_eq in E. subst k.
    assert (Hget : Map_get account m = None).
    { destruct (Map_get account m) eqn:G; [|reflexivity].
      exfalso. apply Hnotin. apply Map_has_in. unfold Map_has. now rewrite G. }
    rewrite Hget, app_nil_r.
    apply AggregationFacts.filter_all.
    eapply Forall_impl; [|exact Hk].
    intros r Hr. cbv beta in Hr. rewrite Hr. apply String.eqb_refl.
  - rewrite AggregationFacts.filter_none; [reflexivity|].
    eapply Forall_impl; [|exact Hk].
    intros r Hr. cbv beta in Hr. now rewrite Hr.
Qed.

(** The rule itself.  For every account, over the monthly EC2 aggregate
    rows the query of [detectRIOpportunities] returns: when the account has
    such rows, the mean of their [totalCost] exceeds 500 and the
    coefficient of variation (population standard deviation over mean) is
    below 0.2, exactly one recommendation is emitted for the account, of
    type [reserved_instance], priority [high], [estimatedSavings] half the
    mean and [estimatedSavingsPercent] 50; otherwise none is emitted for
    it. *)
Lemma reserved_instance_rule
    (strictQuery : bool) (q : Query) (st : Store num) (account : string) :
  let costs :=
    map agg_totalCost
      (keyed agg_accountId account (find_monthly_ec2 strictQuery q st)) in
  let emitted :=
    filter (fun r => String.eqb (rec_accountId r) account)
      (detectRIOpportunities strictQuery q st) in
  if negb (List.length costs =? 0)%nat &&
     gt (mean costs) (lit 500 0) &&
     lt (coefficientOfVariation costs) (lit 2 1)
  then
    exists r,
      emitted = [r] /\
      rec_type r = reserved_instance /\
      rec_priority r = high /\
      rec_accountId r = account /\
      rec_currentCost r = mean costs /\
      rec_estimatedSavings r = mul (mean costs) (lit 5 1) /\
      rec_estimatedSavingsPercent r = lit 50 0
  else emitted = [].
Proof.
  cbv zeta. unfold detectRIOpportunities.
  rewrite ri_by_account
    by (rewrite fold_spend_group; apply group_fold_keys_NoDup; constructor).
  rewrite accountSpend_get.
  destruct (keyed agg_accountId account (find_monthly_ec2 strictQuery q st))
    as [|first rest]; [reflexivity|].
  cbn [map List.length Nat.eqb negb andb]. unfold ri_rule.
  destruct (gt _ _ && lt _ _); [|reflexivity].
  eexists. repeat split.
Qed.
End Rule.

(** An account with three steady months around 610 is recommended reserved
    instances with savings of half the mean, an account at 100 is not.  The
    months lie before the thirty days of the query: under [strictQuery] its
    clause on [usageStartDate] is dropped and the rows are found, otherwise
    no aggregate row matches it and nothing is recommended. *)
Lemma steady_account_recommended :
  match build_query feb1 recommend_for_alice with
  | inr q =>
      forallb (fun a => negb (in_range (q_startDate q) (q_endDate q) (agg_date a)))
        (aggregates steady_store) = true /\
      map (fun r => (rec_type r, rec_priority r, rec_accountId r,
                     rec_estimatedSavings r, rec_estimatedSavingsPercent r))
        (detectRIOpportunities true q steady_store) =
        [ (reserved_instance, high, "111111111111", 305%float, 50%float) ] /\
      detectRIOpportunities false q steady_store = []
  | inl _ => False
  end.
Proof. vm_compute. repeat split. Qed.

(** C8.  An account with monthly EC2 rows of 10 for December and January
    and of 600 for February, the run being of 2024-02-01 09:00 with the
    default thirty days: the one monthly row in the lookback window, that
    of February, has mean 600 and coefficient of variation 0, yet no
    reserved-instance recommendation is emitted.  The lookback clause of
    the query names [usageStartDate], which aggregate documents do not
    have: when Mongoose drops it the rule averages the three months
    (206.67), when it is sent the store matches no row. *)
Theorem lookback_not_applied_to_monthly_rows :
  match build_query feb1 recommend_for_alice with
  | inr q =>
      map (fun a => (toISOString (agg_date a), agg_service a, agg_totalCost a))
        (rows_of alice monthly three_months_store) =
        [ ("2023-12-01T00:00:00.000Z", "AmazonEC2", 10%float);
          ("2024-01-01T00:00:00.000Z", "AmazonEC2", 10%float);
          ("2024-02-01T00:00:00.000Z", "AmazonEC2", 600%float) ] /\
      map agg_totalCost
        (filter (fun a => in_range (q_startDate q) (q_endDate q) (agg_date a))
           (rows_of alice monthly three_months_store)) = [600%float] /\
      gt (mean [600%float]) (lit 500 0) &&
        lt (coefficientOfVariation [600%float]) (lit 2 1) = true /\
      map agg_totalCost (find_monthly_ec2 true q three_months_store) =
        [10%float; 10%float; 600%float] /\
      detectRIOpportunities true q three_months_store = [] /\
      find_monthly_ec2 false q three_months_store = [] /\
      detectRIOpportunities false q three_months_store = []
  | inl _ => False
  end.
Proof. vm_compute. repeat split. Qed.
End RecommendationProps.

(** * Further properties of the services *)

(** ** Strings *)

Module StringFacts.
Import JS.

Lemma append_empty_r (s : string) : s ++ "" = s.
Proof. induction s as [|c s IH]; simpl; congruence. Qed.

Lemma append_assoc_string (a b c : string) : (a ++ b) ++ c = a ++ (b ++ c).
Proof. induction a as [|x a IH]; simpl; congruence. Qed.

Lemma prefix_append (a b : string) : String.prefix a (a ++ b) = true.
Proof.
  induction a as [|x a IH]; simpl; [now destruct b|].
  destruct (ascii_dec x x); [exact IH | contradiction].
Qed.

Lemma prefix_cut (p : string) : forall s,
  String.prefix p s = true -> exists rest, s = p ++ rest.
Proof.
  induction p as [|x p IH]; intros s Hp.
  - now exists s.
  - destruct s as [|y s]; simpl in Hp; [discriminate|].
    destruct (ascii_dec x y) as [->|]; [|discriminate].
    destruct (IH s Hp) as [rest ->]. now exists rest.
Qed.

Lemma substring_whole (s : string) :
  String.substring 0 (String.length s) s = s.
Proof. induction s as [|c s IH]; simpl; congruence. Qed.

Lemma substring_from_append (p rest : string) :
  substring_from (String.length p) (p ++ rest) = rest.
Proof.
  unfold substring_from. induction p as [|x p IH]; simpl.
  - rewrite Nat.sub_0_r. apply substring_whole.
  - exact IH.
Qed.

Lemma span_append (p : ascii -> bool) (s : string) :
  s = fst (span p s) ++ snd (span p s).
Proof.
  induction s as [|c s IH]; simpl; [reflexivity|].
  destruct (p c); [|reflexivity].
  destruct (span p s) as [a b]. simpl in *. congruence.
Qed.

(** A match of [search] is a match of the anchored matcher at some
    position. *)
Lemma search_found (f : string -> option string) (r : string) : forall s,
  search f s = Some r -> exists a b, s = a ++ b /\ f b = Some r.
Proof.
  induction s as [|c s IH]; simpl; intros Hs.
  - destruct (f "") eqn:E; [|discriminate].
    exists "", "". split; [reflexivity | congruence].
  - destruct (f (String c s)) eqn:E.
    + exists "", (String c s). split; [reflexivity | congruence].
    + destruct (IH Hs) as [a [b [-> Hb]]].
      exists (String c a), b. split; [reflexivity | exact Hb].
Qed.

Lemma includes_prefix (s p : string) :
  String.prefix p s = true -> includes s p = true.
Proof. intros Hp. destruct s; cbn [includes]; now rewrite Hp. Qed.

Lemma includes_middle (a r tail : string) :
  includes (a ++ r ++ tail) r = true.
Proof.
  induction a as [|c a IH]; cbn [append includes].
  - apply includes_prefix, prefix_append.
  - rewrite IH. apply orb_true_r.
Qed.

Lemma no_underscore_split_aux (s : string) : forall cur,
  Views.no_underscore s = true ->
  split_aux "_"%char s cur = [cur ++ s].
Proof.
  induction s as [|c s IH]; intros cur Hs; simpl in *.
  - now rewrite append_empty_r.
  - apply andb_true_iff in Hs. destruct Hs as [Hc Hs].
    apply negb_true_iff in Hc. rewrite Hc, IH by assumption.
    now rewrite append_assoc_string.
Qed.

Lemma split_aux_append (s t : string) : forall cur,
  Views.no_underscore s = true ->
  split_aux "_"%char (s ++ String "_"%char t) cur =
  (cur ++ s) :: split_aux "_"%char t "".
Proof.
  induction s as [|c s IH]; intros cur Hs; simpl in *.
  - now rewrite append_empty_r.
  - apply andb_true_iff in Hs. destruct Hs as [Hc Hs].
    apply negb_true_iff in Hc. rewrite Hc, IH by assumption.
    now rewrite append_assoc_string.
Qed.

(** Splitting a key of three labels gives the labels back, when none of
    the first two holds the separator. *)
Lemma split_three (a s r : string) :
  Views.no_underscore a = true ->
  Views.no_underscore s = true ->
  exists rest, split "_"%char (a ++ "_" ++ s ++ "_" ++ r) = a :: s :: rest /\
    (Views.no_underscore r = true -> rest = [r]).
Proof.
  intros Ha Hs. unfold split.
  change (a ++ "_" ++ s ++ "_" ++ r) with (a ++ String "_"%char (s ++ String "_"%char r)).
  rewrite split_aux_append by assumption.
  rewrite split_aux_append by assumption.
  cbn [append]. eexists. split; [reflexivity|].
  intros Hr. now rewrite no_underscore_split_aux.
Qed.
End StringFacts.

(** ** The normalizer, column by column *)

Module NormalizerProps.
Import JS FloatNum Model Normalizer Views MapFacts StringFacts.

Ltac in_list := cbn [In]; repeat (first [left; reflexivity | right]).

Ltac settle E :=
  cbn [or or_else]; rewrite ?E; cbn [or or_else]; rewrite ?E; reflexivity.

Lemma find_map_found {A B : Type} (f : A -> option B) (y : B) : forall l,
  find_map f l = Some y -> exists x, In x l /\ f x = Some y.
Proof.
  induction l as [|x l IH]; simpl; [discriminate|].
  destruct (f x) eqn:E.
  - intros Hy. exists x. split; [now left | congruence].
  - intros Hy. destruct (IH Hy) as [x' [Hin Hx']]. eauto.
Qed.

Lemma Map_get_absent {V : Type} (k : string) (m : Map V) :
  ~ In k (Map_keys m) -> Map_get k m = None.
Proof.
  intros Hk. destruct (Map_get k m) eqn:E; [|reflexivity].
  exfalso. apply Hk, Map_has_in. unfold Map_has. now rewrite E.
Qed.

Lemma present_truthy (c : string) (row : Row) (v : string) :
  present c row = Some v -> truthy v = true.
Proof.
  unfold present, truthy, Truthy_string.
  destruct (Map_get c row) as [x|]; [|discriminate].
  destruct (String.eqb x "") eqn:E; [discriminate|].
  intros Hv. inversion Hv; subst. now rewrite E.
Qed.

(** The loop over the columns, for any list of columns whose model
    fields are distinct: a field holds the value of its column when that
    one is there and not empty. *)
Lemma copy_columns_get (row : Row) (cols : list (string * string)) :
  NoDup (map snd cols) ->
  forall (acc : Map string) (f : string),
  Map_get f
    (fold_left
       (fun normalized '(csvCol, modelField) =>
          match Map_get csvCol row with
          | Some v =>
              if negb (String.eqb v "") then Map_set modelField v normalized
              else normalized
          | None => normalized
          end)
       cols acc) =
  match find (fun cm => String.eqb (snd cm) f) cols with
  | Some cm =>
      match present (fst cm) row with
      | Some v => Some v
      | None => Map_get f acc
      end
  | None => Map_get f acc
  end.
Proof.
  induction cols as [|[c m] cols IH]; intros Hnd acc f; [reflexivity|].
  cbn [map snd] in Hnd. inversion Hnd as [|? ? Hnotin Hnd']; subst.
  cbn [fold_left find snd fst]. rewrite (IH Hnd').
  destruct (String.eqb m f) eqn:E.
  - apply String.eqb_eq in E. subst m.
    assert (Hnone : find (fun cm => String.eqb (snd cm) f) cols = None).
    { destruct (find (fun cm => String.eqb (snd cm) f) cols) as [cm|] eqn:F;
        [|reflexivity].
      apply find_some in F. destruct F as [Hin Heq].
      apply String.eqb_eq in Heq. exfalso. apply Hnotin.
      rewrite <- Heq. now apply in_map. }
    rewrite Hnone. unfold present. cbn [fst].
    destruct (Map_get c row) as [v|]; [|reflexivity].
    destruct (String.eqb v ""); cbn [negb]; [reflexivity|].
    apply Map_get_set_same.
  - apply String.eqb_neq in E.
    assert (Hsame :
      Map_get f
        match Map_get c row with
        | Some v => if negb (String.eqb v "") then Map_set m v acc else acc
        | None => acc
        end = Map_get f acc).
    { destruct (Map_get c row) as [v|]; [|reflexivity].
      destruct (negb (String.eqb v "")); [|reflexivity].
      apply Map_get_set_other. congruence. }
    rewrite Hsame. reflexivity.
Qed.

Lemma Map_keys_set_old {V : Type} (k : string) (v : V) (m : Map V) :
  Map_has k m = true -> Map_keys (Map_set k v m) = Map_keys m.
Proof.
  unfold Map_has. induction m as [|[k' v'] m IH]; simpl; [discriminate|].
  destruct (String.eqb k' k); simpl; [reflexivity|].
  intros Hk. f_equal. now apply IH.
Qed.

Lemma Map_set_keys_NoDup {V : Type} (k : string) (v : V) (m : Map V) :
  NoDup (Map_keys m) -> NoDup (Map_keys (Map_set k v m)).
Proof.
  intros Hnd. destruct (Map_has k m) eqn:Hk.
  - now rewrite Map_keys_set_old.
  - rewrite Map_keys_set_new by assumption.
    apply NoDup_app; auto.
    + constructor; [simpl; tauto | constructor].
    + intros k0 Hk0 [Heq | []]. subst k0.
      apply Map_has_in in Hk0. congruence.
Qed.

Lemma copy_columns_NoDup (row : Row) (cols : list (string * string)) :
  forall acc : Map string,
  NoDup (Map_keys acc) ->
  NoDup
    (Map_keys
       (fold_left
          (fun normalized '(csvCol, modelField) =>
             match Map_get csvCol row with
             | Some v =>
                 if negb (String.eqb v "") then Map_set modelField v normalized
                 else normalized
             | None => normalized
             end)
          cols acc)).
Proof.
  induction cols as [|[c m] cols IH]; intros acc Hacc; [exact Hacc|].
  cbn [fold_left]. apply IH.
  destruct (Map_get c row) as [x|]; [|exact Hacc].
  destruct (negb (String.eqb x "")); [|exact Hacc].
  now apply Map_set_keys_NoDup.
Qed.

Lemma CSV_COLUMNS_fields_NoDup : NoDup (map snd CSV_COLUMNS).
Proof.
  cbn [map snd CSV_COLUMNS].
  repeat (constructor; [cbn [In]; intuition discriminate|]).
  constructor.
Qed.

(** The model field of a known column holds what the row has in that
    column, when it is there and not empty. *)
Lemma map_columns_get (row : Row) (csvCol modelField : string) :
  In (csvCol, modelField) CSV_COLUMNS ->
  Map_get modelField (map_columns row) = present csvCol row.
Proof.
  intros Hin. unfold map_columns.
  rewrite (copy_columns_get row CSV_COLUMNS CSV_COLUMNS_fields_NoDup).
  cbn [Map_get].
  destruct (find (fun cm => String.eqb (snd cm) modelField) CSV_COLUMNS)
    as [[c m]|] eqn:F.
  - apply find_some in F. destruct F as [Hin' Heq].
    cbn [snd] in Heq. apply String.eqb_eq in Heq. subst m. cbn [fst].
    assert (Hc : c = csvCol).
    { revert Hin Hin'. cbn [In CSV_COLUMNS].
      intros Hin Hin'.
      repeat (destruct Hin as [Hin|Hin];
              [inversion Hin; subst;
               repeat (destruct Hin' as [Hin'|Hin'];
                       [inversion Hin'; reflexivity|]);
               destruct Hin'|]);
      destruct Hin. }
    subst c. now destruct (present csvCol row).
  - exfalso.
    apply (find_none _ _ F (csvCol, modelField)) in Hin.
    cbn [snd] in Hin. rewrite String.eqb_refl in Hin. discriminate.
Qed.

Lemma map_columns_other (row : Row) (f : string) :
  ~ In f (map snd CSV_COLUMNS) -> Map_get f (map_columns row) = None.
Proof.
  intros Hf. unfold map_columns.
  rewrite (copy_columns_get row CSV_COLUMNS CSV_COLUMNS_fields_NoDup).
  destruct (find (fun cm => String.eqb (snd cm) f) CSV_COLUMNS)
    as [cm|] eqn:F; [|reflexivity].
  apply find_some in F. destruct F as [Hcm Heq].
  apply String.eqb_eq in Heq. exfalso. apply Hf. rewrite <- Heq.
  now apply in_map.
Qed.

Lemma map_columns_NoDup (row : Row) : NoDup (Map_keys (map_columns row)).
Proof. unfold map_columns. apply copy_columns_NoDup. constructor. Qed.

Section Normalize.
Context {num : Type} `{Host num}.

(** X1.  [normalizeLineItem] copies a known CSV column to its model field
    exactly when the row has the column with a non-empty value: the field
    then holds that value, otherwise the field is absent; and no other
    field is copied. *)
Theorem copied_columns (now : Date) (row : Row) (jobId : ObjectId) :
  let n := normalizeLineItem (num := num) now row jobId in
  Forall
    (fun cm => Map_get (snd cm) (n_columns n) = present (fst cm) row)
    CSV_COLUMNS /\
  Forall (fun kv => In (fst kv) (map snd CSV_COLUMNS) /\ snd kv <> "")
    (n_columns n).
Proof.
  cbv zeta.
  change (n_columns (normalizeLineItem (num := num) now row jobId))
    with (map_columns row).
  split.
  - apply Forall_forall. intros [c m] Hin. cbn [fst snd].
    now apply map_columns_get.
  - apply Forall_forall. intros [k v] Hin. cbn [fst snd].
    pose proof (proj1 (Map_get_in k v (map_columns row) (map_columns_NoDup row)) Hin)
      as Hget.
    destruct (in_dec string_dec k (map snd CSV_COLUMNS)) as [Hk | Hk].
    + split; [exact Hk|].
      apply in_map_iff in Hk. destruct Hk as [[c m] [Hm Hcm]].
      cbn [snd] in Hm. subst m.
      rewrite (map_columns_get row c k Hcm) in Hget.
      apply present_truthy in Hget. intros ->. discriminate Hget.
    + rewrite (map_columns_other row k Hk) in Hget. discriminate Hget.
Qed.

Lemma parsed_present {B : Type} (parse : string -> B) (c : string) (row : Row) :
  parsed parse (present c row) = option_map parse (present c row).
Proof.
  destruct (present c row) as [v|] eqn:E; [|reflexivity].
  apply present_truthy in E. unfold parsed. now rewrite E.
Qed.

Lemma or_present (c1 c2 d : string) (row : Row) :
  or (or (present c1 row) (present c2 row)) (Some d) =
  Some match first_present [c1; c2] row with
       | Some v => v
       | None => d
       end.
Proof.
  cbn [first_present].
  destruct (present c1 row) as [v1|] eqn:E1.
  - apply present_truthy in E1. settle E1.
  - destruct (present c2 row) as [v2|] eqn:E2; [|reflexivity].
    apply present_truthy in E2. settle E2.
Qed.

(** X2.  The dimensions and the parsed paths of the object
    [normalizeLineItem] returns, read off the row: the account is the
    first of LinkedAccountId and PayerAccountId that is there and not
    empty, else 'unknown'; the service the first of ProductName and
    ProductCode, else 'unknown'; the region is extracted from the first of
    AvailabilityZone and UsageType, else from the empty string; the
    normalized usage type is UsageType or the empty string; the costs,
    the quantity and the dates are parsed from their columns when these
    are there and not empty, and are absent otherwise. *)
Theorem normalized_from_row (now : Date) (row : Row) (jobId : ObjectId) :
  let n := normalizeLineItem (num := num) now row jobId in
  let first := fun csvCols fallback =>
    match first_present csvCols row with
    | Some v => v
    | None => fallback
    end in
  n_accountId n = Some (first ["LinkedAccountId"; "PayerAccountId"] "unknown") /\
  n_service n = Some (first ["ProductName"; "ProductCode"] "unknown") /\
  n_region n =
    Some (extractRegion (first ["AvailabilityZone"; "UsageType"] "")) /\
  n_usageTypeNormalized n = Some (first ["UsageType"] "") /\
  n_unblendedCost n = option_map parseFloat (present "UnblendedCost" row) /\
  n_blendedCost n = option_map parseFloat (present "BlendedCost" row) /\
  n_usageQuantity n = option_map parseFloat (present "UsageQuantity" row) /\
  n_usageStartDate n = option_map Date_parse (present "UsageStartDate" row) /\
  n_usageEndDate n = option_map Date_parse (present "UsageEndDate" row).
Proof.
  cbv zeta. unfold normalizeLineItem.
  cbn [n_accountId n_service n_region n_usageTypeNormalized n_unblendedCost
       n_blendedCost n_usageQuantity n_usageStartDate n_usageEndDate].
  rewrite (map_columns_get row "LinkedAccountId" "linkedAccountId") by in_list.
  rewrite (map_columns_get row "PayerAccountId" "payerAccountId") by in_list.
  rewrite (map_columns_get row "ProductName" "productName") by in_list.
  rewrite (map_columns_get row "ProductCode" "productCode") by in_list.
  rewrite (map_columns_get row "AvailabilityZone" "availabilityZone") by in_list.
  rewrite (map_columns_get row "UsageType" "usageType") by in_list.
  rewrite (map_columns_get row "UnblendedCost" "unblendedCost") by in_list.
  rewrite (map_columns_get row "BlendedCost" "blendedCost") by in_list.
  rewrite (map_columns_get row "UsageQuantity" "usageQuantity") by in_list.
  rewrite (map_columns_get row "UsageStartDate" "usageStartDate") by in_list.
  rewrite (map_columns_get row "UsageEndDate" "usageEndDate") by in_list.
  rewrite !parsed_present, !or_present.
  repeat split.
  - cbn [first_present].
    destruct (present "AvailabilityZone" row) as [v1|] eqn:E1.
    + apply present_truthy in E1. settle E1.
    + destruct (present "UsageType" row) as [v2|] eqn:E2; [|reflexivity].
      apply present_truthy in E2. settle E2.
  - cbn [first_present].
    destruct (present "UsageType" row) as [v|] eqn:E; [|reflexivity].
    apply present_truthy in E. settle E.
Qed.

(** The tags gathered by the loop over the keys of the row, from any
    tags gathered before. *)
Lemma extract_tags_get (tagKey : string) (row : Row) : forall acc : Map string,
  NoDup (Map_keys row) ->
  Map_get tagKey
    (fold_left
       (fun tags '(key, value) =>
          if startsWith key TAG_PREFIX && truthy value then
            Map_set (substring_from (String.length TAG_PREFIX) key) value tags
          else tags)
       row acc) =
  match Map_get (TAG_PREFIX ++ tagKey) row with
  | Some v => if truthy v then Some v else Map_get tagKey acc
  | None => Map_get tagKey acc
  end.
Proof.
  induction row as [|[key value] row IH]; intros acc Hnd; [reflexivity|].
  cbn [Map_keys map fst] in Hnd. inversion Hnd as [|? ? Hnotin Hnd']; subst.
  cbn [fold_left Map_get]. rewrite (IH _ Hnd').
  destruct (String.eqb key (TAG_PREFIX ++ tagKey)) eqn:E.
  - apply String.eqb_eq in E. subst key.
    rewrite (Map_get_absent _ _ Hnotin).
    unfold startsWith. rewrite prefix_append, substring_from_append.
    cbn [andb]. destruct (truthy value); [|reflexivity].
    apply Map_get_set_same.
  - apply String.eqb_neq in E.
    assert (Hsame :
      Map_get tagKey
        (if startsWith key TAG_PREFIX && truthy value
         then Map_set (substring_from (String.length TAG_PREFIX) key) value acc
         else acc) = Map_get tagKey acc).
    { destruct (startsWith key TAG_PREFIX) eqn:P; [|reflexivity].
      destruct (truthy value); [|reflexivity]. cbn [andb].
      apply Map_get_set_other. intros Heq. apply E.
      apply prefix_cut in P. destruct P as [rest ->].
      rewrite substring_from_append in Heq. now subst rest. }
    rewrite Hsame. reflexivity.
Qed.

(** X3.  The tags of a normalized row whose column names are distinct:
    the tag [k] is set exactly when the row has a column [user:k] with a
    non-empty value, and then holds that value. *)
Theorem tags_from_user_columns
    (now : Date) (row : Row) (jobId : ObjectId) (tagKey : string) :
  NoDup (Map_keys row) ->
  Map_get tagKey (n_tags (normalizeLineItem (num := num) now row jobId)) =
  match Map_get (TAG_PREFIX ++ tagKey) row with
  | Some v => if truthy v then Some v else None
  | None => None
  end.
Proof.
  intros Hnd.
  change (n_tags (normalizeLineItem (num := num) now row jobId))
    with (extract_tags row).
  unfold extract_tags. now rewrite extract_tags_get.
Qed.
End Normalize.

Lemma tags_from_user_columns_witness :
  let row := [ ("user:team", "core"); ("user:env", "");
               ("LinkedAccountId", "123456789012") ] in
  Map_get "team"
    (n_tags (normalizeLineItem (num := PrimFloat.float) 0 row 1%nat)) =
    Some "core" /\
  Map_get "env"
    (n_tags (normalizeLineItem (num := PrimFloat.float) 0 row 1%nat)) = None.
Proof.
  cbv zeta. split.
  - rewrite tags_from_user_columns; [reflexivity|].
    repeat (constructor; [cbn [In]; intuition discriminate|]). constructor.
  - rewrite tags_from_user_columns; [reflexivity|].
    repeat (constructor; [cbn [In]; intuition discriminate|]). constructor.
Defined.

(** *** extractRegion *)

Lemma region_at_prefix (s r : string) :
  region_at s = Some r -> r <> "" /\ exists tail, s = r ++ tail.
Proof.
  unfold region_at. intros Hr.
  apply find_map_found in Hr. destruct Hr as [geo [_ Hr]].
  apply find_map_found in Hr. destruct Hr as [dir [_ Hr]].
  cbv zeta in Hr.
  destruct (String.prefix (geo ++ "-" ++ dir ++ "-") s) eqn:P; [|discriminate].
  apply prefix_cut in P. destruct P as [rest ->].
  rewrite substring_from_append in Hr.
  destruct rest as [|c rest]; [discriminate|].
  destruct (is_digit c); [|discriminate].
  inversion Hr; subst. split.
  - destruct geo; simpl; discriminate.
  - exists rest.
    repeat first [rewrite append_assoc_string | progress cbn [append]].
    reflexivity.
Qed.

Lemma zone_at_prefix (s r : string) :
  zone_at s = Some r -> r <> "" /\ exists tail, s = r ++ tail.
Proof.
  unfold zone_at. destruct s as [|c1 [|c2 [|c3 rest]]]; try discriminate.
  destruct c3 as [[] [] [] [] [] [] [] []]; try discriminate.
  destruct (is_lower c1 && is_lower c2); [|discriminate].
  pose proof (span_append is_lower rest) as Hrest.
  destruct (span is_lower rest) as [word r1]. cbn [fst snd] in Hrest.
  destruct r1 as [|c4 r2]; [discriminate|].
  destruct c4 as [[] [] [] [] [] [] [] []]; try discriminate.
  pose proof (span_append is_digit r2) as Hr2.
  destruct (span is_digit r2) as [digits r3]. cbn [fst snd] in Hr2.
  destruct r3 as [|c r3]; [discriminate|].
  destruct (is_lower c && negb (String.eqb word "") && negb (String.eqb digits ""));
    [|discriminate].
  intros Hr. inversion Hr; subst. split; [discriminate|].
  exists (String c r3).
  repeat first [rewrite append_assoc_string | progress cbn [append]].
  reflexivity.
Qed.

(** X4.  The region [extractRegion] returns is never empty: it is
    'unknown' or a piece of the value it was given; so is the region of
    every normalized row, the value being the first of AvailabilityZone
    and UsageType that is there and not empty. *)
Theorem region_unknown_or_found (value : string) :
  extractRegion value <> "" /\
  (extractRegion value = "unknown" \/
   includes value (extractRegion value) = true).
Proof.
  unfold extractRegion. destruct (negb (truthy value)).
  - split; [discriminate | now left].
  - destruct (search region_at value) as [r|] eqn:E1.
    + apply search_found in E1. destruct E1 as [a [b [-> Hb]]].
      apply region_at_prefix in Hb. destruct Hb as [Hne [tail ->]].
      split; [exact Hne | right; apply includes_middle].
    + destruct (search zone_at value) as [r|] eqn:E2.
      * apply search_found in E2. destruct E2 as [a [b [-> Hb]]].
        apply zone_at_prefix in Hb. destruct Hb as [Hne [tail ->]].
        split; [exact Hne | right; apply includes_middle].
      * split; [discriminate | now left].
Qed.

(** X5.  A value that starts with the name of a region of the seven
    listed geographies (an availability zone such as us-east-1a) gives
    that region, whatever follows its digit. *)
Theorem region_of_zone (geo dir : string) (d : ascii) (rest : string) :
  In geo ["us"; "eu"; "ap"; "sa"; "ca"; "cn"; "af"] ->
  In dir ["north"; "south"; "east"; "west"; "central"] ->
  is_digit d = true ->
  extractRegion (geo ++ "-" ++ dir ++ "-" ++ String d rest) =
  geo ++ "-" ++ dir ++ "-" ++ String d "".
Proof.
  intros Hgeo Hdir Hd. cbn [In] in Hgeo, Hdir.
  repeat (destruct Hgeo as [<-|Hgeo]; [|]); try (destruct Hgeo);
    repeat (destruct Hdir as [<-|Hdir]; [|]); try (destruct Hdir);
    unfold extractRegion; cbn; rewrite Hd; reflexivity.
Qed.

Lemma region_of_zone_witness :
  extractRegion "us-east-1a" = "us-east-1" /\
  extractRegion "BoxUsage:eu-west-3" = "eu-west-3".
Proof.
  split.
  - apply (region_of_zone "us" "east" "1"%char "a"); cbn [In]; auto.
  - reflexivity.
Defined.
End NormalizerProps.

(** ** The ingestion pipeline, run by run *)

Module PipelineProps.
Import JS FloatNum Model Normalizer Aggregation Pipeline.
Import MapFacts AggregationFacts IngestionProps Scenarios Views.

Lemma fold_left_counts {A B : Type} (f : A -> B -> A) (g : A -> nat) :
  (forall a x, g (f a x) = S (g a)) ->
  forall l a, g (fold_left f l a) = (g a + List.length l)%nat.
Proof.
  intros Hf. induction l as [|x l IH]; intros a; cbn [fold_left List.length].
  - lia.
  - rewrite IH, Hf. lia.
Qed.

Lemma fold_left_preserves {A B : Type} (f : A -> B -> A) (I : A -> Prop) :
  (forall a x, I a -> I (f a x)) ->
  forall l a, I a -> I (fold_left f l a).
Proof.
  intros Hf. induction l as [|x l IH]; intros a Ha; cbn [fold_left]; auto.
Qed.

Lemma find_replaced (id : ObjectId) (job' : IngestionJob) :
  job_id job' = id ->
  forall l job,
  find (fun j => Nat.eqb (job_id j) id) l = Some job ->
  find (fun j => Nat.eqb (job_id j) id)
    (map (fun j => if Nat.eqb (job_id j) (job_id job') then job' else j) l) =
  Some job'.
Proof.
  intros <-. induction l as [|j l IH]; intros job Hfind; [discriminate|].
  cbn [find map] in *.
  destruct (Nat.eqb (job_id j) (job_id job')) eqn:E.
  - now rewrite Nat.eqb_refl.
  - rewrite E. eauto.
Qed.

Section Pipeline.
Context {num : Type} `{Host num}.

Lemma aggregateData_jobs jobId (st : Store num) :
  jobs (aggregateData jobId st) = jobs st.
Proof.
  unfold aggregateData.
  destruct (findById jobId st) as [job|]; [|reflexivity].
  destruct (job_userId job) as [u|]; [|reflexivity].
  destruct (List.length (items_of u st) =? 0)%nat; [reflexivity|].
  unfold computeMonthlyAggregates.
  now destruct (List.length _ =? 0)%nat.
Qed.

Lemma insertMany_error_duplicate indexes (coll coll' : list (BillingLineItem num))
    docs err :
  insertMany indexes None coll docs = (coll', Some err) ->
  is_duplicate_key err = true.
Proof.
  unfold insertMany.
  destruct (bulk_insert li_same indexes coll (validated docs)) as [c failures].
  destruct (failures =? 0)%nat; intros Hins; inversion Hins; reflexivity.
Qed.

(** One row, the store raising nothing but duplicate keys: the row is
    counted, and it is buffered, processed or skipped. *)
Lemma on_data_counts now indexes jobId u chunkSize (r : Run) (row : Row) :
  rowCount (on_data now indexes None jobId u chunkSize r row) = S (rowCount r) /\
  (processedCount (on_data now indexes None jobId u chunkSize r row) +
   skippedCount (on_data now indexes None jobId u chunkSize r row) +
   List.length (batch (on_data now indexes None jobId u chunkSize r row)))%nat =
  S (processedCount r + skippedCount r + List.length (batch r)).
Proof.
  unfold on_data. rewrite missing_required_never.
  destruct (chunkSize <=? _)%nat.
  - match goal with
    | |- context [insertMany ?ix None ?c ?b] =>
        destruct (insertMany ix None c b) as [c' [err|]] eqn:Eins
    end.
    + rewrite (insertMany_error_duplicate _ _ _ _ _ Eins).
      cbn [rowCount processedCount skippedCount batch List.length].
      rewrite length_app. cbn [List.length]. split; lia.
    + cbn [rowCount processedCount skippedCount batch List.length].
      rewrite length_app. cbn [List.length]. split; lia.
  - cbn [rowCount processedCount skippedCount batch].
    rewrite length_app. cbn [List.length]. split; lia.
Qed.

Lemma flush_counts indexes (r : Run) :
  rowCount (flush indexes None r) = rowCount r /\
  (processedCount (flush indexes None r) + skippedCount (flush indexes None r))%nat =
  (processedCount r + skippedCount r + List.length (batch r))%nat.
Proof.
  unfold flush. destruct (batch r) as [|n ns] eqn:B.
  - cbn [List.length Nat.ltb Nat.leb]. split; lia.
  - cbn [Nat.ltb Nat.leb List.length].
    destruct (insertMany indexes None (collection r) (n :: ns)) as [c' [err|]]
      eqn:Eins.
    + rewrite (insertMany_error_duplicate _ _ _ _ _ Eins).
      cbn [rowCount processedCount skippedCount List.length]. split; lia.
    + cbn [rowCount processedCount skippedCount List.length]. split; lia.
Qed.

(** X6.  A run over a file that one batch holds, for a job that is there
    and a user that is known, on a store that raises no write error other
    than a duplicate key, resolves and counts every row of the file exactly
    once: the summary has [total] the number of records of the file and
    [processed + skipped = total], whatever the indexes. *)
Theorem every_row_counted now indexes file jobId options (st : Store num)
    (job : IngestionJob) (u : ObjectId) :
  findById jobId st = Some job ->
  or (opt_userId options) (job_userId job) = Some u ->
  csv_error file = None ->
  lineItem_fault st = None ->
  single_batch file options ->
  exists s,
    snd (processCSVFile now indexes file jobId options st) = Resolved s /\
    Pipeline.total s = List.length (csv_rows file) /\
    (processed s + skipped s)%nat = Pipeline.total s.
Proof.
  intros Hjob Hu Herr Hfault _. unfold processCSVFile.
  rewrite Hjob, Hu, Herr.
  cbn [snd lineItem_fault save_job]. rewrite Hfault.
  eexists. split; [reflexivity|].
  cbn [Pipeline.total processed skipped].
  match goal with
  | |- context [fold_left ?f (csv_rows file) ?r0] =>
      pose proof
        (fold_left_counts f rowCount
           (fun r row => proj1 (on_data_counts now indexes jobId u _ r row))
           (csv_rows file) r0) as Hrows;
      pose proof
        (fold_left_counts f
           (fun r => (processedCount r + skippedCount r + List.length (batch r))%nat)
           (fun r row => proj2 (on_data_counts now indexes jobId u _ r row))
           (csv_rows file) r0) as Hsum;
      revert Hrows Hsum; generalize (fold_left f (csv_rows file) r0)
  end.
  intros r Hrows Hsum. cbn [rowCount processedCount skippedCount batch List.length] in Hrows, Hsum.
  destruct (flush_counts indexes r) as [Frows Fsum].
  revert Frows Fsum. generalize (flush indexes None r). intros r2 Frows Fsum.
  lia.
Qed.


(** *** What a run writes *)

Lemma bulk_insert_from {D : Type} (same : string -> D -> D -> bool)
    indexes (docs : list D) : forall coll,
  exists extra,
    fst (bulk_insert same indexes coll docs) = (coll ++ extra)%list /\
    incl extra docs.
Proof.
  induction docs as [|d docs IH]; intros coll; cbn [bulk_insert].
  - exists []. rewrite app_nil_r. split; [reflexivity | apply incl_refl].
  - destruct (existsb (violates same indexes d) coll).
    + destruct (IH coll) as [extra [He Hincl]].
      destruct (bulk_insert same indexes coll docs) as [c n].
      exists extra. split; [exact He | now apply incl_tl].
    + destruct (IH (coll ++ [d])%list) as [extra [He Hincl]].
      exists (d :: extra). rewrite He, <- app_assoc. split; [reflexivity|].
      apply incl_cons; [now left | now apply incl_tl].
Qed.

Lemma cast_fields (n : Normalized num) (d : BillingLineItem num) :
  cast n = Some d ->
  li_userId d = n_userId n /\
  li_ingestionJobId d = Some (n_ingestionJobId n) /\
  li_ingestionDate d = n_ingestionDate n /\
  li_isAnomaly d = false.
Proof.
  unfold cast.
  destruct (n_accountId n); [|discriminate].
  destruct (n_service n); [|discriminate].
  destruct (n_cost n); [|discriminate].
  destruct (cast_date (n_usageStartDate n)); [|discriminate].
  destruct (cast_date (n_usageEndDate n)); [|discriminate].
  match goal with
  | |- (if ?c then _ else _) = _ -> _ => destruct c; [|discriminate]
  end.
  intros Hd. inversion Hd; subst. repeat split.
Qed.

Section Written.
Variables (now : Date) (jobId u : ObjectId).


Lemma insertMany_from indexes fault (coll : list (BillingLineItem num)) docs :
  Forall (Views.candidate_ok now jobId u) docs ->
  exists extra,
    fst (insertMany indexes fault coll docs) = (coll ++ extra)%list /\
    Forall (Views.written_ok now jobId u) extra.
Proof.
  intros Hdocs. unfold insertMany. destruct fault as [err|].
  - exists []. rewrite app_nil_r. split; [reflexivity | constructor].
  - destruct (bulk_insert_from li_same indexes (validated docs) coll)
      as [extra [He Hincl]].
    destruct (bulk_insert li_same indexes coll (validated docs)) as [c k].
    exists extra. split; [exact He|].
    apply Forall_forall. intros d Hd. apply Hincl in Hd.
    unfold validated in Hd. apply in_flat_map in Hd.
    destruct Hd as [n [Hn Hd]].
    destruct (cast n) as [d'|] eqn:C; [|destruct Hd].
    destruct Hd as [<-|[]].
    apply cast_fields in C. destruct C as [C1 [C2 [C3 C4]]].
    rewrite Forall_forall in Hdocs. destruct (Hdocs n Hn) as [Q1 [Q2 Q3]].
    unfold Views.written_ok. rewrite C1, C2, C3, C4, Q1, Q2, Q3. repeat split.
Qed.

Lemma on_data_written indexes fault chunkSize coll0 (r : Run) (row : Row) :
  Views.run_ok now jobId u coll0 r ->
  Views.run_ok now jobId u coll0 (on_data now indexes fault jobId u chunkSize r row).
Proof.
  intros [Hbatch [extra [Hcoll Hextra]]].
  assert (Hcand :
    Forall (Views.candidate_ok now jobId u)
      (batch r ++ [set_userId u (normalizeLineItem now row jobId)])%list).
  { apply Forall_app. split; [exact Hbatch|].
    constructor; [|constructor]. repeat split. }
  unfold on_data. rewrite missing_required_never.
  destruct (chunkSize <=? _)%nat.
  - match goal with
    | |- context [insertMany ?ix ?f ?c ?b] =>
        destruct (insertMany_from ix f c b Hcand) as [extra2 [He2 Hextra2]];
        destruct (insertMany ix f c b) as [c' [err|]]
    end; cbn [fst] in He2.
    + destruct (is_duplicate_key err); split; cbn [batch collection];
        try constructor; try exact Hcand;
        exists (extra ++ extra2)%list;
        (split; [rewrite He2, Hcoll, app_assoc; reflexivity
                | apply Forall_app; now split]).
    + split; cbn [batch collection]; [constructor|].
      exists (extra ++ extra2)%list.
      split; [rewrite He2, Hcoll, app_assoc; reflexivity
             | apply Forall_app; now split].
  - split; cbn [batch collection]; [exact Hcand|].
    exists extra. now split.
Qed.

Lemma flush_written indexes fault coll0 (r : Run) :
  Views.run_ok now jobId u coll0 r -> Views.run_ok now jobId u coll0 (flush indexes fault r).
Proof.
  intros [Hbatch [extra [Hcoll Hextra]]]. unfold flush.
  destruct (0 <? List.length (batch r))%nat.
  - destruct (insertMany_from indexes fault (collection r) (batch r) Hbatch)
      as [extra2 [He2 Hextra2]].
    destruct (insertMany indexes fault (collection r) (batch r)) as [c' [err|]];
      cbn [fst] in He2.
    + destruct (is_duplicate_key err); split; cbn [batch collection];
        try exact Hbatch;
        exists (extra ++ extra2)%list;
        (split; [rewrite He2, Hcoll, app_assoc; reflexivity
                | apply Forall_app; now split]).
    + split; cbn [batch collection]; [exact Hbatch|].
      exists (extra ++ extra2)%list.
      split; [rewrite He2, Hcoll, app_assoc; reflexivity
             | apply Forall_app; now split].
  - split; [exact Hbatch|]. exists extra. now split.
Qed.

Lemma run_written indexes fault chunkSize coll0 (rows : list Row) (r : Run) :
  Views.run_ok now jobId u coll0 r ->
  Views.run_ok now jobId u coll0
    (fold_left (on_data now indexes fault jobId u chunkSize) rows r).
Proof.
  apply fold_left_preserves. intros a row. apply on_data_written.
Qed.

Lemma run_ok_start (coll0 : list (BillingLineItem num)) :
  Views.run_ok now jobId u coll0
    {| rowCount := O; processedCount := O; skippedCount := O;
       errors := []; batch := []; collection := coll0 |}.
Proof.
  split; [constructor|]. exists []. cbn [collection].
  rewrite app_nil_r. split; [reflexivity | constructor].
Qed.
End Written.

(** X7.  A run only ever appends to the line-item collection, and every
    document it appends carries the job it was read for, the clock's
    reading, the flag [isAnomaly] unset, and as owner the [userId] of the
    options or else the one of the job. *)
Theorem ingestion_appends_owned now indexes file jobId options
    (st : Store num) :
  exists extra,
    lineItems (fst (processCSVFile now indexes file jobId options st)) =
      (lineItems st ++ extra)%list /\
    Forall
      (fun i =>
         li_ingestionJobId i = Some jobId /\ li_ingestionDate i = now /\
         li_isAnomaly i = false /\
         exists job,
           findById jobId st = Some job /\
           li_userId i = or (opt_userId options) (job_userId job))
      extra.
Proof.
  unfold processCSVFile.
  destruct (findById jobId st) as [job|] eqn:Hjob;
    [|exists []; rewrite app_nil_r; split; [reflexivity | constructor]].
  destruct (or (opt_userId options) (job_userId job)) as [u|] eqn:Hu;
    [|exists []; rewrite app_nil_r; split; [reflexivity | constructor]].
  assert (Hweaken : forall extra : list (BillingLineItem num),
    Forall (Views.written_ok now jobId u) extra ->
    Forall
      (fun i =>
         li_ingestionJobId i = Some jobId /\ li_ingestionDate i = now /\
         li_isAnomaly i = false /\
         exists job0, Some job = Some job0 /\
                      li_userId i = or (opt_userId options) (job_userId job0))
      extra).
  { intros extra. apply Forall_impl. intros i [A [B [C D]]].
    repeat split; auto. exists job. rewrite Hu. now split. }
  match goal with
  | |- context [fold_left ?f (csv_rows file) ?r0] =>
      pose proof
        (run_written now jobId u indexes
           (lineItem_fault (save_job (start_job now job) st))
           match opt_chunkSize options with Some n => n | None => 1000%nat end
           (lineItems st) (csv_rows file) r0
           (run_ok_start now jobId u (lineItems st))) as Hrun;
      revert Hrun; generalize (fold_left f (csv_rows file) r0)
  end.
  intros r Hrun.
  destruct (csv_error file) as [msg|]; cbn [fst].
  - destruct Hrun as [_ [extra [He Hextra]]].
    exists extra. cbn [lineItems save_job set_lineItems]. auto.
  - pose proof
      (flush_written now jobId u indexes
         (lineItem_fault (save_job (start_job now job) st))
         (lineItems st) r Hrun) as Hflush.
    revert Hflush.
    generalize (flush indexes (lineItem_fault (save_job (start_job now job) st)) r).
    intros r2 Hflush.
    destruct Hflush as [_ [extra [He Hextra]]].
    exists extra. split; [|auto].
    destruct (0 <? processedCount r2)%nat;
      [rewrite aggregateData_lineItems|];
      cbn [lineItems save_job set_lineItems]; exact He.
Qed.

(** X8.  When a run over a file that one batch holds resolves, the job
    document agrees with the summary: its status is 'completed' exactly
    when a row was processed and 'failed' otherwise, its counters are
    those of the summary, and it keeps at most a hundred error entries. *)
Theorem job_records_the_summary now indexes file jobId options
    (st : Store num) (s : Summary) :
  single_batch file options ->
  snd (processCSVFile now indexes file jobId options st) = Resolved s ->
  exists job,
    findById jobId (fst (processCSVFile now indexes file jobId options st)) =
      Some job /\
    job_status job = (if (0 <? processed s)%nat then completed else failed) /\
    job_rowsProcessed job = processed s /\
    job_rowsSkipped job = skipped s /\
    job_rowsTotal job = Some (Pipeline.total s) /\
    (List.length (job_errors job) <= 100)%nat.
Proof.
  intros _. unfold processCSVFile.
  destruct (findById jobId st) as [job|] eqn:Hjob; [|discriminate].
  destruct (or (opt_userId options) (job_userId job)) as [u|]; [|discriminate].
  destruct (csv_error file) as [msg|]; [discriminate|].
  match goal with
  | |- context [flush ?ix ?f (fold_left ?g (csv_rows file) ?r0)] =>
      generalize (flush ix f (fold_left g (csv_rows file) r0))
  end.
  intros r Hs. cbn [snd] in Hs. inversion Hs; subst s.
  cbn [fst processed skipped Pipeline.total].
  exists (finish_job now r (start_job now job)).
  assert (Hid : job_id job = jobId).
  { unfold findById in Hjob. apply find_some in Hjob.
    destruct Hjob as [_ Hid]. now apply Nat.eqb_eq. }
  split.
  - assert (Hfound :
      findById jobId
        (save_job (finish_job now r (start_job now job))
           (set_lineItems (collection r) (save_job (start_job now job) st))) =
      Some (finish_job now r (start_job now job))).
    { unfold findById. cbn [jobs save_job set_lineItems].
      apply (find_replaced jobId (finish_job now r (start_job now job)) Hid)
        with (job := start_job now job).
      now apply (find_replaced jobId (start_job now job) Hid) with (job := job). }
    destruct (0 <? processedCount r)%nat; [|exact Hfound].
    unfold findById in *. now rewrite aggregateData_jobs.
  - cbn [finish_job job_status job_rowsProcessed job_rowsSkipped job_rowsTotal
         job_errors].
    repeat split. apply firstn_le_length.
Qed.

(** X9.  When the stream fails after some records, the promise is
    rejected with the error of the stream; the batches written before stay
    in the collection, the aggregates are not rebuilt, and the job ends
    'failed' with one more error entry, which carries the number of the
    records read and the message of the error. *)
Theorem stream_error_keeps_written_rows now indexes file jobId options
    (st : Store num) (job : IngestionJob) (userId : ObjectId) (msg : string) :
  findById jobId st = Some job ->
  or (opt_userId options) (job_userId job) = Some userId ->
  csv_error file = Some msg ->
  snd (processCSVFile now indexes file jobId options st) =
    Rejected (message msg) /\
  aggregates (fst (processCSVFile now indexes file jobId options st)) =
    aggregates st /\
  (exists extra,
     lineItems (fst (processCSVFile now indexes file jobId options st)) =
     (lineItems st ++ extra)%list) /\
  exists job',
    findById jobId (fst (processCSVFile now indexes file jobId options st)) =
      Some job' /\
    job_status job' = failed /\
    job_errors job' =
      (job_errors job ++
       [{| ee_row := List.length (csv_rows file);
           ee_message := msg;
           ee_timestamp := now |}])%list.
Proof.
  intros Hjob Hu Herr.
  destruct (ingestion_appends_owned now indexes file jobId options st)
    as [extra [Hextra _]].
  revert Hextra. unfold processCSVFile. rewrite Hjob, Hu, Herr.
  match goal with
  | |- context [fold_left ?f (csv_rows file) ?r0] =>
      pose proof
        (fold_left_keeps f rowCount) as Hkeep;
      pose proof (fun Hstep => fold_left_counts f rowCount Hstep (csv_rows file) r0)
        as Hrows;
      revert Hrows; generalize (fold_left f (csv_rows file) r0)
  end.
  intros r Hrows Hextra. cbn [fst snd] in *.
  assert (Hcount : rowCount r = List.length (csv_rows file)).
  { rewrite Hrows; [reflexivity|].
    intros a row. unfold on_data. rewrite missing_required_never.
    destruct (_ <=? _)%nat; [|reflexivity].
    destruct (insertMany _ _ _ _) as [c' [err|]]; [|reflexivity].
    destruct (is_duplicate_key err); reflexivity. }
  assert (Hid : job_id job = jobId).
  { unfold findById in Hjob. apply find_some in Hjob.
    destruct Hjob as [_ Hid]. now apply Nat.eqb_eq. }
  repeat split.
  - exists extra. exact Hextra.
  - exists (fail_job now r msg (start_job now job)). split.
    + unfold findById. cbn [jobs save_job set_lineItems].
      apply (find_replaced jobId (fail_job now r msg (start_job now job)) Hid)
        with (job := start_job now job).
      now apply (find_replaced jobId (start_job now job) Hid) with (job := job).
    + cbn [fail_job job_status job_errors start_job]. rewrite Hcount. now split.
Qed.
End Pipeline.

Lemma every_row_counted_witness :
  (findById 1%nat (empty_store (num := PrimFloat.float)) =
     Some (new_job 1%nat alice) /\
   or (opt_userId (for_alice None)) (job_userId (new_job 1%nat alice)) =
     Some alice /\
   csv_error (csv [ec2_row; s3_row]) = None /\
   lineItem_fault (empty_store (num := PrimFloat.float)) = None /\
   single_batch (csv [ec2_row; s3_row]) (for_alice None)) /\
  exists s,
    snd (processCSVFile feb1 BillingLineItem_indexes (csv [ec2_row; s3_row])
           1%nat (for_alice None) (empty_store (num := PrimFloat.float))) =
      Resolved s /\
    Pipeline.total s = List.length (csv_rows (csv [ec2_row; s3_row])) /\
    (processed s + skipped s)%nat = Pipeline.total s.
Proof.
  assert (Hone : single_batch (csv [ec2_row; s3_row]) (for_alice None)).
  { unfold single_batch, chunk_size. cbn. lia. }
  split; [repeat split; exact Hone|].
  exact (every_row_counted feb1 BillingLineItem_indexes
           (csv [ec2_row; s3_row]) 1%nat (for_alice None) empty_store
           (new_job 1%nat alice) alice eq_refl eq_refl eq_refl eq_refl Hone).
Defined.

Lemma stream_error_witness :
  let file := {| csv_rows := [ec2_row; s3_row]; csv_error := Some "Invalid Record Length" |} in
  let result :=
    processCSVFile feb1 BillingLineItem_indexes file 1%nat
      (for_alice (Some 1%nat)) (empty_store (num := PrimFloat.float)) in
  snd result = Rejected (message "Invalid Record Length") /\
  aggregates (fst result) = aggregates (empty_store (num := PrimFloat.float)) /\
  (exists extra,
     lineItems (fst result) =
     (lineItems (empty_store (num := PrimFloat.float)) ++ extra)%list) /\
  exists job',
    findById 1%nat (fst result) = Some job' /\
    job_status job' = failed /\
    job_errors job' =
      (job_errors (new_job 1%nat alice) ++
       [{| ee_row := List.length (csv_rows file);
           ee_message := "Invalid Record Length";
           ee_timestamp := feb1 |}])%list.
Proof.
  cbv zeta.
  apply (stream_error_keeps_written_rows feb1 BillingLineItem_indexes
           {| csv_rows := [ec2_row; s3_row];
              csv_error := Some "Invalid Record Length" |}
           1%nat (for_alice (Some 1%nat)) empty_store (new_job 1%nat alice) alice
           "Invalid Record Length"); reflexivity.
Defined.

Lemma job_records_witness :
  let s := {| processed := 2; skipped := 0; total := 2 |} in
  let run :=
    processCSVFile feb1 BillingLineItem_indexes (csv [ec2_row; s3_row])
      1%nat (for_alice None) (empty_store (num := PrimFloat.float)) in
  (single_batch (csv [ec2_row; s3_row]) (for_alice None) /\
   snd run = Resolved s) /\
  exists job,
    findById 1%nat (fst run) = Some job /\
    job_status job = (if (0 <? processed s)%nat then completed else failed) /\
    job_rowsProcessed job = processed s /\
    job_rowsSkipped job = skipped s /\
    job_rowsTotal job = Some (Pipeline.total s) /\
    (List.length (job_errors job) <= 100)%nat.
Proof.
  assert (Hone : single_batch (csv [ec2_row; s3_row]) (for_alice None)).
  { unfold single_batch, chunk_size. cbn. lia. }
  assert (Hrun :
    snd (processCSVFile feb1 BillingLineItem_indexes (csv [ec2_row; s3_row])
           1%nat (for_alice None) (empty_store (num := PrimFloat.float))) =
    Resolved {| processed := 2; skipped := 0; total := 2 |}).
  { vm_compute. reflexivity. }
  cbv zeta. split; [split; [exact Hone | exact Hrun]|].
  exact (job_records_the_summary feb1 BillingLineItem_indexes
           (csv [ec2_row; s3_row]) 1%nat (for_alice None) empty_store
           {| processed := 2; skipped := 0; total := 2 |} Hone Hrun).
Defined.
End PipelineProps.

(** ** The aggregation engine, rebuild by rebuild *)

Module RebuildProps.
Import JS FloatNum Model Aggregation Totals MapFacts SumFacts AggregationFacts.
Import ExactNum Scenarios AggregationProps Views.

Lemma filter_filter_both {A : Type} (p q : A -> bool) (l : list A) :
  filter p (filter q l) = filter (fun x => q x && p x) l.
Proof.
  induction l as [|x l IH]; simpl; auto.
  destruct (q x); simpl; [destruct (p x)|]; now rewrite IH.
Qed.

Lemma grouping_not_empty {A V : Type} (key : A -> string) (init : A -> V)
    (upd : A -> V -> V) (x : A) (xs : list A) :
  Map_values (fold_left (group_into key init upd) (x :: xs) []) <> [].
Proof.
  pose proof (group_fold_covers key init upd (x :: xs) x (or_introl eq_refl))
    as Hin.
  destruct (fold_left (group_into key init upd) (x :: xs) []); [destruct Hin|].
  discriminate.
Qed.

Section Rebuild.
Context {num : Type} `{Number num}.

(** The rows of the store that are neither daily nor monthly rows of the
    user. *)
Lemma monthly_values_owned userId (rows : list (Aggregate num)) :
  Forall (fun d => of_type userId daily d = true) rows ->
  Forall (fun a => of_type userId monthly a = true)
    (Map_values (fold_left monthly_step rows [])).
Proof.
  intros Hrows. rewrite fold_monthly_group.
  apply group_fold_Forall with (P := fun a => of_type userId monthly a = true).
  - intros row a Ha. exact Ha.
  - eapply Forall_impl; [|exact Hrows].
    intros d Hd. unfold of_type in *. cbn [fresh_monthly agg_userId
      agg_aggregationType AggregationType_eqb].
    apply andb_true_iff in Hd. destruct Hd as [Ho _].
    now rewrite Ho.
  - constructor.
Qed.

Lemma typed_not_other userId t t' (l : list (Aggregate num)) :
  Forall (fun a => of_type userId t a = true) l ->
  t <> t' ->
  Forall (fun a => of_type userId t' a = false) l.
Proof.
  intros Hl Hne. eapply Forall_impl; [|exact Hl].
  intros a Ha. unfold of_type in *.
  apply andb_true_iff in Ha. destruct Ha as [_ Ht].
  destruct (agg_aggregationType a), t, t'; cbn in *;
    try discriminate; try congruence; apply andb_false_r.
Qed.

(** The store a rebuild that goes through leaves: the rows of the others,
    then the daily rows of the grouping, then their monthly rows. *)
Lemma aggregateData_rebuilt jobId job userId (st : Store num) :
  findById jobId st = Some job ->
  job_userId job = Some userId ->
  items_of userId st <> [] ->
  let dailyRows :=
    Map_values (fold_left (daily_step userId) (items_of userId st) []) in
  aggregateData jobId st =
  set_aggregates
    ((filter (fun a => negb (of_type userId daily a) &&
                       negb (of_type userId monthly a)) (aggregates st)
      ++ dailyRows)
     ++ Map_values (fold_left monthly_step dailyRows []))%list
    st.
Proof.
  intros Hjob Huser Hitems dailyRows.
  assert (Hdaily : Forall (fun a => of_type userId daily a = true) dailyRows)
    by apply daily_values_typed.
  assert (Hne : dailyRows <> []).
  { unfold dailyRows. destruct (items_of userId st) as [|i items];
      [congruence|].
    rewrite fold_daily_group. apply grouping_not_empty. }
  unfold aggregateData. rewrite Hjob, Huser.
  destruct (items_of userId st) as [|i items] eqn:E; [congruence|].
  cbn [List.length Nat.eqb]. rewrite save_aggregates_app.
  fold dailyRows. unfold computeMonthlyAggregates.
  rewrite rows_of_set_aggregates, filter_app, filter_filter_disjoint.
  cbn [app]. rewrite (filter_all _ _ Hdaily).
  destruct dailyRows as [|d ds] eqn:D; [congruence|].
  cbn [List.length Nat.eqb]. rewrite <- D in *.
  rewrite save_aggregates_app. cbn [aggregates set_aggregates].
  rewrite filter_app, filter_filter_both.
  assert (Hkeep :
    filter (fun a => negb (of_type userId monthly a)) dailyRows = dailyRows).
  { apply filter_all.
    eapply Forall_impl; [|apply (typed_not_other userId daily monthly _ Hdaily)];
      [|discriminate].
    intros a Ha. cbv beta in Ha. now rewrite Ha. }
  rewrite Hkeep. reflexivity.
Qed.

(** X10.  Rebuilding the aggregates twice gives the values of rebuilding
    them once.  A second [aggregateData] on the store the first one left
    deletes the daily and monthly rows of the user and inserts them anew,
    so the documents are other documents, with an [_id] and a [computedAt]
    of their own; what they hold of the data is what they held: the same
    rows with the same owner, date, dimensions, type, totals and count,
    inserted in the same order.  Line items, jobs and anomalies are left
    alone. *)
Theorem aggregateData_idempotent (jobId : ObjectId) (st : Store num) :
  map aggregate_values (aggregates (aggregateData jobId (aggregateData jobId st))) =
    map aggregate_values (aggregates (aggregateData jobId st)) /\
  lineItems (aggregateData jobId (aggregateData jobId st)) = lineItems st /\
  jobs (aggregateData jobId (aggregateData jobId st)) = jobs st /\
  anomalies (aggregateData jobId (aggregateData jobId st)) = anomalies st.
Proof.
  assert (Hkept : forall s : Store num,
    lineItems (aggregateData jobId s) = lineItems s /\
    jobs (aggregateData jobId s) = jobs s /\
    anomalies (aggregateData jobId s) = anomalies s).
  { intros s. unfold aggregateData.
    destruct (findById jobId s) as [job|]; [|auto].
    destruct (job_userId job) as [u|]; [|auto].
    destruct (List.length (items_of u s) =? 0)%nat; [auto|].
    unfold computeMonthlyAggregates.
    destruct (List.length _ =? 0)%nat; auto. }
  assert (Hsame :
    aggregateData jobId (aggregateData jobId st) = aggregateData jobId st);
    [|rewrite Hsame; split; [reflexivity | apply Hkept]].
  destruct (findById jobId st) as [job|] eqn:Hjob.
  2: { assert (Hst : aggregateData jobId st = st)
         by (unfold aggregateData; now rewrite Hjob).
       now rewrite !Hst. }
  destruct (job_userId job) as [u|] eqn:Huser.
  2: { assert (Hst : aggregateData jobId st = st)
         by (unfold aggregateData; now rewrite Hjob, Huser).
       now rewrite !Hst. }
  destruct (items_of u st) as [|i items] eqn:Hitems.
  { assert (Hst : aggregateData jobId st = st)
      by (unfold aggregateData; now rewrite Hjob, Huser, Hitems).
    now rewrite !Hst. }
  assert (Hne : items_of u st <> []) by (rewrite Hitems; discriminate).
  rewrite (aggregateData_rebuilt jobId job u st Hjob Huser Hne).
  cbv zeta.
  set (dailyRows := Map_values (fold_left (daily_step u) (items_of u st) [])).
  set (monthlyRows := Map_values (fold_left monthly_step dailyRows [])).
  set (others := fun a : Aggregate num =>
         negb (of_type u daily a) && negb (of_type u monthly a)).
  set (rows := ((filter others (aggregates st) ++ dailyRows) ++ monthlyRows)%list).
  assert (Hdaily : Forall (fun a => of_type u daily a = true) dailyRows)
    by apply daily_values_typed.
  assert (Hmonthly : Forall (fun a => of_type u monthly a = true) monthlyRows)
    by (apply monthly_values_owned; exact Hdaily).
  rewrite (aggregateData_rebuilt jobId job u (set_aggregates rows st) Hjob Huser Hne).
  cbv zeta. cbn [aggregates set_aggregates].
  change (items_of u (set_aggregates rows st)) with (items_of u st).
  fold dailyRows. fold monthlyRows. fold others.
  assert (Hothers : filter others rows = filter others (aggregates st)).
  { unfold rows. rewrite !filter_app.
    rewrite (filter_none others dailyRows), (filter_none others monthlyRows).
    - rewrite !app_nil_r. rewrite filter_filter_both.
      apply filter_ext. intros a. now destruct (others a).
    - eapply Forall_impl; [|exact Hmonthly].
      intros a Ha. unfold others. cbv beta in Ha. rewrite Ha.
      apply andb_false_r.
    - eapply Forall_impl; [|exact Hdaily].
      intros a Ha. unfold others. cbv beta in Ha. now rewrite Ha. }
  rewrite Hothers. reflexivity.
Qed.

(** X11.  A rebuild for one user leaves everything else as it was: the
    line items, the jobs, the anomalies, and every aggregate row that does
    not belong to that user, in the order they had. *)
Theorem aggregateData_touches_own_rows_only
    (jobId : ObjectId) (job : IngestionJob) (userId : ObjectId)
    (st : Store num) :
  findById jobId st = Some job ->
  job_userId job = Some userId ->
  lineItems (aggregateData jobId st) = lineItems st /\
  jobs (aggregateData jobId st) = jobs st /\
  anomalies (aggregateData jobId st) = anomalies st /\
  filter (fun a => negb (owned_by userId (agg_userId a)))
    (aggregates (aggregateData jobId st)) =
  filter (fun a => negb (owned_by userId (agg_userId a))) (aggregates st).
Proof.
  intros Hjob Huser.
  destruct (items_of userId st) as [|i items] eqn:Hitems.
  - unfold aggregateData. now rewrite Hjob, Huser, Hitems.
  - assert (Hne : items_of userId st <> []) by (rewrite Hitems; discriminate).
    rewrite (aggregateData_rebuilt jobId job userId st Hjob Huser Hne).
    cbv zeta. cbn [lineItems jobs anomalies aggregates set_aggregates].
    repeat split.
    assert (Hown : forall t (l : list (Aggregate num)),
      Forall (fun a => of_type userId t a = true) l ->
      filter (fun a => negb (owned_by userId (agg_userId a))) l = []).
    { intros t l Hl. apply filter_none.
      eapply Forall_impl; [|exact Hl].
      intros a Ha. unfold of_type in Ha. apply andb_true_iff in Ha.
      destruct Ha as [Ho _]. now rewrite Ho. }
    rewrite !filter_app.
    rewrite (Hown daily
               (Map_values
                  (fold_left (daily_step userId) (items_of userId st) [])))
      by apply daily_values_typed.
    rewrite (Hown monthly
               (Map_values
                  (fold_left monthly_step
                     (Map_values
                        (fold_left (daily_step userId) (items_of userId st) []))
                     [])))
      by (apply monthly_values_owned; apply daily_values_typed).
    rewrite !app_nil_r. apply filter_filter_weaker.
    intros a Ha. apply negb_true_iff in Ha. unfold of_type. now rewrite Ha.
Qed.




End Rebuild.

Lemma own_rows_only_witness :
  lineItems (aggregateData 1%nat exact_store) = lineItems exact_store /\
  jobs (aggregateData 1%nat exact_store) = jobs exact_store /\
  anomalies (aggregateData 1%nat exact_store) = anomalies exact_store /\
  filter (fun a => negb (owned_by alice (agg_userId a)))
    (aggregates (aggregateData 1%nat exact_store)) =
  filter (fun a => negb (owned_by alice (agg_userId a)))
    (aggregates exact_store).
Proof.
  apply (aggregateData_touches_own_rows_only 1%nat (new_job 1%nat alice) alice
           exact_store); reflexivity.
Defined.

End RebuildProps.

(** ** The anomaly detector, run by run *)

Module DetectionProps.
Import JS FloatNum Model Aggregation AnomalyDetection Totals MapFacts.
Import Views StringFacts Scenarios.

Section Detector.
Context {num : Type} `{Host num}.

Lemma fold_group_points (points : list (DataPoint num)) m :
  fold_left group_step points m =
  fold_left
    (group_into series_key (fun _ => [])
       (fun agg g => (g ++ [agg])%list))
    points m.
Proof. reflexivity. Qed.

(** A group holds the points of its key, in the order of the series. *)
Lemma group_of_key (points : list (DataPoint num)) key groupData :
  In (key, groupData) (fold_left group_step points []) ->
  groupData = keyed series_key key points.
Proof.
  rewrite fold_group_points. intros Hin.
  apply group_fold_entries in Hin. destruct Hin as [first [rest [Hk ->]]].
  rewrite Hk.
  rewrite (RecommendationProps.fold_left_push (fun x : DataPoint num => x)).
  cbn [app]. now rewrite map_id.
Qed.

(** What every anomaly of a run was computed from. *)
Lemma anomaly_origin now (o : Options num) (st : Store num) a :
  In a (snd (detectAnomalies now o st)) ->
  exists p,
    In p (series now o st) /\
    check_point (opt_userId o)
      match opt_threshold o with Some t => t | None => lit 25 1 end
      (series_key p)
      (mean (map dp_totalCost (keyed series_key (series_key p) (series now o st))))
      (Math_sqrt
         (variance
            (mean (map dp_totalCost
                     (keyed series_key (series_key p) (series now o st))))
            (map dp_totalCost
               (keyed series_key (series_key p) (series now o st)))))
      p = [a].
Proof.
  unfold detectAnomalies.
  destruct (List.length (series now o st) <? 7)%nat; [intros []|].
  cbn [snd]. intros Ha. apply in_flat_map in Ha.
  destruct Ha as [[key groupData] [Hgroup Ha]].
  apply group_of_key in Hgroup. subst groupData.
  unfold check_group in Ha.
  destruct (strict_eq _ zero); [destruct Ha|].
  apply in_flat_map in Ha. destruct Ha as [p [Hp Ha]].
  unfold keyed in Hp. apply filter_In in Hp. destruct Hp as [Hp Hkey].
  apply String.eqb_eq in Hkey. subst key.
  exists p. split; [exact Hp|].
  revert Ha. unfold check_point.
  destruct (gt _ _); [|intros []].
  intros [<-|[]]. reflexivity.
Qed.

(** The same with what the run has checked on the way: there are at
    least seven points, and the standard deviation of the group is not
    zero. *)
Lemma anomaly_checked now (o : Options num) (st : Store num) a :
  In a (snd (detectAnomalies now o st)) ->
  (7 <= List.length (series now o st))%nat /\
  exists p,
    In p (series now o st) /\
    strict_eq
      (Math_sqrt
         (variance
            (mean (map dp_totalCost
                     (keyed series_key (series_key p) (series now o st))))
            (map dp_totalCost
               (keyed series_key (series_key p) (series now o st)))))
      zero = false /\
    check_point (opt_userId o)
      match opt_threshold o with Some t => t | None => lit 25 1 end
      (series_key p)
      (mean (map dp_totalCost (keyed series_key (series_key p) (series now o st))))
      (Math_sqrt
         (variance
            (mean (map dp_totalCost
                     (keyed series_key (series_key p) (series now o st))))
            (map dp_totalCost
               (keyed series_key (series_key p) (series now o st)))))
      p = [a].
Proof.
  unfold detectAnomalies.
  destruct (List.length (series now o st) <? 7)%nat eqn:Hlen; [intros []|].
  apply Nat.ltb_ge in Hlen.
  cbn [snd]. intros Ha. split; [exact Hlen|].
  apply in_flat_map in Ha.
  destruct Ha as [[key groupData] [Hgroup Ha]].
  apply group_of_key in Hgroup. subst groupData.
  unfold check_group in Ha.
  destruct (strict_eq _ zero) eqn:Hdev; [destruct Ha|].
  apply in_flat_map in Ha. destruct Ha as [p [Hp Ha]].
  unfold keyed in Hp. apply filter_In in Hp. destruct Hp as [Hp Hkey].
  apply String.eqb_eq in Hkey. subst key.
  exists p. split; [exact Hp|]. split; [exact Hdev|].
  revert Ha. unfold check_point.
  destruct (gt _ _); [|intros []].
  intros [<-|[]]. reflexivity.
Qed.

(** X13.  Every anomaly a run reports comes from a point of a series of
    at least seven points, and its z-score, which exceeds the threshold,
    is the one of that point: the absolute value of the cost of the point
    minus the mean, over the standard deviation, mean and standard
    deviation (the square root of the mean of the squared deviations,
    which is not zero) being those of the costs of the points that share
    the point's key [account_service_region].  The anomaly carries the
    date and the cost of the point; its expected cost is that mean; its
    variance is the cost minus the expected cost; its type is 'spike' when
    the cost is above the expected cost and 'drop' otherwise; its severity
    is 'critical' above a z-score of 4, 'high' above 3 and 'medium'
    otherwise; and its [userId] is the one of the options. *)
Theorem reported_anomalies_exceed_threshold
    (now : Date) (o : Options num) (st : Store num) :
  Forall
    (fun a =>
       gt (an_zScore a)
          match opt_threshold o with Some t => t | None => lit 25 1 end = true /\
       an_userId a = opt_userId o /\
       an_variance a = sub (an_cost a) (an_expectedCost a) /\
       an_type a = (if gt (an_cost a) (an_expectedCost a) then spike else drop) /\
       an_severity a =
         (if gt (an_zScore a) (lit 4 0) then critical
          else if gt (an_zScore a) (lit 3 0) then high else medium) /\
       (7 <= List.length (series now o st))%nat /\
       exists p,
         let costs :=
           map dp_totalCost
             (keyed series_key (series_key p) (series now o st)) in
         let stdDev := Math_sqrt (variance (mean costs) costs) in
         In p (series now o st) /\
         an_date a = dp_date p /\
         an_cost a = dp_totalCost p /\
         an_expectedCost a = mean costs /\
         strict_eq stdDev zero = false /\
         an_zScore a =
           Math_abs (div (sub (dp_totalCost p) (mean costs)) stdDev))
    (snd (detectAnomalies now o st)).
Proof.
  apply Forall_forall. intros a Ha.
  apply anomaly_checked in Ha. destruct Ha as [Hlen [p [Hp [Hdev Ha]]]].
  unfold check_point in Ha.
  destruct (gt _ match opt_threshold o with Some t => t | None => lit 25 1 end)
    eqn:Hz; [|discriminate].
  inversion Ha; subst a; clear Ha.
  cbn [an_zScore an_userId an_variance an_cost an_expectedCost an_type an_date
       an_severity].
  repeat split; auto.
  exists p. cbv zeta. repeat split; auto.
Qed.

(** X14.  When no label of the series holds an underscore, the account,
    the service and the region of an anomaly are those of the point it
    comes from; a label that is absent, empty or the word 'all' gives no
    label. *)
Theorem anomaly_labels_from_points
    (now : Date) (o : Options num) (st : Store num) :
  Forall
    (fun p =>
       no_underscore (or_else (dp_accountId p) "all") = true /\
       no_underscore (or_else (dp_service p) "all") = true /\
       no_underscore (or_else (dp_region p) "all") = true)
    (series now o st) ->
  Forall
    (fun a =>
       exists p,
         In p (series now o st) /\
         an_date a = dp_date p /\
         an_cost a = dp_totalCost p /\
         an_accountId a = unless_all (Some (or_else (dp_accountId p) "all")) /\
         an_service a = unless_all (Some (or_else (dp_service p) "all")) /\
         an_region a = unless_all (Some (or_else (dp_region p) "all")))
    (snd (detectAnomalies now o st)).
Proof.
  intros Hlabels. apply Forall_forall. intros a Ha.
  apply anomaly_origin in Ha. destruct Ha as [p [Hp Ha]].
  rewrite Forall_forall in Hlabels.
  destruct (Hlabels p Hp) as [La [Ls Lr]].
  exists p. split; [exact Hp|].
  unfold check_point in Ha.
  destruct (gt _ match opt_threshold o with Some t => t | None => lit 25 1 end);
    [|discriminate].
  inversion Ha; subst a; clear Ha.
  cbn [an_date an_cost an_accountId an_service an_region].
  destruct (split_three _ _ (or_else (dp_region p) "all") La Ls)
    as [rest [Hsplit Hrest]].
  unfold series_key. rewrite Hsplit, (Hrest Lr). cbn [nth_error].
  repeat split.
Qed.

(** *** What a run leaves in the store *)

Lemma mark_data userId (a : Anomaly num) (items : list (BillingLineItem num)) :
  forall limit,
  map billing_data (mark userId a limit items) = map billing_data items /\
  Forall2 (fun i i' => li_isAnomaly i = true -> li_isAnomaly i' = true)
    items (mark userId a limit items).
Proof.
  assert (Hrefl : forall l : list (BillingLineItem num),
    Forall2 (fun i i' => li_isAnomaly i = true -> li_isAnomaly i' = true) l l).
  { induction l; constructor; auto. }
  induction items as [|i items IH]; intros limit; cbn [mark].
  - split; [reflexivity | constructor].
  - destruct limit as [|limit]; [split; [reflexivity | apply Hrefl]|].
    destruct (_ && _).
    + destruct (IH limit) as [Hd Hf]. cbn [map]. rewrite Hd.
      split; [reflexivity|]. constructor; [reflexivity | exact Hf].
    + destruct (IH (S limit)) as [Hd Hf]. cbn [map]. rewrite Hd.
      split; [reflexivity|]. constructor; [auto | exact Hf].
Qed.

Lemma marks_data userId (found : list (Anomaly num)) :
  forall items : list (BillingLineItem num),
  map billing_data
    (fold_left (fun items a => mark userId a 100 items) found items) =
    map billing_data items /\
  Forall2 (fun i i' => li_isAnomaly i = true -> li_isAnomaly i' = true)
    items (fold_left (fun items a => mark userId a 100 items) found items).
Proof.
  induction found as [|a found IH]; intros items; cbn [fold_left].
  - split; [reflexivity|]. induction items; constructor; auto.
  - destruct (IH (mark userId a 100 items)) as [Hd Hf].
    destruct (mark_data userId a items 100) as [Hd1 Hf1].
    split; [congruence|].
    revert Hf1 Hf.
    generalize (fold_left (fun items a => mark userId a 100 items) found
                  (mark userId a 100 items)).
    generalize (mark userId a 100 items).
    clear. intros l1 l2 H1. revert l2.
    induction H1 as [|x y l l' Hxy _ IH]; intros l2 H2;
      inversion H2; subst; constructor; auto.
Qed.

(** X15.  A detection run changes nothing of a line item but the two
    paths [isAnomaly] and [anomalyScore], never clears a flag, leaves the
    aggregates and the jobs alone, and appends the anomalies it returns to
    the collection. *)
Theorem detection_keeps_billing_data
    (now : Date) (o : Options num) (st : Store num) :
  map billing_data (lineItems (fst (detectAnomalies now o st))) =
    map billing_data (lineItems st) /\
  Forall2 (fun i i' => li_isAnomaly i = true -> li_isAnomaly i' = true)
    (lineItems st) (lineItems (fst (detectAnomalies now o st))) /\
  aggregates (fst (detectAnomalies now o st)) = aggregates st /\
  jobs (fst (detectAnomalies now o st)) = jobs st /\
  anomalies (fst (detectAnomalies now o st)) =
    (anomalies st ++ snd (detectAnomalies now o st))%list.
Proof.
  assert (Hrefl : forall l : list (BillingLineItem num),
    Forall2 (fun i i' => li_isAnomaly i = true -> li_isAnomaly i' = true) l l).
  { induction l; constructor; auto. }
  unfold detectAnomalies.
  destruct (List.length (series now o st) <? 7)%nat.
  - cbn [fst snd]. rewrite app_nil_r. auto.
  - cbn [fst snd]. unfold persist.
    match goal with
    | |- context [flat_map ?f ?g] => generalize (flat_map f g)
    end.
    intros found. destruct found as [|a found].
    + cbn [List.length Nat.ltb Nat.leb]. rewrite app_nil_r. auto.
    + cbn [List.length Nat.ltb Nat.leb lineItems aggregates jobs anomalies].
      destruct (marks_data (opt_userId o) (a :: found) (lineItems st))
        as [Hd Hf].
      auto.
Qed.

Lemma cons_eq {A : Type} (a b : A) (l l' : list A) :
  a :: l = b :: l' -> a = b /\ l = l'.
Proof. intros Heq. injection Heq as Ha Hl. now split. Qed.

Lemma same_data_fields (i i' : BillingLineItem num) :
  billing_data i = billing_data i' ->
  li_usageStartDate i = li_usageStartDate i' /\
  li_accountId i = li_accountId i' /\
  li_service i = li_service i' /\
  li_region i = li_region i' /\
  li_cost i = li_cost i' /\
  li_userId i = li_userId i' /\
  li_ingestionDate i = li_ingestionDate i'.
Proof.
  unfold billing_data. intros Hi.
  injection Hi as E1 E2 E3 E4 E5 E6 E7 E8 E9 E10 E11 E12 E13 E14 E15 E16.
  repeat split; assumption.
Qed.

Lemma same_data_same_fallback startDate endDate (o : Options num) :
  forall (l l' : list (BillingLineItem num)) (m : Map (DataPoint num)),
  map billing_data l = map billing_data l' ->
  fold_left fallback_step
    (filter
       (fun i =>
          option_eqb Nat.eqb (li_userId i) (opt_userId o) &&
          match li_usageStartDate i with
          | Some d => in_range startDate endDate d
          | None => false
          end &&
          clause (opt_accountId o) (li_accountId i) &&
          clause (opt_service o) (li_service i)) l) m =
  fold_left fallback_step
    (filter
       (fun i =>
          option_eqb Nat.eqb (li_userId i) (opt_userId o) &&
          match li_usageStartDate i with
          | Some d => in_range startDate endDate d
          | None => false
          end &&
          clause (opt_accountId o) (li_accountId i) &&
          clause (opt_service o) (li_service i)) l') m.
Proof.
  induction l as [|i l IH]; intros [|i' l'] m Hd; try discriminate;
    [reflexivity|].
  cbn [map] in Hd. apply cons_eq in Hd. destruct Hd as [Hi Hl].
  apply same_data_fields in Hi.
  destruct Hi as [Hstart [Hacc [Hsvc [Hreg [Hcost [Huser Hing]]]]]].
  assert (Hstep : forall m0, fallback_step m0 i = fallback_step m0 i').
  { intros m0. unfold fallback_step, fallback_key, fresh_point.
    now rewrite Hstart, Hacc, Hsvc, Hreg, Hcost, Hing. }
  cbn [filter]. rewrite Hstart, Hacc, Hsvc, Huser.
  match goal with
  | |- context [if ?c then _ else _] => destruct c
  end; [cbn [fold_left]; rewrite Hstep|]; now apply IH.
Qed.

Lemma series_after_detection now (o : Options num) (st st' : Store num) :
  aggregates st' = aggregates st ->
  map billing_data (lineItems st') = map billing_data (lineItems st) ->
  series now o st' = series now o st.
Proof.
  intros Haggs Hdata. unfold series, find_aggregates. rewrite Haggs.
  destruct (List.length _ =? 0)%nat; [|reflexivity].
  unfold fallback, find_lineItems. f_equal.
  now apply same_data_same_fallback.
Qed.

(** X16.  Detection keeps no record of what it has reported: a second
    run at the same instant with the same options returns the same
    anomalies and stores them once more. *)
Theorem detection_twice_duplicates
    (now : Date) (o : Options num) (st : Store num) :
  snd (detectAnomalies now o (fst (detectAnomalies now o st))) =
    snd (detectAnomalies now o st) /\
  anomalies (fst (detectAnomalies now o (fst (detectAnomalies now o st)))) =
    (anomalies st ++ snd (detectAnomalies now o st)
     ++ snd (detectAnomalies now o st))%list.
Proof.
  destruct (detection_keeps_billing_data now o st) as [Hd [_ [Ha [_ Han]]]].
  destruct (detection_keeps_billing_data now o (fst (detectAnomalies now o st)))
    as [_ [_ [_ [_ Han2]]]].
  assert (Hsame :
    snd (detectAnomalies now o (fst (detectAnomalies now o st))) =
    snd (detectAnomalies now o st)).
  { unfold detectAnomalies at 1 3.
    rewrite (series_after_detection now o st _ Ha Hd).
    destruct (List.length (series now o st) <? 7)%nat; reflexivity. }
  split; [exact Hsame|].
  rewrite Han2, Han, Hsame, app_assoc. reflexivity.
Qed.
End Detector.

Lemma anomaly_labels_witness :
  Forall
    (fun a =>
       exists p,
         In p (series feb1 detect_for_alice eight_days_store) /\
         an_date a = dp_date p /\
         an_cost a = dp_totalCost p /\
         an_accountId a = unless_all (Some (or_else (dp_accountId p) "all")) /\
         an_service a = unless_all (Some (or_else (dp_service p) "all")) /\
         an_region a = unless_all (Some (or_else (dp_region p) "all")))
    (snd (detectAnomalies feb1 detect_for_alice eight_days_store)).
Proof.
  apply (anomaly_labels_from_points feb1 detect_for_alice eight_days_store).
  vm_compute. repeat constructor.
Defined.
End DetectionProps.


(** ** The recommendation service *)

Module ServiceProps.
Import JS FloatNum Model Aggregation AnomalyDetection Recommendations.
Import RecommendationService Totals MapFacts SumFacts AggregationFacts.
Import Views RecommendationProps Scenarios.

(** Every value of a grouping started from the empty map comes from an
    element of the list, whose entry it started as. *)
Lemma group_fold_origin {A V : Type} (key : A -> string) (init : A -> V)
    (upd : A -> V -> V) (xs : list A) (v : V) :
  In v (Map_values (fold_left (group_into key init upd) xs [])) ->
  exists first rest,
    In first xs /\
    keyed key (key first) xs = first :: rest /\
    v = fold_left (fun v x => upd x v) (first :: rest) (init first).
Proof.
  intros Hin. unfold Map_values in Hin. apply in_map_iff in Hin.
  destruct Hin as [[k v'] [Hv Hin]]. cbn [snd] in Hv. subst v'.
  apply group_fold_entries in Hin. destruct Hin as [first [rest [Hk Hv]]].
  assert (Hfirst : In first (keyed key k xs)) by (rewrite Hk; now left).
  unfold keyed in Hfirst. apply filter_In in Hfirst.
  destruct Hfirst as [Hin Hkey]. apply String.eqb_eq in Hkey. subst k.
  exists first, rest. auto.
Qed.

Lemma Set_add_NoDup (x : string) (s : list string) :
  NoDup s -> NoDup (Set_add x s).
Proof.
  intros Hs. unfold Set_add. destruct (existsb (String.eqb x) s) eqn:E; auto.
  apply NoDup_app; auto.
  - constructor; [simpl; tauto | constructor].
  - intros y Hy [Heq | []]. subst y.
    assert (Hex : existsb (String.eqb x) s = true).
    { apply existsb_exists. exists x. split; [exact Hy | apply String.eqb_refl]. }
    congruence.
Qed.

Lemma Set_add_length (x : string) (s : list string) :
  (List.length (Set_add x s) <= S (List.length s))%nat.
Proof.
  unfold Set_add. destruct (existsb (String.eqb x) s); [lia|].
  rewrite length_app. cbn [List.length]. lia.
Qed.

Lemma firstn_incl {A : Type} (l : list A) : forall n x,
  In x (firstn n l) -> In x l.
Proof.
  induction l as [|y l IH]; intros n x Hin.
  - now rewrite firstn_nil in Hin.
  - destruct n as [|n]; [destruct Hin|]. cbn [firstn] in Hin.
    destruct Hin as [-> | Hin]; [now left | right; now apply (IH n)].
Qed.

Lemma firstn_NoDup_list {A : Type} (n : nat) (l : list A) :
  NoDup l -> NoDup (firstn n l).
Proof.
  revert n. induction l as [|x l IH]; intros n Hl.
  - rewrite firstn_nil. constructor.
  - destruct n as [|n]; [constructor|]. cbn [firstn].
    inversion Hl as [|? ? Hx Hl']; subst. constructor; [|now apply IH].
    intros Hin. apply Hx. now apply (firstn_incl l n).
Qed.

Section Service.
Context {num : Type} `{Host num}.

Lemma fold_instance_group (items : list (BillingLineItem num)) m :
  fold_left instance_step items m =
  fold_left (group_into instance_key fresh_instances add_instance) items m.
Proof. reflexivity. Qed.

Lemma fold_resource_group (items : list (BillingLineItem num)) m :
  fold_left resource_step items m =
  fold_left (group_into resource_key fresh_resource add_resource) items m.
Proof. reflexivity. Qed.

Lemma fold_storage_group (items : list (BillingLineItem num)) m :
  fold_left storage_step items m =
  fold_left (group_into storage_key fresh_storage add_storage) items m.
Proof. reflexivity. Qed.

Lemma fold_idle_group (rows : list (Aggregate num)) m :
  fold_left idle_step rows m =
  fold_left (group_into idle_key fresh_idle add_idle) rows m.
Proof. reflexivity. Qed.

(** *** What each kind of recommendation carries *)

Ltac single := first [apply Forall_nil | apply Forall_cons; [|apply Forall_nil]].

Lemma ri_rule_kind (entry : string * list num) :
  Forall (fun r => generated_kind (of_reserved r)) (ri_rule entry).
Proof.
  destruct entry as [account costs]. unfold ri_rule.
  destruct (gt _ _ && lt _ _); single.
  unfold generated_kind. cbn. tauto.
Qed.

(** X17.  Every recommendation the six detectors write is of one of six
    kinds (never 'savings_plan' or 'data_transfer_optimization'), and the
    kind fixes the priority (never 'critical'), the savings as a share of
    the current cost and the percentage stated: rightsizing medium and
    0.3 of the cost (30); reserved instances high and half (50);
    unattached EBS medium and the whole cost (100); Elastic IP low and the
    whole cost (100); storage tiering medium and half (50); idle resources
    medium and the whole cost (100). *)
Theorem findings_of_generated_kinds
    (strictQuery : bool) (q : Query) (st : Store num) :
  Forall generated_kind (detect_all strictQuery q st).
Proof.
  unfold detect_all. repeat (apply Forall_app; split).
  - unfold detectRightsizingOpportunities.
    apply Forall_flat_map, Forall_forall. intros g _. unfold rightsizing_rule.
    destruct (_ && _); [|apply Forall_nil].
    destruct (lt _ _); single.
    unfold generated_kind. cbn. tauto.
  - apply Forall_map. unfold detectRIOpportunities.
    apply Forall_flat_map, Forall_forall. intros entry _.
    apply ri_rule_kind.
  - unfold detectUnattachedEBS.
    apply Forall_flat_map, Forall_forall. intros g _. unfold ebs_rule.
    destruct (_ && _); single.
    unfold generated_kind. cbn. tauto.
  - unfold detectUnattachedEIP.
    apply Forall_flat_map, Forall_forall. intros g _. unfold eip_rule.
    destruct (gt _ _); single.
    unfold generated_kind. cbn. tauto.
  - unfold detectStorageTieringOpportunities.
    apply Forall_flat_map, Forall_forall. intros g _. unfold storage_rule.
    destruct (sg_usageType g); [|apply Forall_nil].
    destruct (_ && _); single.
    unfold generated_kind. cbn. tauto.
  - unfold detectIdleResources.
    apply Forall_flat_map, Forall_forall. intros g _. unfold idle_rule.
    destruct (_ <=? _)%nat; single.
    unfold generated_kind. cbn. tauto.
Qed.

(** *** The account asked for *)

Section Account.
Variables (q : Query) (account : string).
Hypothesis asked : q_accountId q = Some account.
Hypothesis named : truthy account = true.

Lemma clause_account (actual : string) :
  clause (q_accountId q) actual = true -> actual = account.
Proof.
  rewrite asked. unfold clause. rewrite named. apply String.eqb_eq.
Qed.

Lemma in_query_account (items : list (BillingLineItem num))
    (p : BillingLineItem num -> bool) :
  Forall (fun i => li_accountId i = account)
    (filter (fun i => in_query q i && p i) items).
Proof.
  apply Forall_forall. intros i Hi. apply filter_In in Hi.
  destruct Hi as [_ Hi]. apply andb_true_iff in Hi. destruct Hi as [Hi _].
  unfold in_query in Hi. apply andb_true_iff in Hi. destruct Hi as [_ Hi].
  now apply clause_account.
Qed.

Lemma filter_keeps_Forall {A : Type} (P : A -> Prop) (p : A -> bool) l :
  Forall P l -> Forall P (filter p l).
Proof.
  intros Hl. apply Forall_forall. intros x Hx. apply filter_In in Hx.
  rewrite Forall_forall in Hl. now apply Hl.
Qed.

Lemma rightsizing_account (st : Store num) :
  Forall (fun f => f_accountId f = account)
    (detectRightsizingOpportunities q st).
Proof.
  unfold detectRightsizingOpportunities.
  apply Forall_flat_map. rewrite fold_instance_group.
  eapply Forall_impl;
    [|apply group_fold_Forall with (P := fun g => ig_accountId g = account)].
  - intros g Hg. unfold rightsizing_rule.
    destruct (_ && _); [|constructor].
    destruct (lt _ _); repeat constructor. exact Hg.
  - intros item g Hg. exact Hg.
  - unfold find_box_usage. apply filter_keeps_Forall.
    apply (in_query_account (lineItems st)).
  - constructor.
Qed.

Lemma resource_account service usageType
    (rule : ResourceGroup num -> list (Finding num)) (st : Store num) :
  (forall g, Forall (fun f => f_accountId f = rg_accountId g) (rule g)) ->
  Forall (fun f => f_accountId f = account)
    (flat_map rule
       (Map_values
          (fold_left resource_step (find_usage service usageType q st) []))).
Proof.
  intros Hrule. apply Forall_flat_map. rewrite fold_resource_group.
  eapply Forall_impl;
    [|apply group_fold_Forall with (P := fun g => rg_accountId g = account)].
  - intros g Hg. eapply Forall_impl; [|apply Hrule].
    intros f Hf. cbv beta in Hf. congruence.
  - intros item g Hg. exact Hg.
  - unfold find_usage.
    assert (Hsame :
      filter
        (fun item : BillingLineItem num =>
           in_query q item && test_ci service (li_service item) &&
           regex_ci usageType (column "usageType" item)) (lineItems st) =
      filter
        (fun item : BillingLineItem num =>
           in_query q item &&
           (test_ci service (li_service item) &&
            regex_ci usageType (column "usageType" item))) (lineItems st)).
    { apply filter_ext. intros i. now rewrite andb_assoc. }
    rewrite Hsame. apply in_query_account.
  - constructor.
Qed.

Lemma storage_account (st : Store num) :
  Forall (fun f => f_accountId f = account)
    (detectStorageTieringOpportunities q st).
Proof.
  unfold detectStorageTieringOpportunities.
  apply Forall_flat_map. rewrite fold_storage_group.
  eapply Forall_impl;
    [|apply group_fold_Forall with (P := fun g => sg_accountId g = account)].
  - intros g Hg. unfold storage_rule.
    destruct (sg_usageType g); [|constructor].
    destruct (_ && _); repeat constructor. exact Hg.
  - intros item g Hg. exact Hg.
  - apply in_query_account.
  - constructor.
Qed.

Lemma idle_account strictQuery (st : Store num) :
  Forall (fun f => f_accountId f = account)
    (detectIdleResources strictQuery q st).
Proof.
  unfold detectIdleResources.
  apply Forall_flat_map. rewrite fold_idle_group.
  eapply Forall_impl;
    [|apply group_fold_Forall with (P := fun g => idle_accountId g = account)].
  - intros g Hg. unfold idle_rule.
    destruct (_ <=? _)%nat; repeat constructor. exact Hg.
  - intros item g Hg. exact Hg.
  - unfold find_low_usage. destruct strictQuery; [|constructor].
    apply Forall_forall. intros a Ha. apply filter_In in Ha.
    destruct Ha as [_ Ha].
    do 3 (apply andb_true_iff in Ha; destruct Ha as [Ha _]).
    apply andb_true_iff in Ha. destruct Ha as [_ Ha].
    now apply clause_account.
  - constructor.
Qed.

Lemma reserved_account strictQuery (st : Store num) :
  Forall (fun f => f_accountId f = account)
    (map of_reserved (detectRIOpportunities strictQuery q st)).
Proof.
  apply Forall_map. unfold detectRIOpportunities.
  apply Forall_flat_map, Forall_forall. intros [k costs] Hentry.
  rewrite fold_spend_group in Hentry.
  apply group_fold_entries in Hentry.
  destruct Hentry as [first [rest [Hk _]]].
  assert (Hfirst :
    In first (keyed agg_accountId k (find_monthly_ec2 strictQuery q st)))
    by (rewrite Hk; now left).
  unfold keyed in Hfirst. apply filter_In in Hfirst.
  destruct Hfirst as [Hin Hkey]. apply String.eqb_eq in Hkey.
  assert (Hacc : agg_accountId first = account).
  { unfold find_monthly_ec2 in Hin. destruct strictQuery; [|destruct Hin].
    apply filter_In in Hin. destruct Hin as [_ Hin].
    do 2 (apply andb_true_iff in Hin; destruct Hin as [Hin _]).
    apply andb_true_iff in Hin. destruct Hin as [_ Hin].
    now apply clause_account. }
  eapply Forall_impl; [|apply (ri_rule_account (k, costs))].
  intros r Hr. cbn [fst] in Hr. cbn [of_reserved f_accountId]. congruence.
Qed.
End Account.

(** X18.  When an account is asked for, and its id is one under which
    the objects the detectors group by behave as dictionaries (it does not
    start with an underscore and is neither an array index nor a name
    every object inherits, such as [constructor]), the run returns and
    every recommendation generated is for that account. *)
Theorem recommendations_for_the_asked_account
    (now : Date) (strictQuery : bool) (o : Recommendations.Options)
    (w : World num) (userId : ObjectId) (account : string) :
  Recommendations.opt_userId o = Some userId ->
  Recommendations.opt_accountId o = Some account ->
  ordinary_account account = true ->
  exists found,
    snd (generateRecommendations now strictQuery o w) = inr found /\
    Forall (fun f => f_accountId f = account) found.
Proof.
  intros Huser Hacc Hordinary.
  assert (Hnamed : truthy account = true)
    by (destruct account; [discriminate | reflexivity]).
  unfold generateRecommendations, build_query.
  rewrite Huser, Hacc, Hnamed. cbn [snd].
  eexists. split; [reflexivity|].
  match goal with
  | |- Forall _ (detect_all _ ?q _) =>
      assert (Hq : q_accountId q = Some account) by reflexivity;
      generalize dependent q
  end.
  intros q Hq. unfold detect_all. repeat (apply Forall_app; split).
  - now apply rightsizing_account.
  - now apply reserved_account.
  - unfold detectUnattachedEBS. apply resource_account; auto.
    intros g. unfold ebs_rule. destruct (_ && _); repeat constructor.
  - unfold detectUnattachedEIP. apply resource_account; auto.
    intros g. unfold eip_rule. destruct (gt _ _); repeat constructor.
  - now apply storage_account.
  - now apply idle_account.
Qed.

(** *** Rightsizing *)

(** X19.  The resource ids a rightsizing recommendation lists are
    distinct, at most ten, and no more than the instances it counts, of
    which there are at least two. *)
Theorem rightsizing_resources_distinct (q : Query) (st : Store num) :
  Forall
    (fun f : Finding num =>
       exists instanceType n ids,
         f_metadata f = InstanceMeta instanceType n ids /\
         NoDup ids /\
         (List.length ids <= 10)%nat /\
         (List.length ids <= n)%nat /\
         (2 <= n)%nat)
    (detectRightsizingOpportunities q st).
Proof.
  unfold detectRightsizingOpportunities.
  apply Forall_flat_map. rewrite fold_instance_group.
  eapply Forall_impl;
    [|apply group_fold_Forall
        with (P := fun g => NoDup (ig_resourceIds g) /\
                            (List.length (ig_resourceIds g) <= ig_count g)%nat)].
  - intros g [Hnd Hlen]. unfold rightsizing_rule.
    destruct (gt _ _); cbn [andb]; [|constructor].
    destruct (1 <? ig_count g)%nat eqn:Hcount; [|constructor].
    apply Nat.ltb_lt in Hcount.
    destruct (lt _ _); repeat constructor.
    exists (ig_instanceType g), (ig_count g), (firstn 10 (ig_resourceIds g)).
    cbn [f_metadata]. repeat split.
    + now apply firstn_NoDup_list.
    + apply firstn_le_length.
    + rewrite length_firstn. lia.
    + lia.
  - intros item g [Hnd Hlen]. unfold add_instance. cbn [ig_resourceIds ig_count].
    destruct (column "resourceId" item) as [r|]; [|split; [exact Hnd | lia]].
    destruct (truthy r); [|split; [exact Hnd | lia]].
    split; [now apply Set_add_NoDup|].
    pose proof (Set_add_length r (ig_resourceIds g)). lia.
  - apply Forall_forall. intros item _. cbn. split; [constructor | lia].
  - constructor.
Qed.

(** *** Idle resources *)

Lemma count_steps {A : Type} (l : list A) : forall n,
  fold_left (fun s _ => (s + 1)%nat) l n = (n + List.length l)%nat.
Proof.
  induction l as [|x l IH]; intros n; cbn [fold_left List.length].
  - lia.
  - rewrite IH. lia.
Qed.

(** X20.  Every idle-resource recommendation stands for at least seven
    of the daily rows the query returned that share one key
    [account_service_region]: it names the account, the service and the
    region of the first of them, its cost is the running sum of their
    [totalCost], and the days it counts are their number. *)
Theorem idle_findings_count_rows
    (strictQuery : bool) (q : Query) (st : Store num) :
  Forall
    (fun f : Finding num =>
       exists first rest,
         In first (find_low_usage strictQuery q st) /\
         keyed idle_key (idle_key first) (find_low_usage strictQuery q st) =
           first :: rest /\
         (7 <= List.length (first :: rest))%nat /\
         f_type f = idle_resource_cleanup /\
         f_accountId f = agg_accountId first /\
         f_service f = agg_service first /\
         f_region f = Some (agg_region first) /\
         f_currentCost f =
           fold_left (fun s a => add s (agg_totalCost a)) (first :: rest) zero /\
         f_metadata f =
           IdleMeta (List.length (first :: rest)) (agg_region first))
    (detectIdleResources strictQuery q st).
Proof.
  unfold detectIdleResources. apply Forall_flat_map, Forall_forall.
  intros g Hg. rewrite fold_idle_group in Hg.
  apply group_fold_origin in Hg. destruct Hg as [first [rest [Hin [Hk Hg]]]].
  assert (Hdays : idle_days g = List.length (first :: rest)).
  { rewrite Hg.
    rewrite (fold_left_field add_idle idle_days Nat.add (fun _ => 1%nat))
      by reflexivity.
    now rewrite count_steps. }
  assert (Hcost :
    idle_totalCost g =
    fold_left (fun s a => add s (agg_totalCost a)) (first :: rest) zero).
  { rewrite Hg.
    now rewrite (fold_left_field add_idle idle_totalCost add agg_totalCost). }
  assert (Hacc : idle_accountId g = agg_accountId first)
    by (rewrite Hg; now rewrite (fold_left_keeps (fun v x => add_idle x v) idle_accountId)).
  assert (Hsvc : idle_service g = agg_service first)
    by (rewrite Hg; now rewrite (fold_left_keeps (fun v x => add_idle x v) idle_service)).
  assert (Hreg : idle_region g = agg_region first)
    by (rewrite Hg; now rewrite (fold_left_keeps (fun v x => add_idle x v) idle_region)).
  unfold idle_rule. destruct (7 <=? idle_days g)%nat eqn:H7; [|constructor].
  apply Nat.leb_le in H7. repeat constructor.
  exists first, rest.
  cbn [f_type f_accountId f_service f_region f_currentCost f_metadata].
  rewrite <- Hdays, Hacc, Hsvc, Hreg, Hcost. repeat split; auto.
Qed.

(** *** The entry point *)

(** X21.  On a store whose account ids are all such that the objects the
    detectors group by behave as dictionaries (none starts with an
    underscore, none is an array index or a name every object inherits):
    [generateRecommendations] without a user throws before it reads
    anything; with one it returns, leaves the store alone and appends to
    the Recommendation collection exactly what it returns, under that
    user.  It keeps no record of what it has recommended: a second run at
    the same instant returns the same recommendations and saves them once
    more. *)
Theorem recommendations_saved_as_returned
    (now : Date) (strictQuery : bool) (o : Recommendations.Options)
    (w : World num) :
  ordinary_accounts (store w) = true ->
  match Recommendations.opt_userId o with
  | None =>
      fst (generateRecommendations now strictQuery o w) = w /\
      exists err,
        snd (generateRecommendations now strictQuery o w) = inl err /\
        err_message err = "User ID is required for generating recommendations"
  | Some userId =>
      exists found,
        snd (generateRecommendations now strictQuery o w) = inr found /\
        store (fst (generateRecommendations now strictQuery o w)) = store w /\
        recommendations (fst (generateRecommendations now strictQuery o w)) =
          (recommendations w ++ map (fun f => (userId, f)) found)%list /\
        snd (generateRecommendations now strictQuery o
               (fst (generateRecommendations now strictQuery o w))) =
          inr found /\
        recommendations
          (fst (generateRecommendations now strictQuery o
                  (fst (generateRecommendations now strictQuery o w)))) =
          (recommendations w ++ map (fun f => (userId, f)) found
           ++ map (fun f => (userId, f)) found)%list
  end.
Proof.
  intros _.
  assert (Hone : forall (w0 : World num) userId,
    Recommendations.opt_userId o = Some userId ->
    exists q,
      build_query now o = inr q /\ q_userId q = userId /\
      snd (generateRecommendations now strictQuery o w0) =
        inr (detect_all strictQuery q (store w0)) /\
      store (fst (generateRecommendations now strictQuery o w0)) = store w0 /\
      recommendations (fst (generateRecommendations now strictQuery o w0)) =
        (recommendations w0 ++
         map (fun f => (userId, f)) (detect_all strictQuery q (store w0)))%list).
  { intros w0 userId Huser. unfold generateRecommendations, build_query.
    rewrite Huser. eexists. split; [reflexivity|]. cbn [q_userId].
    split; [reflexivity|].
    match goal with
    | |- context [detect_all strictQuery ?q (store w0)] =>
        generalize (detect_all strictQuery q (store w0))
    end.
    intros found. destruct found as [|f found].
    - cbn. rewrite app_nil_r. auto.
    - cbn [List.length Nat.ltb Nat.leb fst snd store recommendations]. auto. }
  destruct (Recommendations.opt_userId o) as [userId|] eqn:Huser.
  - destruct (Hone w userId eq_refl) as [q [Hq [Hu [Hs [Hst Hr]]]]].
    destruct (Hone (fst (generateRecommendations now strictQuery o w)) userId
                eq_refl) as [q2 [Hq2 [_ [Hs2 [_ Hr2]]]]].
    assert (q2 = q) by congruence. subst q2.
    rewrite Hst in Hs2, Hr2.
    exists (detect_all strictQuery q (store w)).
    rewrite Hs, Hst, Hs2, Hr2, Hr, <- app_assoc. auto.
  - unfold generateRecommendations, build_query. rewrite Huser.
    cbn [fst snd]. split; [reflexivity|]. eexists. split; reflexivity.
Qed.
End Service.

Lemma asked_account_witness :
  let o :=
    {| Recommendations.opt_accountId := Some "111111111111";
       Recommendations.opt_lookbackDays := None;
       Recommendations.opt_userId := Some alice |} in
  let w := {| store := steady_store; recommendations := [] |} in
  (Recommendations.opt_userId o = Some alice /\
   Recommendations.opt_accountId o = Some "111111111111" /\
   ordinary_account "111111111111" = true) /\
  exists found,
    snd (generateRecommendations feb1 true o w) = inr found /\
    Forall (fun f => f_accountId f = "111111111111") found.
Proof.
  intros o w. split; [repeat split|].
  apply (recommendations_for_the_asked_account feb1 true o w alice
           "111111111111"); reflexivity.
Defined.

Lemma saved_as_returned_witness :
  let w := {| store := steady_store; recommendations := [] |} in
  ordinary_accounts (store w) = true /\
  exists found,
    snd (generateRecommendations feb1 true recommend_for_alice w) =
      inr found /\
    store (fst (generateRecommendations feb1 true recommend_for_alice w)) =
      store w /\
    recommendations
      (fst (generateRecommendations feb1 true recommend_for_alice w)) =
      (recommendations w ++ map (fun f => (alice, f)) found)%list /\
    snd (generateRecommendations feb1 true recommend_for_alice
           (fst (generateRecommendations feb1 true recommend_for_alice w))) =
      inr found /\
    recommendations
      (fst (generateRecommendations feb1 true recommend_for_alice
              (fst (generateRecommendations feb1 true recommend_for_alice
                      w)))) =
      (recommendations w ++ map (fun f => (alice, f)) found
       ++ map (fun f => (alice, f)) found)%list.
Proof.
  intros w. split; [reflexivity|].
  exact (recommendations_saved_as_returned feb1 true recommend_for_alice w
           eq_refl).
Defined.
End ServiceProps.

(** ** The scheduler *)

Module SchedulerProps.
Import JS FloatNum Model Normalizer Aggregation Pipeline.
Import RecommendationService Scheduler.
Import PipelineProps Scenarios Views.

(** *** Starting and stopping *)

(** X22.  Whatever the sequence of calls of [startScheduler] and
    [stopScheduler], at most one cron task is running, and it is the one
    the module variable [scheduler] holds, started on an expression
    node-cron accepted: a second start schedules nothing, and after a
    stop no task is left. *)
Theorem at_most_one_task_scheduled
    (validate : string -> bool) (calls : list Call) :
  match scheduler (fold_left (call validate) calls no_cron) with
  | None => running (fold_left (call validate) calls no_cron) = []
  | Some task =>
      exists schedule,
        running (fold_left (call validate) calls no_cron) =
          [(task, schedule)] /\
        validate schedule = true
  end.
Proof.
  apply (fold_left_preserves (call validate)
           (fun c =>
              match scheduler c with
              | None => running c = []
              | Some task =>
                  exists schedule,
                    running c = [(task, schedule)] /\ validate schedule = true
              end)); [|reflexivity].
  intros c op Hc. destruct op as [schedule|]; cbn [call].
  - unfold startScheduler. destruct (scheduler c) as [task|] eqn:Hs.
    + cbn [fst]. now rewrite Hs.
    + destruct (validate schedule) eqn:Hv; cbn [fst scheduler running].
      * exists schedule. rewrite Hc. auto.
      * now rewrite Hs.
  - unfold stopScheduler. destruct (scheduler c) as [task|] eqn:Hs.
    + cbn [scheduler running]. destruct Hc as [schedule [Hr _]].
      rewrite Hr. cbn [filter fst]. now rewrite Nat.eqb_refl.
    + now rewrite Hs.
Qed.

(** *** The nightly run *)

Section Nightly.
Context {num : Type} `{Host num}.

Lemma aggregateData_anomalies jobId (st : Store num) :
  anomalies (aggregateData jobId st) = anomalies st.
Proof.
  unfold aggregateData.
  destruct (findById jobId st) as [job|]; [|reflexivity].
  destruct (job_userId job) as [u|]; [|reflexivity].
  destruct (List.length (items_of u st) =? 0)%nat; [reflexivity|].
  unfold computeMonthlyAggregates.
  now destruct (List.length _ =? 0)%nat.
Qed.

Lemma processCSVFile_anomalies now indexes file jobId options
    (st : Store num) :
  anomalies (fst (processCSVFile now indexes file jobId options st)) =
  anomalies st.
Proof.
  unfold processCSVFile.
  destruct (findById jobId st) as [job|]; [|reflexivity].
  destruct (or (Pipeline.opt_userId options) (job_userId job)) as [u|];
    [|reflexivity].
  destruct (csv_error file) as [msg|]; [reflexivity|].
  match goal with
  | |- context [flush ?ix ?f (fold_left ?g (csv_rows file) ?r0)] =>
      generalize (flush ix f (fold_left g (csv_rows file) r0))
  end.
  intros r. cbn [fst].
  destruct (0 <? processedCount r)%nat; [rewrite aggregateData_anomalies|];
    reflexivity.
Qed.

Lemma process_pending_anomalies file_at now indexes (st : Store num) job :
  anomalies (process_pending file_at now indexes st job) = anomalies st.
Proof.
  unfold process_pending. destruct (file_at job) as [file|]; [|reflexivity].
  pose proof (processCSVFile_anomalies now indexes file (job_id job)
                {| opt_chunkSize := None;
                   Pipeline.opt_userId := job_userId job |} st) as Ha.
  revert Ha.
  destruct (processCSVFile now indexes file (job_id job) _ st) as [st' [s|e]];
    cbn [fst]; intros Ha; exact Ha.
Qed.

Lemma detectAnomalies_found now (o : AnomalyDetection.Options num)
    (st : Store num) :
  jobs (fst (AnomalyDetection.detectAnomalies now o st)) = jobs st /\
  anomalies (fst (AnomalyDetection.detectAnomalies now o st)) =
    (anomalies st ++ snd (AnomalyDetection.detectAnomalies now o st))%list /\
  Forall (fun a => an_userId a = AnomalyDetection.opt_userId o)
    (snd (AnomalyDetection.detectAnomalies now o st)).
Proof.
  unfold AnomalyDetection.detectAnomalies.
  destruct (List.length (AnomalyDetection.series now o st) <? 7)%nat.
  - cbn [fst snd]. rewrite app_nil_r. auto.
  - cbn [fst snd].
    assert (Hfound :
      Forall (fun a => an_userId a = AnomalyDetection.opt_userId o)
        (flat_map
           (AnomalyDetection.check_group (AnomalyDetection.opt_userId o)
              match AnomalyDetection.opt_threshold o with
              | Some t => t
              | None => lit 25 1
              end)
           (fold_left AnomalyDetection.group_step
              (AnomalyDetection.series now o st) []))).
    { apply Forall_flat_map, Forall_forall. intros [key groupData] _.
      unfold AnomalyDetection.check_group.
      destruct (strict_eq _ _); [constructor|].
      apply Forall_flat_map, Forall_forall. intros agg _.
      unfold AnomalyDetection.check_point.
      destruct (gt _ _); [|constructor].
      apply Forall_cons; [reflexivity | constructor]. }
    revert Hfound.
    match goal with
    | |- context [flat_map ?f ?g] => generalize (flat_map f g)
    end.
    intros found Hfound. unfold AnomalyDetection.persist.
    destruct found as [|a found].
    + cbn [List.length Nat.ltb Nat.leb]. rewrite app_nil_r. auto.
    + cbn [List.length Nat.ltb Nat.leb jobs anomalies]. auto.
Qed.

Lemma pending_fold_anomalies file_at now indexes (l : list IngestionJob) :
  forall st : Store num,
    anomalies (fold_left (process_pending file_at now indexes) l st) =
    anomalies st.
Proof.
  induction l as [|job l IH]; intros st; [reflexivity|].
  cbn [fold_left]. rewrite IH. apply process_pending_anomalies.
Qed.

(** X23.  On a store whose line-item collection takes its writes, the
    nightly run never completes: it asks for recommendations without
    naming a user, so its promise is rejected with 'User ID is required
    for generating recommendations' and the Recommendation collection
    stays as it was.  What it does before that is kept; the anomalies it
    has saved belong to no user. *)
Theorem nightly_run_always_rejects
    (file_at : IngestionJob -> option Csv) (now : Date)
    (indexes : list IndexSpec) (strictQuery : bool) (w : World num) :
  lineItem_fault (store w) = None ->
  (exists error,
     snd (runNightlyProcessing file_at now indexes strictQuery w) =
       Some error /\
     err_message error =
       "User ID is required for generating recommendations") /\
  recommendations
    (fst (runNightlyProcessing file_at now indexes strictQuery w)) =
    recommendations w /\
  exists found,
    anomalies
      (store (fst (runNightlyProcessing file_at now indexes strictQuery w))) =
      (anomalies (store w) ++ found)%list /\
    Forall (fun a => an_userId a = None) found.
Proof.
  intros _. unfold runNightlyProcessing. cbn zeta.
  unfold computeMonthlyAggregates.
  match goal with
  | |- context [AnomalyDetection.detectAnomalies now ?o ?st] =>
      pose proof (detectAnomalies_found now o st) as Hd;
      pose proof (pending_fold_anomalies file_at now indexes
                    (filter (fun j => JobStatus_eqb (job_status j) pending)
                       (jobs (store w))) (store w)) as Hp;
      revert Hd Hp;
      generalize (AnomalyDetection.detectAnomalies now o st);
      generalize st
  end.
  intros st0 [st found] [_ [Ha Hf]] Hp. cbn [fst snd] in Ha, Hf.
  cbn [AnomalyDetection.opt_userId] in Hf.
  unfold generateRecommendations, Recommendations.build_query.
  cbn [Recommendations.opt_userId fst snd store recommendations].
  split; [eexists; split; reflexivity|].
  split; [reflexivity|].
  exists found. rewrite Ha, Hp. auto.
Qed.

(** **** The pending jobs *)

Lemma found_job_id jobId (st : Store num) job :
  findById jobId st = Some job -> job_id job = jobId.
Proof.
  unfold findById. intros Hfind. apply find_some in Hfind.
  destruct Hfind as [_ Hid]. now apply Nat.eqb_eq.
Qed.

Lemma Forall2_map_same {A : Type} (R : A -> A -> Prop) (g : A -> A) l :
  (forall x, In x l -> R x (g x)) -> Forall2 R l (map g l).
Proof.
  induction l as [|x l IH]; intros Hl; cbn [map]; constructor.
  - apply Hl. now left.
  - apply IH. intros y Hy. apply Hl. now right.
Qed.

(** **** What becomes of a pending job *)

Lemma aggregateData_fault jobId (st : Store num) :
  lineItem_fault (aggregateData jobId st) = lineItem_fault st.
Proof.
  unfold aggregateData.
  destruct (findById jobId st) as [job|]; [|reflexivity].
  destruct (job_userId job) as [u|]; [|reflexivity].
  destruct (List.length (items_of u st) =? 0)%nat; [reflexivity|].
  unfold computeMonthlyAggregates.
  now destruct (List.length _ =? 0)%nat.
Qed.

Lemma find_own (l : list IngestionJob) (j : IngestionJob) :
  NoDup (map job_id l) -> In j l ->
  find (fun x => Nat.eqb (job_id x) (job_id j)) l = Some j.
Proof.
  induction l as [|x l IH]; intros Hnd Hin; [destruct Hin|].
  cbn [map] in Hnd. inversion Hnd as [|? ? Hx Hnd']; subst.
  cbn [find]. destruct Hin as [->|Hin].
  - now rewrite Nat.eqb_refl.
  - destruct (Nat.eqb (job_id x) (job_id j)) eqn:E.
    + apply Nat.eqb_eq in E. exfalso. apply Hx. rewrite E. now apply in_map.
    + now apply IH.
Qed.

Lemma find_map_kept (g : IngestionJob -> IngestionJob) (id : ObjectId) l :
  (forall j, job_id (g j) = job_id j) ->
  find (fun x => Nat.eqb (job_id x) id) (map g l) =
  option_map g (find (fun x => Nat.eqb (job_id x) id) l).
Proof.
  intros Hid. induction l as [|x l IH]; cbn [map find option_map];
    [reflexivity|].
  rewrite Hid. now destruct (Nat.eqb (job_id x) id).
Qed.

Lemma NoDup_filter_ids (p : IngestionJob -> bool) l :
  NoDup (map job_id l) -> NoDup (map job_id (filter p l)).
Proof.
  induction l as [|x l IH]; intros Hnd; cbn [filter map]; [constructor|].
  cbn [map] in Hnd. inversion Hnd as [|? ? Hx Hnd']; subst.
  destruct (p x); [|now apply IH].
  cbn [map]. constructor; [|now apply IH].
  intros Hin. apply Hx. apply in_map_iff in Hin.
  destruct Hin as [y [Hy Hin]]. apply filter_In in Hin.
  rewrite <- Hy. apply in_map. tauto.
Qed.

Lemma same_id_same_job (l : list IngestionJob) (a b : IngestionJob) :
  NoDup (map job_id l) -> In a l -> In b l -> job_id a = job_id b -> a = b.
Proof.
  intros Hnd Ha Hb Hid. pose proof (find_own l a Hnd Ha) as Fa.
  pose proof (find_own l b Hnd Hb) as Fb. rewrite Hid in Fa. congruence.
Qed.

(** A run on a store that takes its writes, seen from the job
    document. *)
Lemma processCSVFile_outcome now indexes file jobId options (st : Store num)
    job u :
  findById jobId st = Some job ->
  or (Pipeline.opt_userId options) (job_userId job) = Some u ->
  lineItem_fault st = None ->
  exists final,
    jobs (fst (processCSVFile now indexes file jobId options st)) =
      map (fun j => if Nat.eqb (job_id j) jobId then final else j) (jobs st) /\
    lineItem_fault (fst (processCSVFile now indexes file jobId options st)) =
      None /\
    job_id final = jobId /\
    match csv_error file with
    | Some msg =>
        snd (processCSVFile now indexes file jobId options st) =
          Rejected (message msg) /\
        job_status final = failed /\
        job_startedAt final = Some now /\
        job_errors final =
          (job_errors job ++
           [ {| ee_row := List.length (csv_rows file);
                ee_message := msg;
                ee_timestamp := now |} ])%list
    | None =>
        (exists s,
           snd (processCSVFile now indexes file jobId options st) =
             Resolved s) /\
        job_startedAt final = Some now /\
        job_completedAt final = Some now /\
        job_rowsTotal final = Some (List.length (csv_rows file)) /\
        (job_rowsProcessed final + job_rowsSkipped final)%nat =
          List.length (csv_rows file) /\
        job_status final =
          (if (0 <? job_rowsProcessed final)%nat then completed else failed)
    end.
Proof.
  intros Hjob Hu Hfault. pose proof (found_job_id jobId st job Hjob) as Hid.
  unfold processCSVFile. rewrite Hjob. cbv beta iota. rewrite Hu.
  cbv beta iota zeta.
  change (lineItem_fault (save_job (start_job now job) st))
    with (lineItem_fault st).
  rewrite Hfault.
  match goal with
  | |- context [fold_left ?f (csv_rows file) ?r0] =>
      pose proof
        (fold_left_counts f rowCount
           (fun r row => proj1 (on_data_counts now indexes jobId u _ r row))
           (csv_rows file) r0) as Hrows;
      pose proof
        (fold_left_counts f
           (fun r => (processedCount r + skippedCount r + List.length (batch r))%nat)
           (fun r row => proj2 (on_data_counts now indexes jobId u _ r row))
           (csv_rows file) r0) as Hsum;
      revert Hrows Hsum; generalize (fold_left f (csv_rows file) r0)
  end.
  intros r Hrows Hsum.
  cbn [rowCount processedCount skippedCount batch List.length] in Hrows, Hsum.
  assert (Hmap : forall final,
    job_id final = jobId ->
    map (fun j => if Nat.eqb (job_id j) (job_id final) then final else j)
      (map (fun j => if Nat.eqb (job_id j) (job_id (start_job now job))
                     then start_job now job else j) (jobs st)) =
    map (fun j => if Nat.eqb (job_id j) jobId then final else j) (jobs st)).
  { intros final Hfinal. rewrite map_map. apply map_ext. intros j.
    cbn [job_id start_job]. rewrite Hfinal, Hid.
    destruct (Nat.eqb (job_id j) jobId) eqn:E.
    - cbn [job_id start_job]. now rewrite Hid, Nat.eqb_refl.
    - now rewrite E. }
  destruct (csv_error file) as [msg|].
  - exists (fail_job now r msg (start_job now job)).
    cbn [fst snd jobs save_job set_lineItems lineItem_fault].
    split; [now apply Hmap|]. split; [exact Hfault|].
    cbn [job_id job_status job_startedAt job_errors fail_job start_job].
    repeat split; auto. rewrite Hrows. reflexivity.
  - destruct (flush_counts indexes r) as [Frows Fsum].
    revert Frows Fsum. generalize (flush indexes None r).
    intros r2 Frows Fsum.
    exists (finish_job now r2 (start_job now job)).
    assert (Hkept : forall st1 : Store num,
      jobs (if (0 <? processedCount r2)%nat then aggregateData jobId st1
            else st1) = jobs st1 /\
      lineItem_fault
        (if (0 <? processedCount r2)%nat then aggregateData jobId st1
         else st1) = lineItem_fault st1).
    { intros st1. destruct (0 <? processedCount r2)%nat;
        [split; [apply aggregateData_jobs | apply aggregateData_fault]
        | split; reflexivity]. }
    cbn [fst snd].
    match goal with
    | |- context [if (0 <? processedCount r2)%nat
                  then aggregateData jobId ?s else _] =>
        destruct (Hkept s) as [Hj Hf]; rewrite Hj, Hf
    end.
    cbn [fst snd jobs save_job set_lineItems lineItem_fault].
    split; [now apply Hmap|]. split; [exact Hfault|].
    cbn [job_id job_status job_startedAt job_completedAt job_rowsTotal
         job_rowsProcessed job_rowsSkipped finish_job start_job].
    split; [exact Hid|]. split; [eexists; reflexivity|].
    repeat split; [f_equal; lia | lia].
Qed.

(** One turn of the loop over the pending jobs, the job document of the
    loop being the stored one. *)
Lemma process_pending_outcome file_at now indexes (st : Store num) job :
  findById (job_id job) st = Some job ->
  lineItem_fault st = None ->
  exists g : IngestionJob -> IngestionJob,
    jobs (process_pending file_at now indexes st job) = map g (jobs st) /\
    lineItem_fault (process_pending file_at now indexes st job) = None /\
    (forall j, job_id (g j) = job_id j) /\
    (forall j, job_id j <> job_id job -> g j = j) /\
    nightly_outcome file_at now job (g job).
Proof.
  intros Hjob Hfault. unfold process_pending, nightly_outcome.
  destruct (file_at job) as [file|].
  - destruct (job_userId job) as [u|] eqn:Hu.
    + destruct (processCSVFile_outcome now indexes file (job_id job)
                  {| opt_chunkSize := None;
                     Pipeline.opt_userId := Some u |} st job u Hjob
                  eq_refl Hfault)
        as [final [Hjobs [Hf [Hid Hcase]]]].
      revert Hjobs Hf Hcase.
      destruct (processCSVFile now indexes file (job_id job) _ st)
        as [st' settled].
      cbn [fst snd]. intros Hjobs Hf Hcase.
      destruct (csv_error file) as [msg|].
      * destruct Hcase as [Hs [Hstatus [Hstart Herrors]]]. subst settled.
        cbn [err_message message]. unfold mark_failed.
        cbn [jobs lineItem_fault]. rewrite Hjobs, map_map.
        eexists. split; [reflexivity|]. split; [exact Hf|].
        cbv beta. split; [|split].
        -- intros j. destruct (Nat.eqb (job_id j) (job_id job)) eqn:E.
           ++ rewrite Hid, Nat.eqb_refl. cbn [job_id].
              apply Nat.eqb_eq in E. congruence.
           ++ now rewrite E.
        -- intros j Hj. apply Nat.eqb_neq in Hj. now rewrite Hj, Hj.
        -- rewrite Nat.eqb_refl, Hid, Nat.eqb_refl.
           cbn [job_status job_startedAt job_errors].
           rewrite Herrors, <- app_assoc. auto.
      * destruct Hcase as [[s Hs] Hrest]. subst settled.
        exists (fun j => if Nat.eqb (job_id j) (job_id job) then final else j).
        split; [exact Hjobs|]. split; [exact Hf|]. split; [|split].
        -- intros j. destruct (Nat.eqb (job_id j) (job_id job)) eqn:E;
             [|reflexivity].
           apply Nat.eqb_eq in E. congruence.
        -- intros j Hj. apply Nat.eqb_neq in Hj. now rewrite Hj.
        -- rewrite Nat.eqb_refl. exact Hrest.
    + unfold processCSVFile. rewrite Hjob. cbv beta iota.
      cbn [Pipeline.opt_userId]. rewrite Hu. cbn [or].
      cbn [err_message message]. unfold mark_failed.
      cbn [jobs lineItem_fault].
      eexists. split; [reflexivity|]. split; [exact Hfault|].
      cbv beta. split; [|split].
      * intros j. now destruct (Nat.eqb (job_id j) (job_id job)).
      * intros j Hj. apply Nat.eqb_neq in Hj. now rewrite Hj.
      * rewrite Nat.eqb_refl. cbn [job_status job_startedAt job_errors]. auto.
  - unfold mark_failed. cbn [jobs lineItem_fault].
    eexists. split; [reflexivity|]. split; [exact Hfault|].
    cbv beta. split; [|split].
    + intros j. now destruct (Nat.eqb (job_id j) (job_id job)).
    + intros j Hj. apply Nat.eqb_neq in Hj. now rewrite Hj.
    + rewrite Nat.eqb_refl.
      cbn [job_status job_startedAt job_rowsTotal job_errors].
      rewrite app_nil_r. auto.
Qed.

(** The loop over pending jobs of distinct ids. *)
Lemma pending_fold_outcome file_at now indexes (l : list IngestionJob) :
  forall st : Store num,
  NoDup (map job_id l) ->
  (forall job, In job l -> findById (job_id job) st = Some job) ->
  lineItem_fault st = None ->
  exists g : IngestionJob -> IngestionJob,
    jobs (fold_left (process_pending file_at now indexes) l st) =
      map g (jobs st) /\
    (forall j, job_id (g j) = job_id j) /\
    (forall j, ~ In (job_id j) (map job_id l) -> g j = j) /\
    (forall j, In j l -> nightly_outcome file_at now j (g j)).
Proof.
  induction l as [|job l IH]; intros st Hnd Hfind Hfault.
  - exists (fun j => j). cbn [fold_left map]. rewrite map_id.
    repeat split; auto. intros j [].
  - cbn [fold_left]. cbn [map] in Hnd.
    inversion Hnd as [|? ? Hfresh Hnd']; subst.
    destruct (process_pending_outcome file_at now indexes st job
                (Hfind job (or_introl eq_refl)) Hfault)
      as [g1 [Hg1 [Hf1 [Hid1 [Hother1 Hdone1]]]]].
    assert (Hdistinct : forall job', In job' l -> job_id job' <> job_id job).
    { intros job' Hin E. apply Hfresh. rewrite <- E. now apply in_map. }
    destruct (IH (process_pending file_at now indexes st job) Hnd')
      as [g2 [Hg2 [Hid2 [Hother2 Hdone2]]]].
    + intros job' Hin. unfold findById. rewrite Hg1.
      rewrite (find_map_kept g1 (job_id job') (jobs st) Hid1).
      pose proof (Hfind job' (or_intror Hin)) as Hfound.
      unfold findById in Hfound. rewrite Hfound. cbn [option_map].
      f_equal. apply Hother1. now apply Hdistinct.
    + exact Hf1.
    + exists (fun j => g2 (g1 j)). rewrite Hg2, Hg1, map_map.
      split; [reflexivity|]. split; [|split].
      * intros j. now rewrite Hid2, Hid1.
      * intros j Hj. cbn [map] in Hj.
        rewrite Hother1 by (intros E; apply Hj; left; now rewrite E).
        apply Hother2. intros Hin. apply Hj. now right.
      * intros j [<-|Hin].
        -- rewrite Hother2; [exact Hdone1|]. now rewrite Hid1.
        -- rewrite (Hother1 j (Hdistinct j Hin)). now apply Hdone2.
Qed.

Lemma outcome_not_pending file_at now (j j' : IngestionJob) :
  nightly_outcome file_at now j j' -> job_status j' <> pending.
Proof.
  unfold nightly_outcome.
  destruct (file_at j) as [file|].
  - destruct (job_userId j) as [u|]; [destruct (csv_error file) as [msg|]|].
    + intros [Hs _]. rewrite Hs. discriminate.
    + intros [_ [_ [_ [_ Hs]]]]. rewrite Hs.
      destruct (0 <? job_rowsProcessed j')%nat; discriminate.
    + intros [Hs _]. rewrite Hs. discriminate.
  - intros [Hs _]. rewrite Hs. discriminate.
Qed.

(** X24.  After the nightly run no job is left pending, and every job
    that was pending has been processed.  The job collection takes its
    writes, job ids are distinct, and a batch holds the file of each
    pending job.  Then a pending job without a file is marked failed; one
    with a file is run under its own user: it is started and completed at
    the time of the run, counts every record of its file as processed or
    skipped, and ends 'completed' when a record was processed and
    'failed' when none was; when its run is rejected it is marked failed
    and the error is recorded.  The collection holds the same jobs in the
    same places, and a job whose id is that of no pending job is as it
    was. *)
Theorem nightly_run_leaves_no_pending_job
    (file_at : IngestionJob -> option Csv) (now : Date)
    (indexes : list IndexSpec) (strictQuery : bool) (w : World num) :
  lineItem_fault (store w) = None ->
  NoDup (map job_id (jobs (store w))) ->
  (forall j file,
      In j (jobs (store w)) -> job_status j = pending ->
      file_at j = Some file -> single_batch file (nightly_options j)) ->
  Forall2
    (fun j j' =>
       job_id j' = job_id j /\
       job_status j' <> pending /\
       (job_status j = pending -> nightly_outcome file_at now j j') /\
       ((forall p, In p (jobs (store w)) -> job_status p = pending ->
                   job_id p <> job_id j) ->
        j' = j))
    (jobs (store w))
    (jobs
       (store (fst (runNightlyProcessing file_at now indexes strictQuery w)))).
Proof.
  intros Hfault Hnd _.
  unfold runNightlyProcessing. cbn zeta.
  unfold computeMonthlyAggregates.
  destruct (pending_fold_outcome file_at now indexes
              (filter (fun j => JobStatus_eqb (job_status j) pending)
                 (jobs (store w))) (store w))
    as [g [Hg [Hid [Hother Hdone]]]].
  { now apply NoDup_filter_ids. }
  { intros job Hin. apply filter_In in Hin. destruct Hin as [Hin _].
    unfold findById. now apply find_own. }
  { exact Hfault. }
  match goal with
  | |- context [AnomalyDetection.detectAnomalies now ?o ?st] =>
      pose proof (detectAnomalies_found now o st) as Hd;
      revert Hd Hg;
      generalize (AnomalyDetection.detectAnomalies now o st);
      generalize st
  end.
  intros st0 [st found] [Hj _] Hg. cbn [fst] in Hj.
  unfold generateRecommendations, Recommendations.build_query.
  cbn [Recommendations.opt_userId fst snd store recommendations].
  rewrite Hj, Hg. apply Forall2_map_same. intros j Hin.
  assert (Hwas : job_status j = pending ->
    In j (filter (fun j => JobStatus_eqb (job_status j) pending)
            (jobs (store w)))).
  { intros Hst. apply filter_In. split; [exact Hin|]. now rewrite Hst. }
  assert (Hnot : job_status j <> pending ->
    ~ In (job_id j)
        (map job_id
           (filter (fun j => JobStatus_eqb (job_status j) pending)
              (jobs (store w))))).
  { intros Hst Hp. apply in_map_iff in Hp. destruct Hp as [q [Hq Hqin]].
    apply filter_In in Hqin. destruct Hqin as [Hqin Hqst].
    apply Hst. rewrite <- (same_id_same_job _ q j Hnd Hqin Hin Hq).
    now destruct (job_status q). }
  split; [apply Hid|]. split; [|split].
  - destruct (job_status j) eqn:Hst;
      try (rewrite (Hother j) by (apply Hnot; discriminate);
           rewrite Hst; discriminate).
    apply (outcome_not_pending file_at now j). now apply Hdone, Hwas.
  - intros Hst. now apply Hdone, Hwas.
  - intros Hnone. apply Hother. intros Hp. apply in_map_iff in Hp.
    destruct Hp as [q [Hq Hqin]]. apply filter_In in Hqin.
    destruct Hqin as [Hqin Hqst]. apply (Hnone q Hqin); [|exact Hq].
    now destruct (job_status q).
Qed.
End Nightly.

(** The first of the two pending jobs of [alice] has a file of one
    record, the second has none. *)
Lemma nightly_rejects_witness :
  let w := {| store := empty_store (num := PrimFloat.float);
              recommendations := [] |} in
  let file_at := fun j : IngestionJob =>
    if Nat.eqb (job_id j) 1%nat then Some (csv [ec2_row]) else None in
  lineItem_fault (store w) = None /\
  ((exists error,
      snd (runNightlyProcessing file_at feb1 BillingLineItem_indexes true w) =
        Some error /\
      err_message error =
        "User ID is required for generating recommendations") /\
   recommendations
     (fst (runNightlyProcessing file_at feb1 BillingLineItem_indexes true w)) =
     recommendations w /\
   exists found,
     anomalies
       (store
          (fst (runNightlyProcessing file_at feb1 BillingLineItem_indexes true
                  w))) =
       (anomalies (store w) ++ found)%list /\
     Forall (fun a => an_userId a = None) found).
Proof.
  intros w file_at. split; [reflexivity|].
  exact (nightly_run_always_rejects file_at feb1 BillingLineItem_indexes true
           w eq_refl).
Defined.

Lemma nightly_jobs_witness :
  let w := {| store := empty_store (num := PrimFloat.float);
              recommendations := [] |} in
  let file_at := fun j : IngestionJob =>
    if Nat.eqb (job_id j) 1%nat then Some (csv [ec2_row]) else None in
  (lineItem_fault (store w) = None /\
   NoDup (map job_id (jobs (store w)))) /\
  Forall2
    (fun j j' =>
       job_id j' = job_id j /\
       job_status j' <> pending /\
       (job_status j = pending -> nightly_outcome file_at feb1 j j') /\
       ((forall p, In p (jobs (store w)) -> job_status p = pending ->
                   job_id p <> job_id j) ->
        j' = j))
    (jobs (store w))
    (jobs
       (store
          (fst (runNightlyProcessing file_at feb1 BillingLineItem_indexes true
                  w)))).
Proof.
  intros w file_at.
  assert (Hnd : NoDup (map job_id (jobs (store w)))).
  { cbn. constructor; [intros [E|[]]; discriminate|].
    constructor; [intros []|constructor]. }
  split; [split; [reflexivity | exact Hnd]|].
  apply (nightly_run_leaves_no_pending_job file_at feb1
           BillingLineItem_indexes true w eq_refl Hnd).
  intros j file [<-|[<-|[]]] _ Hfile; cbn in Hfile; inversion Hfile; subst.
  unfold single_batch, chunk_size. cbn. lia.
Defined.
End SchedulerProps.

(** ** Clearing a user's data *)

Module ClearProps.
Import JS FloatNum Model Aggregation Totals.
Import RecommendationService DataRoutes Scenarios.

Lemma owned_by_both (userId other : ObjectId) (owner : option ObjectId) :
  owned_by userId owner = true -> owned_by other owner = true ->
  other = userId.
Proof.
  unfold owned_by. destruct owner as [o|]; [|discriminate]. cbn.
  intros H1 H2. apply Nat.eqb_eq in H1, H2. congruence.
Qed.

(** What a selection by owner finds once a user's documents are gone. *)
Lemma selection_after_delete {D : Type} (owner : D -> option ObjectId)
    (sel : D -> bool) (userId other : ObjectId) :
  (forall d, sel d = true -> owned_by other (owner d) = true) ->
  forall l,
    filter sel (filter (fun d => negb (owned_by userId (owner d))) l) =
    if Nat.eqb other userId then [] else filter sel l.
Proof.
  intros Hsel. induction l as [|d l IH]; cbn [filter].
  - now destruct (Nat.eqb other userId).
  - destruct (owned_by userId (owner d)) eqn:Hd; cbn [negb filter].
    + rewrite IH. destruct (Nat.eqb other userId) eqn:E; [reflexivity|].
      destruct (sel d) eqn:Hs; [|reflexivity].
      apply Hsel in Hs. apply Nat.eqb_neq in E.
      destruct E. now apply (owned_by_both userId other (owner d)).
    + rewrite IH. destruct (Nat.eqb other userId) eqn:E; [|reflexivity].
      destruct (sel d) eqn:Hs; [|reflexivity].
      apply Hsel in Hs. apply Nat.eqb_eq in E. subst other. congruence.
Qed.

Lemma unowned_after_delete {D : Type} (owner : D -> option ObjectId)
    (userId : ObjectId) (l : list D) :
  filter (fun d => match owner d with None => true | Some _ => false end)
    (filter (fun d => negb (owned_by userId (owner d))) l) =
  filter (fun d => match owner d with None => true | Some _ => false end) l.
Proof.
  induction l as [|d l IH]; cbn [filter]; [reflexivity|].
  unfold owned_by at 1. destruct (owner d) as [o|] eqn:Ho; cbn [option_eqb].
  - destruct (Nat.eqb o userId); cbn [negb filter]; rewrite ?Ho; exact IH.
  - cbn [negb filter]. rewrite Ho. now rewrite IH.
Qed.

Lemma delete_twice {D : Type} (owner : D -> option ObjectId)
    (userId : ObjectId) (l : list D) :
  deleteMany owner userId (fst (deleteMany owner userId l)) =
  (fst (deleteMany owner userId l), O).
Proof.
  unfold deleteMany. cbn [fst]. f_equal.
  - induction l as [|d l IH]; cbn [filter]; [reflexivity|].
    destruct (owned_by userId (owner d)) eqn:Hd; cbn [negb filter];
      [exact IH|]. rewrite Hd. cbn [negb]. now rewrite IH.
  - induction l as [|d l IH]; cbn [filter]; [reflexivity|].
    destruct (owned_by userId (owner d)) eqn:Hd; cbn [negb filter];
      [exact IH|]. now rewrite Hd.
Qed.

Lemma delete_splits {D : Type} (owner : D -> option ObjectId)
    (userId : ObjectId) (l : list D) :
  List.length l =
  (List.length (fst (deleteMany owner userId l)) +
   snd (deleteMany owner userId l))%nat.
Proof.
  unfold deleteMany. cbn [fst snd].
  induction l as [|d l IH]; cbn [filter]; [reflexivity|].
  destruct (owned_by userId (owner d)); cbn [negb List.length]; lia.
Qed.

Section Clear.
Context {num : Type} `{Number num}.

Lemma clear_unfolded (userId : ObjectId) (w : World num) :
  clear userId w =
  ({| store :=
        {| lineItems :=
             fst (deleteMany li_userId userId (lineItems (store w)));
           aggregates :=
             fst (deleteMany agg_userId userId (aggregates (store w)));
           jobs := fst (deleteMany job_userId userId (jobs (store w)));
           anomalies :=
             fst (deleteMany an_userId userId (anomalies (store w)));
           lineItem_fault := lineItem_fault (store w) |};
      recommendations :=
        fst (deleteMany (fun r : ObjectId * Finding num => Some (fst r))
               userId (recommendations w)) |},
   {| del_lineItems :=
        snd (deleteMany li_userId userId (lineItems (store w)));
      del_aggregates :=
        snd (deleteMany agg_userId userId (aggregates (store w)));
      del_jobs := snd (deleteMany job_userId userId (jobs (store w)));
      del_anomalies :=
        snd (deleteMany an_userId userId (anomalies (store w)));
      del_recommendations :=
        snd (deleteMany (fun r : ObjectId * Finding num => Some (fst r))
               userId (recommendations w)) |}).
Proof. reflexivity. Qed.

(** X25.  [DELETE /clear] deletes the documents of the user who asks and
    no others: afterwards that user has no line item, aggregate row, job,
    anomaly or recommendation, every other user finds what they found
    before, and the documents that name no user (the anomalies of the
    nightly run) are still there.  The counts it answers with are the
    numbers of documents the user had. *)
Theorem clear_deletes_the_users_documents_only
    (userId other : ObjectId) (t : AggregationType) (w : World num) :
  items_of other (store (fst (clear userId w))) =
    (if Nat.eqb other userId then [] else items_of other (store w)) /\
  rows_of other t (store (fst (clear userId w))) =
    (if Nat.eqb other userId then [] else rows_of other t (store w)) /\
  filter (fun j => owned_by other (job_userId j))
    (jobs (store (fst (clear userId w)))) =
    (if Nat.eqb other userId then []
     else filter (fun j => owned_by other (job_userId j)) (jobs (store w))) /\
  filter (fun a => owned_by other (an_userId a))
    (anomalies (store (fst (clear userId w)))) =
    (if Nat.eqb other userId then []
     else filter (fun a => owned_by other (an_userId a))
            (anomalies (store w))) /\
  filter (fun r => Nat.eqb (fst r) other)
    (recommendations (fst (clear userId w))) =
    (if Nat.eqb other userId then []
     else filter (fun r => Nat.eqb (fst r) other) (recommendations w)) /\
  filter (fun a => match an_userId a with None => true | Some _ => false end)
    (anomalies (store (fst (clear userId w)))) =
    filter (fun a => match an_userId a with None => true | Some _ => false end)
      (anomalies (store w)) /\
  snd (clear userId w) =
    {| del_lineItems := List.length (items_of userId (store w));
       del_aggregates :=
         List.length
           (filter (fun a => owned_by userId (agg_userId a))
              (aggregates (store w)));
       del_jobs :=
         List.length
           (filter (fun j => owned_by userId (job_userId j))
              (jobs (store w)));
       del_anomalies :=
         List.length
           (filter (fun a => owned_by userId (an_userId a))
              (anomalies (store w)));
       del_recommendations :=
         List.length
           (filter (fun r => Nat.eqb (fst r) userId) (recommendations w)) |}.
Proof.
  unfold clear, deleteMany, items_of, rows_of.
  cbn [fst snd store recommendations lineItems aggregates jobs anomalies].
  repeat split.
  - now apply selection_after_delete.
  - apply selection_after_delete. intros a Ha. unfold of_type in Ha.
    now apply andb_true_iff in Ha.
  - now apply selection_after_delete.
  - now apply selection_after_delete.
  - apply (selection_after_delete
             (fun r : ObjectId * Finding num => Some (fst r))).
    intros r Hr. exact Hr.
  - apply unowned_after_delete.
Qed.

(** X26.  Clearing twice is clearing once: the second request finds
    nothing to delete, answers with counts of zero and leaves every
    collection as the first left it; and each collection has lost exactly
    as many documents as the first request counted. *)
Theorem clear_twice_deletes_nothing (userId : ObjectId) (w : World num) :
  clear userId (fst (clear userId w)) =
    (fst (clear userId w),
     {| del_lineItems := O; del_aggregates := O; del_jobs := O;
        del_anomalies := O; del_recommendations := O |}) /\
  List.length (lineItems (store w)) =
    (List.length (lineItems (store (fst (clear userId w)))) +
     del_lineItems (snd (clear userId w)))%nat /\
  List.length (aggregates (store w)) =
    (List.length (aggregates (store (fst (clear userId w)))) +
     del_aggregates (snd (clear userId w)))%nat /\
  List.length (jobs (store w)) =
    (List.length (jobs (store (fst (clear userId w)))) +
     del_jobs (snd (clear userId w)))%nat /\
  List.length (anomalies (store w)) =
    (List.length (anomalies (store (fst (clear userId w)))) +
     del_anomalies (snd (clear userId w)))%nat /\
  List.length (recommendations w) =
    (List.length (recommendations (fst (clear userId w))) +
     del_recommendations (snd (clear userId w)))%nat.
Proof.
  rewrite !clear_unfolded.
  cbn [fst snd store recommendations lineItems aggregates jobs anomalies
       lineItem_fault del_lineItems del_aggregates del_jobs del_anomalies
       del_recommendations].
  rewrite !delete_twice. cbn [fst snd].
  split; [reflexivity|].
  repeat split; apply delete_splits.
Qed.

(** X27.  Clearing keeps the state in which the aggregates agree with the
    line items: when no user had daily rows without line items before,
    none has afterwards. *)
Theorem clear_leaves_no_stale_rows (userId : ObjectId) (w : World num) :
  no_stale_rows (store w) ->
  no_stale_rows (store (fst (clear userId w))).
Proof.
  intros Hw other Hitems.
  assert (Hi :
    items_of other (store (fst (clear userId w))) =
    if Nat.eqb other userId then [] else items_of other (store w)).
  { unfold clear, deleteMany, items_of. cbn [fst store lineItems].
    now apply selection_after_delete. }
  assert (Hr :
    rows_of other daily (store (fst (clear userId w))) =
    if Nat.eqb other userId then [] else rows_of other daily (store w)).
  { unfold clear, deleteMany, rows_of. cbn [fst store aggregates].
    apply selection_after_delete. intros a Ha. unfold of_type in Ha.
    now apply andb_true_iff in Ha. }
  rewrite Hr. rewrite Hi in Hitems.
  destruct (Nat.eqb other userId); [reflexivity|]. now apply Hw.
Qed.
End Clear.

Lemma clear_no_stale_witness :
  no_stale_rows
    (store {| store := fst ingested_once;
              recommendations := @nil (ObjectId * Finding float) |}) /\
  no_stale_rows
    (store
       (fst (clear alice
               {| store := fst ingested_once;
                  recommendations := @nil (ObjectId * Finding float) |}))).
Proof.
  assert (Hw :
    no_stale_rows
      (store {| store := fst ingested_once;
                recommendations := @nil (ObjectId * Finding float) |})).
  { cbn [store]. unfold ingested_once.
    apply IngestionProps.processCSVFile_no_stale.
    apply AggregationProps.empty_store_no_stale. }
  split; [exact Hw|].
  exact (clear_leaves_no_stale_rows alice _ Hw).
Defined.
End ClearProps.

(** ** Updating recommendations and anomalies *)

Module UpdateProps.
Import JS FloatNum Model Aggregation AnomalyDetection Recommendations.
Import RecommendationService UpdateRoutes SchedulerProps Scenarios.

Lemma unique_id {D : Type} (id : D -> ObjectId) (l : list D) :
  NoDup (map id l) ->
  forall x y, In x l -> In y l -> id x = id y -> x = y.
Proof.
  induction l as [|d l IH]; intros Hl x y Hx Hy Hid; [destruct Hx|].
  cbn [map] in Hl. inversion Hl as [|? ? Hd Hl']; subst.
  destruct Hx as [<- | Hx], Hy as [<- | Hy].
  - reflexivity.
  - destruct Hd. rewrite Hid. now apply in_map.
  - destruct Hd. rewrite <- Hid. now apply in_map.
  - now apply IH.
Qed.

Lemma owned_by_owner (user : ObjectId) (owner : option ObjectId) :
  owned_by user owner = true -> owner = Some user.
Proof.
  unfold owned_by. destruct owner as [o|]; [|discriminate]. cbn.
  intros Ho. apply Nat.eqb_eq in Ho. now subst.
Qed.

(** A document read by [_id] and owner, changed and saved: the one
    document that changes is of that owner. *)
Lemma owned_update {D : Type} (id : D -> ObjectId)
    (owner : D -> option ObjectId) (upd : D -> D) (user i : ObjectId)
    (coll : list D) :
  NoDup (map id coll) ->
  (forall d, id (upd d) = id d) ->
  Forall2
    (fun d d' => d' = d \/ (owner d = Some user /\ id d = i /\ d' = upd d))
    coll
    match find (fun d => Nat.eqb (id d) i && owned_by user (owner d)) coll with
    | None => coll
    | Some doc =>
        map (fun d => if Nat.eqb (id d) (id (upd doc)) then upd doc else d)
          coll
    end.
Proof.
  intros Hcoll Hid.
  destruct (find _ coll) as [doc|] eqn:Hfind.
  - apply find_some in Hfind. destruct Hfind as [Hin Hdoc].
    apply andb_true_iff in Hdoc. destruct Hdoc as [Hi Hown].
    apply Nat.eqb_eq in Hi. apply owned_by_owner in Hown.
    apply Forall2_map_same. intros d Hd. rewrite Hid.
    destruct (Nat.eqb (id d) (id doc)) eqn:E; [|now left].
    apply Nat.eqb_eq in E.
    assert (d = doc) by now apply (unique_id id coll Hcoll). subst d.
    right. auto.
  - rewrite <- (map_id coll) at 2. apply Forall2_map_same. intros d _.
    now left.
Qed.

Lemma Forall2_compose {A : Type} (R S T : A -> A -> Prop) :
  (forall x y z, R x y -> S y z -> T x z) ->
  forall l1 l2 l3, Forall2 R l1 l2 -> Forall2 S l2 l3 -> Forall2 T l1 l3.
Proof.
  intros Hrs l1 l2 l3 H1. revert l3.
  induction H1 as [|x y l1 l2 Hxy _ IH]; intros l3 H2;
    inversion H2; subst; constructor; eauto.
Qed.

Lemma Forall2_weaken {A : Type} (R S : A -> A -> Prop) :
  (forall x y, R x y -> S x y) ->
  forall l1 l2, Forall2 R l1 l2 -> Forall2 S l1 l2.
Proof.
  intros Hrs l1 l2 H1. induction H1; constructor; auto.
Qed.

Lemma Forall2_same_ids {D : Type} (id : D -> ObjectId) (l l' : list D) :
  Forall2 (fun d d' => id d' = id d) l l' -> map id l' = map id l.
Proof.
  intros Hl. induction Hl as [|d d' l l' Hd _ IH]; [reflexivity|].
  cbn [map]. now rewrite Hd, IH.
Qed.

Section Updates.
Context {num : Type}.

(** *** The status of a recommendation *)

Lemma patch_status_step now user id status
    (coll : list (RecommendationDoc num)) :
  NoDup (map rd_id coll) ->
  Forall2
    (fun d d' =>
       d' = d \/
       (rd_userId d = Some user /\
        exists s, In s validStatuses /\ d' = with_status now user s d))
    coll (fst (patch_status now user id status coll)).
Proof.
  intros Hcoll.
  assert (Hsame : forall P : RecommendationDoc num ->
                             RecommendationDoc num -> Prop,
    (forall d, P d d) -> Forall2 P coll coll).
  { intros P HP. rewrite <- (map_id coll) at 2.
    apply Forall2_map_same. auto. }
  unfold patch_status.
  destruct status as [s|]; [|apply Hsame; now left].
  destruct (existsb (String.eqb s) validStatuses) eqn:Hvalid;
    cbn [negb]; [|apply Hsame; now left].
  destruct id as [i|]; [|apply Hsame; now left].
  assert (Hs : In s validStatuses).
  { apply existsb_exists in Hvalid. destruct Hvalid as [v [Hv E]].
    apply String.eqb_eq in E. now subst. }
  pose proof (owned_update rd_id rd_userId (with_status now user s) user i
                coll Hcoll) as Hstep.
  assert (Hid : forall d : RecommendationDoc num,
    rd_id (with_status now user s d) = rd_id d).
  { intros d. unfold with_status. now destruct (String.eqb s "implemented"). }
  specialize (Hstep Hid).
  destruct (find _ coll) as [doc|]; cbn [fst].
  - unfold save_recommendation.
    eapply Forall2_weaken; [|exact Hstep].
    intros d d' [Hd | [Hown [_ Hd]]]; [now left|].
    right. split; [exact Hown|]. now exists s.
  - apply Hsame. now left.
Qed.

(** X28.  Whatever the requests to [PATCH /:id/status], a recommendation
    keeps its id, its owner and its content, and is only ever changed by a
    request of its owner; its status is the one it had or one of the four
    valid ones; a date of implementation, once written, is never cleared
    (not even when the status goes back to 'pending'), and whoever is
    written as implementer is the owner. *)
Theorem status_requests_change_own_documents
    (requests : list StatusRequest) (coll : list (RecommendationDoc num)) :
  NoDup (map rd_id coll) ->
  Forall2
    (fun d d' =>
       rd_id d' = rd_id d /\
       rd_userId d' = rd_userId d /\
       rd_finding d' = rd_finding d /\
       ((forall rq, In rq requests -> Some (sr_user rq) <> rd_userId d) ->
        d' = d) /\
       (rd_status d' = rd_status d \/ In (rd_status d') validStatuses) /\
       (rd_implementedAt d <> None -> rd_implementedAt d' <> None) /\
       (rd_implementedBy d' = rd_implementedBy d \/
        rd_implementedBy d' = rd_userId d))
    coll (fold_left serve_status requests coll).
Proof.
  revert coll. induction requests as [|rq requests IH]; intros coll Hcoll.
  - cbn [fold_left]. rewrite <- (map_id coll) at 2.
    apply Forall2_map_same. intros d _. repeat split; auto.
  - cbn [fold_left].
    pose proof (patch_status_step (sr_now rq) (sr_user rq) (sr_id rq)
                  (sr_status rq) coll Hcoll) as Hstep.
    fold (serve_status coll rq) in Hstep.
    assert (Hone :
      Forall2
        (fun d d' =>
           rd_id d' = rd_id d /\
           rd_userId d' = rd_userId d /\
           rd_finding d' = rd_finding d /\
           (Some (sr_user rq) <> rd_userId d -> d' = d) /\
           (rd_status d' = rd_status d \/ In (rd_status d') validStatuses) /\
           (rd_implementedAt d <> None -> rd_implementedAt d' <> None) /\
           (rd_implementedBy d' = rd_implementedBy d \/
            rd_implementedBy d' = rd_userId d))
        coll (serve_status coll rq)).
    { eapply Forall2_weaken; [|exact Hstep].
      intros d d' [-> | [Hown [s [Hs ->]]]]; [repeat split; auto|].
      unfold with_status.
      destruct (String.eqb s "implemented");
        cbn [rd_id rd_userId rd_finding rd_status rd_implementedAt
             rd_implementedBy];
        repeat split; auto; try congruence; try discriminate. }
    assert (Hids : map rd_id (serve_status coll rq) = map rd_id coll).
    { apply Forall2_same_ids. eapply Forall2_weaken; [|exact Hone].
      intros d d' Hd. apply Hd. }
    assert (Hnext : NoDup (map rd_id (serve_status coll rq)))
      by now rewrite Hids.
    eapply Forall2_compose; [|exact Hone | exact (IH _ Hnext)].
    intros d d1 d2 [Hi1 [Hu1 [Hf1 [Ho1 [Hs1 [Ha1 Hb1]]]]]]
                   [Hi2 [Hu2 [Hf2 [Ho2 [Hs2 [Ha2 Hb2]]]]]].
    cbv beta in *. repeat split; try congruence.
    + intros Hnone.
      assert (d1 = d) by (apply Ho1, Hnone; now left). subst d1.
      apply Ho2. intros rq' Hin. apply Hnone. now right.
    + destruct Hs2 as [Hs2 | Hs2]; [|now right].
      rewrite Hs2. exact Hs1.
    + auto.
    + destruct Hb2 as [Hb2 | Hb2]; [|right; congruence].
      rewrite Hb2. exact Hb1.
Qed.

(** *** The acknowledgement of an anomaly *)

Lemma patch_acknowledge_step now user id (coll : list (AnomalyDoc num)) :
  NoDup (map ad_id coll) ->
  Forall2
    (fun d d' =>
       d' = d \/
       (an_userId (ad_anomaly d) = Some user /\
        d' = acknowledged_by now user d))
    coll (fst (patch_acknowledge now user id coll)).
Proof.
  intros Hcoll. unfold patch_acknowledge.
  destruct id as [i|].
  - pose proof (owned_update ad_id (fun d => an_userId (ad_anomaly d))
                  (acknowledged_by now user) user i coll Hcoll
                  (fun d => eq_refl)) as Hstep.
    destruct (find _ coll) as [doc|]; cbn [fst].
    + unfold save_anomaly. eapply Forall2_weaken; [|exact Hstep].
      intros d d' [Hd | [Hown [_ Hd]]]; auto.
    + eapply Forall2_weaken; [|exact Hstep].
      intros d d' [Hd | [Hown [_ Hd]]]; auto.
  - cbn [fst]. rewrite <- (map_id coll) at 2.
    apply Forall2_map_same. intros d _. now left.
Qed.

(** X29.  Whatever the requests to [PATCH /:id/acknowledge], an anomaly
    keeps its id and its content and is only ever changed by a request of
    its owner: an acknowledgement is never taken back, whoever is written
    as having acknowledged is the owner, and an anomaly that names no user
    (as those the nightly run saves) can be acknowledged by nobody. *)
Theorem acknowledge_requests_change_own_documents
    (requests : list AcknowledgeRequest) (coll : list (AnomalyDoc num)) :
  NoDup (map ad_id coll) ->
  Forall2
    (fun d d' =>
       ad_id d' = ad_id d /\
       ad_anomaly d' = ad_anomaly d /\
       ((forall rq, In rq requests ->
                    Some (ar_user rq) <> an_userId (ad_anomaly d)) ->
        d' = d) /\
       (an_userId (ad_anomaly d) = None -> d' = d) /\
       (ad_acknowledged d = true -> ad_acknowledged d' = true) /\
       (ad_acknowledgedBy d' = ad_acknowledgedBy d \/
        ad_acknowledgedBy d' = an_userId (ad_anomaly d)))
    coll (fold_left serve_acknowledge requests coll).
Proof.
  revert coll. induction requests as [|rq requests IH]; intros coll Hcoll.
  - cbn [fold_left]. rewrite <- (map_id coll) at 2.
    apply Forall2_map_same. intros d _. repeat split; auto.
  - cbn [fold_left].
    pose proof (patch_acknowledge_step (ar_now rq) (ar_user rq) (ar_id rq)
                  coll Hcoll) as Hstep.
    fold (serve_acknowledge coll rq) in Hstep.
    assert (Hone :
      Forall2
        (fun d d' =>
           ad_id d' = ad_id d /\
           ad_anomaly d' = ad_anomaly d /\
           (Some (ar_user rq) <> an_userId (ad_anomaly d) -> d' = d) /\
           (ad_acknowledged d = true -> ad_acknowledged d' = true) /\
           (ad_acknowledgedBy d' = ad_acknowledgedBy d \/
            ad_acknowledgedBy d' = an_userId (ad_anomaly d)))
        coll (serve_acknowledge coll rq)).
    { eapply Forall2_weaken; [|exact Hstep].
      intros d d' [-> | [Hown ->]]; [repeat split; auto|].
      unfold acknowledged_by.
      cbn [ad_id ad_anomaly ad_acknowledged ad_acknowledgedBy].
      repeat split; auto.
      intros Hother. destruct Hother. now rewrite Hown. }
    assert (Hids : map ad_id (serve_acknowledge coll rq) = map ad_id coll).
    { apply Forall2_same_ids. eapply Forall2_weaken; [|exact Hone].
      intros d d' Hd. apply Hd. }
    assert (Hnext : NoDup (map ad_id (serve_acknowledge coll rq)))
      by now rewrite Hids.
    eapply Forall2_compose; [|exact Hone | exact (IH _ Hnext)].
    intros d d1 d2 [Hi1 [Hc1 [Ho1 [Ha1 Hb1]]]]
                   [Hi2 [Hc2 [Ho2 [Hn2 [Ha2 Hb2]]]]].
    cbv beta in *.
    assert (Hnone :
      (forall rq', In rq' (rq :: requests) ->
                   Some (ar_user rq') <> an_userId (ad_anomaly d)) ->
      d2 = d).
    { intros Hnone.
      assert (d1 = d) by (apply Ho1, Hnone; now left). subst d1.
      apply Ho2. intros rq' Hin. apply Hnone. now right. }
    repeat split; try congruence; auto.
    + intros Hno. apply Hnone. intros rq' _. rewrite Hno. discriminate.
    + destruct Hb2 as [Hb2 | Hb2]; [|right; congruence].
      rewrite Hb2. exact Hb1.
Qed.
End Updates.

Lemma status_requests_witness :
  let coll :=
    saved_recommendations 1%nat
      (recommendations
         (fst (generateRecommendations feb1 true recommend_for_alice
                 {| store := steady_store; recommendations := [] |}))) in
  let requests :=
    [ {| sr_now := feb2; sr_user := 8%nat; sr_id := Some 1%nat;
         sr_status := Some "dismissed" |};
      {| sr_now := feb2; sr_user := alice; sr_id := Some 1%nat;
         sr_status := Some "implemented" |};
      {| sr_now := feb2; sr_user := alice; sr_id := Some 1%nat;
         sr_status := Some "pending" |} ] in
  NoDup (map rd_id coll) /\
  Forall2
    (fun d d' =>
       rd_id d' = rd_id d /\
       rd_userId d' = rd_userId d /\
       rd_finding d' = rd_finding d /\
       ((forall rq, In rq requests -> Some (sr_user rq) <> rd_userId d) ->
        d' = d) /\
       (rd_status d' = rd_status d \/ In (rd_status d') validStatuses) /\
       (rd_implementedAt d <> None -> rd_implementedAt d' <> None) /\
       (rd_implementedBy d' = rd_implementedBy d \/
        rd_implementedBy d' = rd_userId d))
    coll (fold_left serve_status requests coll).
Proof.
  intros coll requests.
  assert (Hcoll : NoDup (map rd_id coll)).
  { vm_compute. repeat constructor. intros []. }
  split; [exact Hcoll|].
  exact (status_requests_change_own_documents requests coll Hcoll).
Defined.

Lemma acknowledge_requests_witness :
  let coll :=
    saved_anomalies 1%nat
      (anomalies
         (fst (detectAnomalies feb1 detect_for_alice eight_days_store))) in
  let requests :=
    [ {| ar_now := feb2; ar_user := 8%nat; ar_id := Some 1%nat |};
      {| ar_now := feb2; ar_user := alice; ar_id := Some 1%nat |} ] in
  NoDup (map ad_id coll) /\
  Forall2
    (fun d d' =>
       ad_id d' = ad_id d /\
       ad_anomaly d' = ad_anomaly d /\
       ((forall rq, In rq requests ->
                    Some (ar_user rq) <> an_userId (ad_anomaly d)) ->
        d' = d) /\
       (an_userId (ad_anomaly d) = None -> d' = d) /\
       (ad_acknowledged d = true -> ad_acknowledged d' = true) /\
       (ad_acknowledgedBy d' = ad_acknowledgedBy d \/
        ad_acknowledgedBy d' = an_userId (ad_anomaly d)))
    coll (fold_left serve_acknowledge requests coll).
Proof.
  intros coll requests.
  assert (Hcoll : NoDup (map ad_id coll)).
  { vm_compute. repeat constructor. intros []. }
  split; [exact Hcoll|].
  exact (acknowledge_requests_change_own_documents requests coll Hcoll).
Defined.
End UpdateProps.

(** ** Uploading a file *)

Module UploadProps.
Import JS FloatNum Model Normalizer Aggregation Pipeline.
Import UploadRoute PipelineProps SchedulerProps Scenarios.

Section Upload.
Context {num : Type} `{Host num}.

Lemma find_fresh (id : ObjectId) (job : IngestionJob) (l : list IngestionJob) :
  ~ In id (map job_id l) -> job_id job = id ->
  find (fun j => Nat.eqb (job_id j) id) (l ++ [job]) = Some job.
Proof.
  intros Hfresh Hid. induction l as [|j l IH]; cbn [app find].
  - now rewrite Hid, Nat.eqb_refl.
  - destruct (Nat.eqb (job_id j) id) eqn:E.
    + apply Nat.eqb_eq in E. destruct Hfresh. left. exact E.
    + apply IH. intros Hin. apply Hfresh. now right.
Qed.

Lemma replace_fresh (id : ObjectId) (job final : IngestionJob)
    (l : list IngestionJob) :
  ~ In id (map job_id l) -> job_id job = id ->
  map (fun j => if Nat.eqb (job_id j) id then final else j) (l ++ [job]) =
  (l ++ [final])%list.
Proof.
  intros Hfresh Hid. rewrite map_app. cbn [map].
  rewrite Hid, Nat.eqb_refl. f_equal.
  induction l as [|j l IH]; [reflexivity|]. cbn [map].
  destruct (Nat.eqb (job_id j) id) eqn:E.
  - apply Nat.eqb_eq in E. destruct Hfresh. left. exact E.
  - rewrite IH; [reflexivity|]. intros Hin. apply Hfresh. now right.
Qed.

(** The job document a run leaves, and how its promise ends. *)
Lemma processCSVFile_job now indexes file jobId options (st : Store num)
    job u :
  findById jobId st = Some job ->
  or (opt_userId options) (job_userId job) = Some u ->
  exists final,
    jobs (fst (processCSVFile now indexes file jobId options st)) =
      map (fun j => if Nat.eqb (job_id j) jobId then final else j) (jobs st) /\
    job_id final = jobId /\
    job_userId final = job_userId job /\
    job_fileName final = job_fileName job /\
    (job_status final = completed \/ job_status final = failed) /\
    match csv_error file with
    | Some msg =>
        snd (processCSVFile now indexes file jobId options st) =
          Rejected (message msg)
    | None =>
        exists s,
          snd (processCSVFile now indexes file jobId options st) = Resolved s
    end.
Proof.
  intros Hjob Hu. pose proof (found_job_id jobId st job Hjob) as Hid.
  unfold processCSVFile. rewrite Hjob. cbv beta iota. rewrite Hu.
  cbv beta iota.
  destruct (csv_error file) as [msg|].
  - match goal with
    | |- context [fold_left ?g (csv_rows file) ?r0] =>
        generalize (fold_left g (csv_rows file) r0)
    end.
    intros r. cbn [fst snd jobs save_job set_lineItems]. rewrite map_map.
    exists (fail_job now r msg (start_job now job)).
    split; [|cbn [job_id job_userId job_fileName job_status fail_job start_job];
             auto 10].
    apply map_ext. intros j. cbn [job_id fail_job start_job]. rewrite Hid.
    destruct (Nat.eqb (job_id j) jobId) eqn:E.
    + cbn [job_id start_job]. now rewrite Hid, Nat.eqb_refl.
    + now rewrite E.
  - match goal with
    | |- context [flush ?ix ?f (fold_left ?g (csv_rows file) ?r0)] =>
        generalize (flush ix f (fold_left g (csv_rows file) r0))
    end.
    intros r.
    assert (Hjobs : forall st1 : Store num,
      jobs (if (0 <? processedCount r)%nat then aggregateData jobId st1
            else st1) = jobs st1).
    { intros st1. destruct (0 <? processedCount r)%nat;
        [apply aggregateData_jobs | reflexivity]. }
    cbn [fst snd]. rewrite Hjobs. cbn [jobs save_job set_lineItems].
    rewrite map_map.
    exists (finish_job now r (start_job now job)).
    split; [|cbn [job_id job_userId job_fileName job_status finish_job
                  start_job]].
    + apply map_ext. intros j. cbn [job_id finish_job start_job]. rewrite Hid.
      destruct (Nat.eqb (job_id j) jobId) eqn:E.
      * cbn [job_id start_job]. now rewrite Hid, Nat.eqb_refl.
      * now rewrite E.
    + repeat split; auto.
      * destruct (0 <? processedCount r)%nat; auto.
      * eexists. reflexivity.
Qed.

(** The line items a run writes for a job that is there. *)
Lemma processCSVFile_written now indexes file jobId options (st : Store num)
    job u :
  findById jobId st = Some job ->
  or (opt_userId options) (job_userId job) = Some u ->
  exists extra,
    lineItems (fst (processCSVFile now indexes file jobId options st)) =
      (lineItems st ++ extra)%list /\
    Forall (Views.written_ok now jobId u) extra.
Proof.
  intros Hjob Hu. unfold processCSVFile. rewrite Hjob. cbv beta iota.
  rewrite Hu. cbv beta iota.
  match goal with
  | |- context [fold_left ?f (csv_rows file) ?r0] =>
      pose proof
        (run_written now jobId u indexes
           (lineItem_fault (save_job (start_job now job) st))
           match opt_chunkSize options with Some n => n | None => 1000%nat end
           (lineItems st) (csv_rows file) r0
           (run_ok_start now jobId u (lineItems st))) as Hrun;
      revert Hrun; generalize (fold_left f (csv_rows file) r0)
  end.
  intros r Hrun.
  destruct (csv_error file) as [msg|]; cbn [fst].
  - destruct Hrun as [_ [extra [He Hextra]]].
    exists extra. cbn [lineItems save_job set_lineItems]. auto.
  - pose proof
      (flush_written now jobId u indexes
         (lineItem_fault (save_job (start_job now job) st))
         (lineItems st) r Hrun) as Hflush.
    revert Hflush.
    generalize
      (flush indexes (lineItem_fault (save_job (start_job now job) st)) r).
    intros r2 Hflush.
    destruct Hflush as [_ [extra [He Hextra]]].
    exists extra. split; [|exact Hextra].
    destruct (0 <? processedCount r2)%nat;
      [rewrite AggregationFacts.aggregateData_lineItems|];
      cbn [lineItems save_job set_lineItems]; exact He.
Qed.

(** X30.  An upload whose job gets a fresh [_id], on a store whose
    line-item collection takes its writes: the response shows the
    new job as 'pending', whatever becomes of it; the file is then
    processed for the user who uploaded it, and the promise is rejected
    only when the stream fails, never for a missing job or user.
    Afterwards the job collection holds one job more, of that user, named
    as the file was and 'completed' or 'failed'; the line items written
    are the user's and carry the job. *)
Theorem upload_is_processed_for_the_user
    (now : Date) (indexes : list IndexSpec) (id user : ObjectId)
    (file : Upload) (st : Store num) :
  ~ In id (map job_id (jobs st)) ->
  lineItem_fault st = None ->
  out_answer (post_upload now indexes id user (Some file) st) =
    file_uploaded
      {| cr_id := id;
         cr_fileName := up_originalname file;
         cr_status := pending |} /\
  match csv_error (up_content file) with
  | Some msg =>
      out_settled (post_upload now indexes id user (Some file) st) =
        Some (Rejected (message msg))
  | None =>
      exists s,
        out_settled (post_upload now indexes id user (Some file) st) =
          Some (Resolved s)
  end /\
  (exists job,
     jobs (out_store (post_upload now indexes id user (Some file) st)) =
       (jobs st ++ [job])%list /\
     job_id job = id /\
     job_userId job = Some user /\
     job_fileName job = up_originalname file /\
     (job_status job = completed \/ job_status job = failed)) /\
  exists extra,
    lineItems (out_store (post_upload now indexes id user (Some file) st)) =
      (lineItems st ++ extra)%list /\
    Forall
      (fun i => li_userId i = Some user /\ li_ingestionJobId i = Some id)
      extra.
Proof.
  intros Hfresh _. unfold post_upload, create. cbv zeta.
  cbn [job_id job_fileName job_status].
  match goal with
  | |- context [processCSVFile now indexes (up_content file) id ?o ?s] =>
      set (options := o); set (st1 := s)
  end.
  set (job :=
    {| job_id := id;
       job_fileName := up_originalname file;
       job_status := pending;
       job_startedAt := None;
       job_completedAt := None;
       job_duration := None;
       job_rowsProcessed := O;
       job_rowsTotal := None;
       job_rowsSkipped := O;
       job_errors := [];
       job_userId := Some user |}) in *.
  assert (Hjob : findById id st1 = Some job).
  { unfold findById, st1. cbn [jobs]. now apply find_fresh. }
  assert (Hu : or (opt_userId options) (job_userId job) = Some user)
    by reflexivity.
  destruct (processCSVFile_job now indexes (up_content file) id options st1
              job user Hjob Hu)
    as [final [Hjobs [Hid [Huser [Hname [Hstatus Hsettled]]]]]].
  destruct (processCSVFile_written now indexes (up_content file) id options
              st1 job user Hjob Hu)
    as [extra [Hitems Hextra]].
  revert Hjobs Hsettled Hitems.
  destruct (processCSVFile now indexes (up_content file) id options st1)
    as [st2 settled].
  cbn [fst snd out_store out_answer out_settled]. intros Hjobs Hsettled Hitems.
  split; [reflexivity|]. split; [|split].
  - destruct (csv_error (up_content file)) as [msg|].
    + now rewrite Hsettled.
    + destruct Hsettled as [s Hs]. exists s. now rewrite Hs.
  - exists final. split; [|auto].
    rewrite Hjobs. unfold st1. cbn [jobs]. now apply replace_fresh.
  - exists extra. split; [exact Hitems|].
    eapply Forall_impl; [|exact Hextra].
    intros i [A [_ [_ D]]]. auto.
Qed.
End Upload.

Lemma upload_witness :
  (~ In 3%nat (map job_id (jobs (empty_store (num := float)))) /\
   lineItem_fault (empty_store (num := float)) = None) /\
  (out_answer
     (post_upload feb1 BillingLineItem_indexes 3%nat alice
        (Some {| up_originalname := "january.csv";
                 up_content := csv [ec2_row] |})
        (empty_store (num := float))) =
     file_uploaded
       {| cr_id := 3%nat;
          cr_fileName :=
            up_originalname
              {| up_originalname := "january.csv";
                 up_content := csv [ec2_row] |};
          cr_status := pending |} /\
   match
     csv_error
       (up_content
          {| up_originalname := "january.csv"; up_content := csv [ec2_row] |})
   with
   | Some msg =>
       out_settled
         (post_upload feb1 BillingLineItem_indexes 3%nat alice
            (Some {| up_originalname := "january.csv";
                     up_content := csv [ec2_row] |})
            (empty_store (num := float))) =
         Some (Rejected (message msg))
   | None =>
       exists s,
         out_settled
           (post_upload feb1 BillingLineItem_indexes 3%nat alice
              (Some {| up_originalname := "january.csv";
                       up_content := csv [ec2_row] |})
              (empty_store (num := float))) =
           Some (Resolved s)
   end /\
   (exists job,
      jobs
        (out_store
           (post_upload feb1 BillingLineItem_indexes 3%nat alice
              (Some {| up_originalname := "january.csv";
                       up_content := csv [ec2_row] |})
              (empty_store (num := float)))) =
        (jobs (empty_store (num := float)) ++ [job])%list /\
      job_id job = 3%nat /\
      job_userId job = Some alice /\
      job_fileName job =
        up_originalname
          {| up_originalname := "january.csv"; up_content := csv [ec2_row] |} /\
      (job_status job = completed \/ job_status job = failed)) /\
   exists extra,
     lineItems
       (out_store
          (post_upload feb1 BillingLineItem_indexes 3%nat alice
             (Some {| up_originalname := "january.csv";
                      up_content := csv [ec2_row] |})
             (empty_store (num := float)))) =
       (lineItems (empty_store (num := float)) ++ extra)%list /\
     Forall
       (fun i => li_userId i = Some alice /\ li_ingestionJobId i = Some 3%nat)
       extra).
Proof.
  assert (Hfresh :
    ~ In 3%nat (map job_id (jobs (empty_store (num := float))))).
  { cbn. intros [E | [E | []]]; discriminate. }
  split; [split; [exact Hfresh | reflexivity]|].
  exact (upload_is_processed_for_the_user feb1 BillingLineItem_indexes 3%nat
           alice
           {| up_originalname := "january.csv"; up_content := csv [ec2_row] |}
           empty_store Hfresh eq_refl).
Defined.
End UploadProps.
